(** * GreenShield backend: account and report controllers

    A shallow embedding of the Express controllers of the GreenShield
    backend (authController: signup, login, verifyOTP, resendOTP;
    reportsController: submitReport, getUserReports, getCommunityReports,
    getReportById, updateReport, deleteReport) and of
    utils/emailService.js (generateOTP, sendOTPEmail), together with the
    properties the specification states about them.

    The Prisma client is modelled as two tables keyed by primary key and a
    script of store outages; a controller is a computation in a small
    state-and-exception monad over that world, wrapped in its try/catch. *)

From Stdlib Require Import ZArith QArith String Ascii List Lia.
From stdpp Require Import base option list gmap strings sorting.

Local Open Scope Z_scope.
Local Open Scope string_scope.
Local Open Scope list_scope.

(** ** JSON values sent with [res.json] *)

#[local] Unset Elimination Schemes.
Inductive json : Type :=
| JNull
| JBool (b : bool)
| JInt (n : Z)
| JReal (q : Q)
| JStr (s : string)
| JDate (ms : Z)
| JArr (items : list json)
| JObj (fields : list (string * json)).
#[local] Set Elimination Schemes.

(** Property access [o.k]; [None] stands for [undefined]. *)
Fixpoint assoc (k : string) (fields : list (string * json)) : option json :=
  match fields with
  | [] => None
  | (k', v) :: rest => if String.eqb k k' then Some v else assoc k rest
  end.

Definition jget (k : string) (j : json) : option json :=
  match j with
  | JObj fields => assoc k fields
  | _ => None
  end.

Definition jkeys (j : json) : list string :=
  match j with
  | JObj fields => map fst fields
  | _ => []
  end.

(** [res.status(code).json(payload)] *)
Record response : Type := Response { status : Z; body : json }.

Definition failure (code : Z) (message : string) : response :=
  Response code (JObj [("success", JBool false); ("message", JStr message)]).

(** ** Rows of the two tables *)

Inductive Role : Type := USER | ADMIN.

Definition Role_eqb (a b : Role) : bool :=
  match a, b with
  | USER, USER | ADMIN, ADMIN => true
  | _, _ => false
  end.

Definition Role_toString (r : Role) : string :=
  match r with USER => "USER" | ADMIN => "ADMIN" end.

Module User.
Record t : Type := Row {
  name : string;
  mobile : string;
  email : string;
  password : string;
  isEmailVerified : bool;
  otp : option string;
  otpExpiry : option Z;
  points : Z;
  role : Role;
  createdAt : Z
}.

(** [data: { isEmailVerified: true, otp: null, otpExpiry: null }] *)
Definition verified (u : t) : t :=
  Row (name u) (mobile u) (email u) (password u)
      true None None (points u) (role u) (createdAt u).

(** [data: { otp, otpExpiry }] *)
Definition with_otp (code : string) (expiry : Z) (u : t) : t :=
  Row (name u) (mobile u) (email u) (password u)
      (isEmailVerified u) (Some code) (Some expiry)
      (points u) (role u) (createdAt u).

(** [data: { points: { increment: n } }] *)
Definition increment_points (n : Z) (u : t) : t :=
  Row (name u) (mobile u) (email u) (password u)
      (isEmailVerified u) (otp u) (otpExpiry u)
      (points u + n) (role u) (createdAt u).
End User.

Module Report.
Record t : Type := Row {
  category : string;
  description : string;
  latitude : Q;
  longitude : Q;
  address : string;
  photo : string;
  status : string;
  userId : Z;
  createdAt : Z;
  updatedAt : Z
}.

(** The [updateData] object of updateReport: [updatedAt] always, the other
    three fields only when they were put into it. *)
Record patch : Type := Patch {
  p_updatedAt : Z;
  p_description : option string;
  p_category : option string;
  p_status : option string
}.

Definition apply (p : patch) (r : t) : t :=
  Row (default (category r) (p_category p))
      (default (description r) (p_description p))
      (latitude r) (longitude r) (address r) (photo r)
      (default (status r) (p_status p))
      (userId r) (createdAt r) (p_updatedAt p).
End Report.

(** ** The store *)

Record Db : Type := MkDb {
  users : gmap Z User.t;
  reports : gmap Z Report.t;
  user_seq : Z;
  report_seq : Z
}.

Definition set_users (m : gmap Z User.t) (d : Db) : Db :=
  MkDb m (reports d) (user_seq d) (report_seq d).

Definition set_reports (m : gmap Z Report.t) (d : Db) : Db :=
  MkDb (users d) m (user_seq d) (report_seq d).

(** A world is the database together with the outages the store will suffer:
    one entry per upcoming Prisma call, [true] when that call rejects
    (connection lost, timeout); past the end of the script the store is up. *)
Record World : Type := MkWorld { db : Db; outages : list bool }.

Inductive outcome (A : Type) : Type :=
| Done (a : A)
| Thrown.
Arguments Done {A} a.
Arguments Thrown {A}.

Definition prisma (A : Type) : Type := World -> outcome A * World.

Definition ret {A} (a : A) : prisma A := fun w => (Done a, w).

(** A rejected promise: control goes to the [catch] block. *)
Definition throw {A} : prisma A := fun w => (Thrown, w).

Definition bind {A B} (m : prisma A) (k : A -> prisma B) : prisma B :=
  fun w =>
    match m w with
    | (Done a, w') => k a w'
    | (Thrown, w') => (Thrown, w')
    end.

Notation "'await' x <- m 'in' k" := (bind m (fun x => k))
  (at level 10, x name, m at level 100, k at level 200,
   format "'[v' 'await'  x  <-  m  'in' '/' k ']'").

(** One call into the Prisma client: it consumes one entry of the outage
    script and, when the store is up, runs [op] on the database. *)
Definition query {A} (op : Db -> outcome A * Db) : prisma A :=
  fun w =>
    match outages w with
    | true :: later => (Thrown, MkWorld (db w) later)
    | false :: later => let (r, d) := op (db w) in (r, MkWorld d later)
    | [] => let (r, d) := op (db w) in (r, MkWorld d [])
    end.

(** [try { ... } catch (error) { res.status(500).json(...) }] *)
Definition try_catch (m : prisma response) (handler : response)
  : World -> response * World :=
  fun w =>
    match m w with
    | (Done r, w') => (r, w')
    | (Thrown, w') => (handler, w')
    end.

Definition available (w : World) : Prop := outages w = [].

(** ** Ambient readings of one request *)

(** A finite non-negative JavaScript number (IEEE 754 binary64):
    [mantissa * 2 ^ exponent]. *)
Record double : Type := Double { mantissa : Z; exponent : Z }.

Record Env : Type := MkEnv {
  now : Z;                (* Date.now() / new Date(), in milliseconds *)
  store_now : Z;          (* the store's own clock when it stamps a new row *)
  random : double;        (* Math.random() *)
  salt : string;          (* the salt bcrypt draws for this request *)
  sendMail : string -> string -> string -> bool;
                          (* does transporter.sendMail deliver (to, otp, name)? *)
  NODE_ENV : string;      (* process.env.NODE_ENV *)
  tie_rank : Z -> Z       (* where the store puts the row with a given id among
                             rows it finds equal under [orderBy], this time *)
}.

(** Numbers are counted in units of [2 ^ -1074], the smallest positive
    double, so that every non-negative double is an integer. *)
Definition double_one : Z := 2 ^ 1074.

Definition units (d : double) : Z := mantissa d * 2 ^ (exponent d + 1074).

(** A double [d] with [0 <= d < 1]. *)
Definition unit_double (d : double) : Prop :=
  0 <= mantissa d < 2 ^ 53 /\ - 1074 <= exponent d /\ units d < double_one.

(** [0 <= Math.random() < 1] *)
Definition random_ok (env : Env) : Prop := unit_double (random env).

(** The double nearest to a non-negative number [x] (given in units,
    below the overflow threshold), ties to the even mantissa: the rounding
    every arithmetic operation on numbers applies to its exact result. *)
Definition fl (x : Z) : Z :=
  if (x <? 2 ^ 53)%Z then x
  else
    let u := 2 ^ (Z.log2 x - 52) in
    let q := x / u in
    let r := x mod u in
    (if (2 * r <? u)%Z then q
     else if (u <? 2 * r)%Z then q + 1
     else if Z.even q then q else q + 1) * u.

(** ** JavaScript primitives the controllers rely on *)

(** Truthiness of a string-valued property that may be absent. *)
Definition truthy (s : option string) : bool :=
  match s with
  | Some s => negb (String.eqb s "")
  | None => false
  end.

Definition digit_char (d : Z) : ascii :=
  ascii_of_nat (48 + Z.to_nat d).

Fixpoint digits (fuel : nat) (n : Z) (acc : string) : string :=
  match fuel with
  | O => acc
  | S fuel' =>
      let acc' := String (digit_char (n mod 10)) acc in
      if (n / 10 =? 0)%Z then acc' else digits fuel' (n / 10) acc'
  end.

(** [Number.prototype.toString] on an integer. *)
Definition toString (n : Z) : string :=
  if (n <? 0)%Z then String "-" (digits (Z.to_nat (- n)) (- n) "")
  else digits (S (Z.to_nat n)) n "".

Definition is_digit (c : ascii) : bool :=
  (48 <=? nat_of_ascii c)%nat && (nat_of_ascii c <=? 57)%nat.

Definition is_null {A} (o : option A) : bool :=
  match o with None => true | Some _ => false end.

(** [new Date() > d] for a nullable date column: both sides are converted to
    numbers, [null] to 0. *)
Definition date_gt (t : Z) (d : option Z) : bool :=
  (t >? default 0 d)%Z.

(** [a === b] for a nullable string column [a] and a JSON value [b]. *)
Definition strict_eq (a : option string) (b : json) : bool :=
  match a, b with
  | Some s, JStr t => String.eqb s t
  | None, JNull => true
  | _, _ => false
  end.

(** [Math.ceil(a / b)] for a count [a] and a page size [b]: with [b] below
    [2 ^ 15] and [a] below [2 ^ 38] the double quotient rounds to an integer
    only when the exact quotient is one, so the ceiling is the exact one. *)
Definition ceil_div (a b : Z) : Z :=
  if (a mod b =? 0)%Z then a / b else a / b + 1.

(** ** utils/emailService.js *)

(** [Math.floor(100000 + Math.random() * 900000)]: the product is rounded
    to a double, the sum is rounded to a double, and the floor is taken of
    that. *)
Definition otp_value (r : double) : Z :=
  fl (100000 * double_one + fl (units r * 900000)) / double_one.

Definition generateOTP (env : Env) : string :=
  toString (otp_value (random env)).

(** The body of sendOTPEmail catches every error of the transporter and
    returns [false]; otherwise it returns [true]. *)
Definition sendOTPEmail (env : Env) (to code name : string) : bool :=
  sendMail env to code name.

(** ** Prisma calls on the user table *)

(** Modelled from the spec: prisma/schema.prisma is not among the sources.
    The user model has a unique id and a unique email, and a new row gets the
    defaults [isEmailVerified = false], [points = 0], [role = USER] and
    [createdAt] = the store's clock at the insert; the controller passes
    everything before [created]. *)
Definition new_user (name mobile email password : string)
    (otp : string) (otpExpiry : Z) (created : Z) : User.t :=
  User.Row name mobile email password false (Some otp) (Some otpExpiry)
           0 USER created.

Definition has_email (e : string) (row : Z * User.t) : bool :=
  String.eqb (User.email row.2) e.

Definition find_email (e : string) (m : gmap Z User.t) : option (Z * User.t) :=
  List.find (has_email e) (map_to_list m).

(** [prisma.user.findUnique({ where: { email } })] *)
Definition user_findUnique (e : string) : prisma (option (Z * User.t)) :=
  query (fun d => (Done (find_email e (users d)), d)).

(** [prisma.user.create({ data })]: the store stamps [createdAt] with its
    own clock, and rejects when a unique constraint (id, email) would be
    violated. *)
Definition user_create (env : Env) (data : Z -> User.t) : prisma (Z * User.t) :=
  query (fun d =>
    let id := user_seq d in
    let u := data (store_now env) in
    match find_email (User.email u) (users d), users d !! id with
    | None, None =>
        (Done (id, u),
         MkDb (<[id := u]> (users d)) (reports d) (id + 1) (report_seq d))
    | _, _ => (Thrown, d)
    end).

(** [prisma.user.update({ where: { id }, data })]: rejects when no row has
    that id. *)
Definition user_update (id : Z) (data : User.t -> User.t)
  : prisma (Z * User.t) :=
  query (fun d =>
    match users d !! id with
    | Some u => (Done (id, data u), set_users (<[id := data u]> (users d)) d)
    | None => (Thrown, d)
    end).

Definition opt_json {A} (f : A -> json) (o : option A) : json :=
  match o with Some a => f a | None => JNull end.

Definition user_column (k : string) (row : Z * User.t) : option json :=
  let (id, u) := row in
  if String.eqb k "id" then Some (JInt id)
  else if String.eqb k "name" then Some (JStr (User.name u))
  else if String.eqb k "mobile" then Some (JStr (User.mobile u))
  else if String.eqb k "email" then Some (JStr (User.email u))
  else if String.eqb k "password" then Some (JStr (User.password u))
  else if String.eqb k "isEmailVerified" then Some (JBool (User.isEmailVerified u))
  else if String.eqb k "otp" then Some (opt_json JStr (User.otp u))
  else if String.eqb k "otpExpiry" then Some (opt_json JDate (User.otpExpiry u))
  else if String.eqb k "points" then Some (JInt (User.points u))
  else if String.eqb k "role" then Some (JStr (Role_toString (User.role u)))
  else if String.eqb k "createdAt" then Some (JDate (User.createdAt u))
  else None.

(** [select: { k1: true, k2: true, ... }] *)
Definition select_user (keys : list string) (row : Z * User.t) : json :=
  JObj (omap (fun k => pair k <$> user_column k row) keys).

Definition account_columns : list string :=
  ["id"; "name"; "mobile"; "email"; "isEmailVerified"; "createdAt"].

(** ** controllers/authController.js *)

Section AuthController.

(** bcryptjs and jsonwebtoken, configured from the process environment. *)
Variable bcrypt_hash : string -> string -> string.   (* plaintext, salt *)
Variable bcrypt_compare : string -> string -> bool.  (* plaintext, digest *)
Variable jwt_sign : Z -> Z -> string.                (* userId, issued at *)

Definition internal_error : response := failure 500 "Internal server error".

Definition registered_response (user : json) (otp : string) (emailSent : bool)
  : response :=
  if negb emailSent then
    Response 201 (JObj [
      ("success", JBool true);
      ("message", JStr ("User registered successfully! For development, use OTP: " ++ otp));
      ("data", JObj [("user", user);
                     ("emailSent", JBool false);
                     ("developmentOTP", JStr otp)])])
  else
    Response 201 (JObj [
      ("success", JBool true);
      ("message", JStr "User registered successfully. Please check your email for verification code.");
      ("data", JObj [("user", user);
                     ("emailSent", JBool true)])]).

Definition signup (env : Env) (name mobile email password : string)
  : World -> response * World :=
  try_catch
    (await existingUser <- user_findUnique email in
     match existingUser with
     | Some _ => ret (failure 400 "User with this email already exists")
     | None =>
         let hashedPassword := bcrypt_hash password (salt env) in
         let otp := generateOTP env in
         let otpExpiry := now env + 10 * 60 * 1000 in
         await created <-
           user_create env (new_user name mobile email hashedPassword
                                     otp otpExpiry) in
         let user := select_user account_columns created in
         let emailSent := sendOTPEmail env email otp name in
         ret (registered_response user otp emailSent)
     end)
    internal_error.

(** [await bcrypt.compare(password, digest)]: bcryptjs rejects with
    'Illegal arguments' unless the password is a string (the digest, a column
    of the store, always is one). *)
Definition compare (password : json) (digest : string) : prisma bool :=
  match password with
  | JStr s => ret (bcrypt_compare s digest)
  | _ => throw
  end.

(** [req.body.password] is whatever JSON value the request carried:
    loginValidation only asks that it is not empty. *)
Definition login (env : Env) (email : string) (password : json)
  : World -> response * World :=
  try_catch
    (await user <- user_findUnique email in
     match user with
     | None => ret (failure 401 "Invalid email or password")
     | Some (id, u) =>
         await isPasswordValid <- compare password (User.password u) in
         if negb isPasswordValid then
           ret (failure 401 "Invalid email or password")
         else
           let token := jwt_sign id (now env) in
           let userData := JObj [
             ("id", JInt id);
             ("name", JStr (User.name u));
             ("mobile", JStr (User.mobile u));
             ("email", JStr (User.email u));
             ("isEmailVerified", JBool (User.isEmailVerified u));
             ("createdAt", JDate (User.createdAt u))] in
           ret (Response 200 (JObj [
             ("success", JBool true);
             ("message", JStr "Login successful");
             ("data", JObj [("user", userData); ("token", JStr token)])]))
     end)
    internal_error.

Definition verified_response (updatedUser : json) (token : string) : response :=
  Response 200 (JObj [
    ("success", JBool true);
    ("message", JStr "Email verified successfully");
    ("data", JObj [("user", updatedUser); ("token", JStr token)])]).

(** [req.body.otp] is whatever JSON value the request carried. *)
Definition verifyOTP (env : Env) (email : string) (otp : json)
  : World -> response * World :=
  try_catch
    (await user <- user_findUnique email in
     match user with
     | None => ret (failure 404 "User not found")
     | Some (id, u) =>
         if User.isEmailVerified u then
           ret (failure 400 "Email is already verified")
         else if negb (truthy (User.otp u)) || is_null (User.otpExpiry u) then
           ret (failure 400 "No OTP found. Please request a new one.")
         else if date_gt (now env) (User.otpExpiry u) then
           ret (failure 400 "OTP has expired. Please request a new one.")
         else if negb (strict_eq (User.otp u) otp) then
           ret (failure 400 "Invalid OTP")
         else
           await updated <- user_update id User.verified in
           let updatedUser := select_user account_columns updated in
           let token := jwt_sign updated.1 (now env) in
           ret (verified_response updatedUser token)
     end)
    internal_error.

Definition resent_response (otp : string) (emailSent : bool) : response :=
  if negb emailSent then
    Response 200 (JObj [
      ("success", JBool true);
      ("message", JStr ("New verification code generated! For development, use OTP: " ++ otp));
      ("developmentOTP", JStr otp)])
  else
    Response 200 (JObj [
      ("success", JBool true);
      ("message", JStr "New verification code sent to your email")]).

Definition resendOTP (env : Env) (email : string)
  : World -> response * World :=
  try_catch
    (await user <- user_findUnique email in
     match user with
     | None => ret (failure 404 "User not found")
     | Some (id, u) =>
         if User.isEmailVerified u then
           ret (failure 400 "Email is already verified")
         else
           let otp := generateOTP env in
           let otpExpiry := now env + 10 * 60 * 1000 in
           await _updated <- user_update id (User.with_otp otp otpExpiry) in
           let emailSent := sendOTPEmail env email otp (User.name u) in
           ret (resent_response otp emailSent)
     end)
    internal_error.

End AuthController.

(** ** Prisma calls on the report table *)

Record where_report : Type := Where {
  w_userId : option Z;
  w_category : option string;
  w_status : option string
}.

Definition matches (w : where_report) (row : Z * Report.t) : bool :=
  match w_userId w with Some i => (Report.userId row.2 =? i)%Z | None => true end
  && match w_category w with Some c => String.eqb (Report.category row.2) c | None => true end
  && match w_status w with Some s => String.eqb (Report.status row.2) s | None => true end.

(** [orderBy: { createdAt: 'desc' }] *)
Definition newer_first (a b : Z * Report.t) : Prop :=
  Report.createdAt b.2 <= Report.createdAt a.2.

#[global] Instance newer_first_dec : RelDecision newer_first :=
  fun a b => Z_le_dec (Report.createdAt b.2) (Report.createdAt a.2).

(** The order in which one [findMany] hands the rows back: newest first,
    and rows of equal [createdAt], for which [orderBy] says nothing, in
    whatever order the store takes them in that query. *)
Definition comes_before (env : Env) (a b : Z * Report.t) : Prop :=
  Report.createdAt b.2 < Report.createdAt a.2
  \/ (Report.createdAt a.2 = Report.createdAt b.2
      /\ tie_rank env a.1 <= tie_rank env b.1).

#[global] Instance comes_before_dec (env : Env) : RelDecision (comes_before env) :=
  fun a b =>
    or_dec (Z_lt_dec (Report.createdAt b.2) (Report.createdAt a.2))
           (and_dec (Z.eq_dec (Report.createdAt a.2) (Report.createdAt b.2))
                    (Z_le_dec (tie_rank env a.1) (tie_rank env b.1))).

Definition selected (w : where_report) (m : gmap Z Report.t) : list (Z * Report.t) :=
  List.filter (matches w) (map_to_list m).

(** A report row together with its [include: { user }] relation. *)
Definition with_user (d : Db) (row : Z * Report.t)
  : (Z * Report.t) * option User.t :=
  (row, users d !! Report.userId row.2).

(** Modelled from the spec: prisma/schema.prisma is not among the sources.
    A report has a unique id and is owned by one user (the relation the
    controllers [include]), so a row can only be created for a user that
    exists. *)
Definition report_create (r : Report.t)
  : prisma ((Z * Report.t) * option User.t) :=
  query (fun d =>
    let id := report_seq d in
    match users d !! Report.userId r, reports d !! id with
    | Some _, None =>
        (Done (with_user d (id, r)),
         MkDb (users d) (<[id := r]> (reports d)) (user_seq d) (id + 1))
    | _, _ => (Thrown, d)
    end).

(** [prisma.report.findUnique({ where: { id } })] *)
Definition report_findUnique (id : Z)
  : prisma (option ((Z * Report.t) * option User.t)) :=
  query (fun d =>
    (Done ((fun r => with_user d (id, r)) <$> reports d !! id), d)).

(** [prisma.report.findMany({ where, skip, take, orderBy })] *)
Definition report_findMany (env : Env) (w : where_report) (skip limit : nat)
  : prisma (list ((Z * Report.t) * option User.t)) :=
  query (fun d =>
    (Done (with_user d <$>
             take limit
               (drop skip (merge_sort (comes_before env) (selected w (reports d))))),
     d)).

(** [prisma.report.count({ where })] *)
Definition report_count (w : where_report) : prisma Z :=
  query (fun d => (Done (Z.of_nat (length (selected w (reports d)))), d)).

(** [prisma.report.update({ where: { id }, data })] *)
Definition report_update (id : Z) (p : Report.patch)
  : prisma ((Z * Report.t) * option User.t) :=
  query (fun d =>
    match reports d !! id with
    | Some r =>
        (Done (with_user d (id, Report.apply p r)),
         set_reports (<[id := Report.apply p r]> (reports d)) d)
    | None => (Thrown, d)
    end).

(** [prisma.report.delete({ where: { id } })] *)
Definition report_delete (id : Z) : prisma unit :=
  query (fun d =>
    match reports d !! id with
    | Some _ => (Done tt, set_reports (delete id (reports d)) d)
    | None => (Thrown, d)
    end).

Definition location_json (r : Report.t) : json :=
  JObj [("latitude", JReal (Report.latitude r));
        ("longitude", JReal (Report.longitude r));
        ("address", JStr (Report.address r))].

(** A report row as Prisma returns it, with the selected columns of its
    owner under [user]. *)
Definition report_json (user_keys : list string)
    (item : (Z * Report.t) * option User.t) : json :=
  let '((id, r), owner) := item in
  JObj [("id", JInt id);
        ("category", JStr (Report.category r));
        ("description", JStr (Report.description r));
        ("latitude", JReal (Report.latitude r));
        ("longitude", JReal (Report.longitude r));
        ("address", JStr (Report.address r));
        ("photo", JStr (Report.photo r));
        ("status", JStr (Report.status r));
        ("userId", JInt (Report.userId r));
        ("createdAt", JDate (Report.createdAt r));
        ("updatedAt", JDate (Report.updatedAt r));
        ("user", opt_json (fun u => select_user user_keys (Report.userId r, u)) owner)].

(** ** controllers/reportsController.js *)

Section ReportsController.

(** [String.prototype.toUpperCase] of the JavaScript engine. *)
Variable toUpperCase : string -> string.

(** [req.user], attached by the authenticateToken middleware. *)
Record caller : Type := Caller { caller_id : Z; caller_role : Role }.

Record location : Type := Location {
  loc_latitude : Q;
  loc_longitude : Q;
  loc_address : string
}.

(** [req.body] of a submission; an absent property is [None]. *)
Record submission : Type := Submission {
  s_category : option string;
  s_description : option string;
  s_location : option location;
  s_photo : option string
}.

(** A page number or a page size as the query string gives it: decimal
    digits denoting an integer from 1 to [2 ^ 15 - 1].  In that range
    [(page - 1) * limit] stays below [2 ^ 30], so the double the controller
    computes is the exact product, [parseInt] of it is the same integer,
    and it is an Int for the store; other query strings are outside the
    model. *)
Definition count_bound : positive := 32768.

Record count : Type := Count {
  count_value : positive;
  count_small : (count_value <? count_bound)%positive = true
}.

(** [req.query] of the two listings; an absent [page] or [limit] is [None]. *)
Record listing : Type := Listing {
  q_page : option count;
  q_limit : option count;
  q_category : option string;
  q_status : option string
}.

(** [req.body] of an update. *)
Record changes : Type := Changes {
  c_description : option string;
  c_category : option string;
  c_status : option string
}.

(** The value of a property when it is truthy. *)
Definition present (s : option string) : option string :=
  if truthy s then s else None.

Definition owner_columns : list string := ["id"; "name"; "email"].
Definition reporter_columns : list string := ["id"; "name"].

Definition pointsToAward : Z := 10.

Definition submitted_response (item : (Z * Report.t) * option User.t) : response :=
  let '((id, r), owner) := item in
  Response 201 (JObj [
    ("success", JBool true);
    ("message", JStr "Report submitted successfully");
    ("data", JObj [
       ("report", JObj [
          ("id", JInt id);
          ("category", JStr (Report.category r));
          ("description", JStr (Report.description r));
          ("location", location_json r);
          ("status", JStr (Report.status r));
          ("createdAt", JDate (Report.createdAt r));
          ("user", opt_json (fun u => select_user owner_columns (Report.userId r, u)) owner)]);
       ("pointsAwarded", JInt pointsToAward)])]).

Definition submitReport (env : Env) (user : caller) (req : submission)
  : World -> response * World :=
  try_catch
    (let userId := caller_id user in
     match present (s_category req), present (s_description req),
           s_location req, present (s_photo req) with
     | Some category, Some description, Some loc, Some photo =>
         await report <-
           report_create (Report.Row category description
                            (loc_latitude loc) (loc_longitude loc) (loc_address loc)
                            photo "PENDING" userId (now env) (now env)) in
         await _awarded <-
           user_update userId (User.increment_points pointsToAward) in
         ret (submitted_response report)
     | _, _, _, _ =>
         ret (failure 400 "Missing required fields: category, description, location, and photo are required")
     end)
    (failure 500 "Internal server error while submitting report").

Definition pagination_json (page limit skip shown totalReports : Z) : json :=
  JObj [("currentPage", JInt page);
        ("totalPages", JInt (ceil_div totalReports limit));
        ("totalReports", JInt totalReports);
        ("hasNextPage", JBool (skip + shown <? totalReports)%Z);
        ("hasPrevPage", JBool (page >? 1)%Z)].

Definition page_response (user_keys : list string)
    (rows : list ((Z * Report.t) * option User.t))
    (page limit skip totalReports : Z) : response :=
  Response 200 (JObj [
    ("success", JBool true);
    ("data", JObj [
       ("reports", JArr (report_json user_keys <$> rows));
       ("pagination",
        pagination_json page limit skip (Z.of_nat (length rows)) totalReports)])]).

Definition status_filter (s : option string) : option string :=
  toUpperCase <$> present s.

Definition getUserReports (env : Env) (user : caller) (q : listing)
  : World -> response * World :=
  try_catch
    (let userId := caller_id user in
     let page := Z.pos (default 1%positive (count_value <$> q_page q)) in
     let limit := Z.pos (default 10%positive (count_value <$> q_limit q)) in
     let skip := (page - 1) * limit in
     let whereClause := Where (Some userId) None (status_filter (q_status q)) in
     await reports <-
       report_findMany env whereClause (Z.to_nat skip) (Z.to_nat limit) in
     await totalReports <- report_count whereClause in
     ret (page_response owner_columns reports page limit skip totalReports))
    (failure 500 "Internal server error while fetching reports").

Definition getCommunityReports (env : Env) (q : listing)
  : World -> response * World :=
  try_catch
    (let page := Z.pos (default 1%positive (count_value <$> q_page q)) in
     let limit := Z.pos (default 10%positive (count_value <$> q_limit q)) in
     let skip := (page - 1) * limit in
     let whereClause :=
       Where None (present (q_category q)) (status_filter (q_status q)) in
     await reports <-
       report_findMany env whereClause (Z.to_nat skip) (Z.to_nat limit) in
     await totalReports <- report_count whereClause in
     ret (page_response reporter_columns reports page limit skip totalReports))
    (failure 500 "Internal server error while fetching community reports").

(** [report.userId !== userId && req.user.role !== 'ADMIN'] *)
Definition denied (user : caller) (r : Report.t) : bool :=
  negb (Report.userId r =? caller_id user)%Z
  && negb (Role_eqb (caller_role user) ADMIN).

Definition getReportById (user : caller) (id : Z)
  : World -> response * World :=
  try_catch
    (await report <- report_findUnique id in
     match report with
     | None => ret (failure 404 "Report not found")
     | Some item =>
         if denied user item.1.2 then
           ret (failure 403 "Access denied. You can only view your own reports.")
         else
           ret (Response 200 (JObj [
             ("success", JBool true);
             ("data", JObj [("report", report_json owner_columns item)])]))
     end)
    (failure 500 "Internal server error while fetching report").

Definition updateData (env : Env) (user : caller) (req : changes) : Report.patch :=
  Report.Patch (now env)
    (present (c_description req))
    (present (c_category req))
    (if truthy (c_status req) && Role_eqb (caller_role user) ADMIN
     then toUpperCase <$> c_status req else None).

Definition updateReport (env : Env) (user : caller) (id : Z) (req : changes)
  : World -> response * World :=
  try_catch
    (await existingReport <- report_findUnique id in
     match existingReport with
     | None => ret (failure 404 "Report not found")
     | Some item =>
         if denied user item.1.2 then
           ret (failure 403 "Access denied. You can only update your own reports.")
         else
           await updatedReport <- report_update id (updateData env user req) in
           ret (Response 200 (JObj [
             ("success", JBool true);
             ("message", JStr "Report updated successfully");
             ("data", JObj [("report", report_json owner_columns updatedReport)])]))
     end)
    (failure 500 "Internal server error while updating report").

Definition deleteReport (user : caller) (id : Z)
  : World -> response * World :=
  try_catch
    (await existingReport <- report_findUnique id in
     match existingReport with
     | None => ret (failure 404 "Report not found")
     | Some item =>
         if denied user item.1.2 then
           ret (failure 403 "Access denied. You can only delete your own reports.")
         else
           await _gone <- report_delete id in
           ret (Response 200 (JObj [
             ("success", JBool true);
             ("message", JStr "Report deleted successfully")]))
     end)
    (failure 500 "Internal server error while deleting report").

End ReportsController.

(** [getCurrentUser]: answers with [req.user] as the authenticateToken
    middleware attached it. *)
Definition getCurrentUser (user : json) : World -> response * World :=
  try_catch
    (ret (Response 200 (JObj [
       ("success", JBool true);
       ("data", JObj [("user", user)])])))
    internal_error.

(** ** middleware/validation.js: handleValidationErrors *)

(** One entry of [validationResult(req).array()]. *)
Record validation_error : Type := ValidationError { path : string; msg : string }.

Definition error_json (error : validation_error) : json :=
  JObj [("field", JStr (path error)); ("message", JStr (msg error))].

(** [if (!errors.isEmpty()) return res.status(400).json(...); next();] *)
Definition handleValidationErrors (errors : list validation_error)
    (next : World -> response * World) : World -> response * World :=
  fun w =>
    match errors with
    | [] => next w
    | _ :: _ =>
        (Response 400 (JObj [
           ("success", JBool false);
           ("message", JStr "Validation failed");
           ("errors", JArr (error_json <$> errors))]), w)
    end.

(** [router.post('/', authenticateToken, reportValidation,
    handleValidationErrors, reportsController.submitReport)], from the point
    where the caller is authenticated and the validation chain has run. *)
Definition post_report (errors : list validation_error)
    (env : Env) (user : caller) (req : submission) : World -> response * World :=
  handleValidationErrors errors (submitReport env user req).

(** ** Notions the properties are stated with *)

(** [j.k1.k2...] *)
Fixpoint jpath (path : list string) (j : json) : option json :=
  match path with
  | [] => Some j
  | k :: rest =>
      match jget k j with
      | Some v => jpath rest v
      | None => None
      end
  end.

(** A user object fit to be returned: no password digest, no OTP state. *)
Definition sanitized (user : json) : Prop :=
  jget "password" user = None
  /\ jget "otp" user = None
  /\ jget "otpExpiry" user = None.

(** The invariant of a user row: [otp] and [otpExpiry] are set together, and
    a verified user has no OTP. *)
Definition user_ok (u : User.t) : Prop :=
  (User.otp u = None <-> User.otpExpiry u = None)
  /\ (User.isEmailVerified u = true -> User.otp u = None).

Definition users_ok (d : Db) : Prop :=
  map_Forall (fun _ u => user_ok u) (users d).

(** A Hoare triple for one Prisma computation: from a database satisfying
    [P], a normal return satisfies [Q] and a rejection leaves [I]. *)
Definition hoare {A} (I P : Db -> Prop) (m : prisma A) (Q : A -> Db -> Prop)
  : Prop :=
  forall w, P (db w) ->
    match m w with
    | (Done a, w') => Q a (db w')
    | (Thrown, w') => I (db w')
    end.

(** The reading of the expiry rule in which the creation of the account is
    the row's [createdAt]. *)
Definition expiry_from_creation (u : User.t) : Prop :=
  User.otpExpiry u = Some (User.createdAt u + 10 * 60 * 1000).

(** The six-digit shape of a one-time code. *)
Definition six_digits (code : string) : Prop :=
  String.length code = 6%nat
  /\ forallb is_digit (list_ascii_of_string code) = true.

(** Sample collaborators and worlds on which the statements are exercised. *)
Definition demo_hash (plain salt : string) : string := plain ++ "#" ++ salt.
Definition demo_compare (plain digest : string) : bool :=
  String.eqb digest (demo_hash plain "s").
Definition demo_sign (userId issued : Z) : string :=
  "jwt." ++ toString userId ++ "." ++ toString issued.

(** An engine whose [toUpperCase] maps the letters a-z and leaves every
    other byte. *)
Definition demo_upper_char (c : ascii) : ascii :=
  let n := nat_of_ascii c in
  if (97 <=? n)%nat && (n <=? 122)%nat then ascii_of_nat (n - 32) else c.

Fixpoint demo_upper (s : string) : string :=
  match s with
  | EmptyString => EmptyString
  | String c rest => String (demo_upper_char c) (demo_upper rest)
  end.

(** [Math.random()] returning 0.5. *)
Definition half : double := Double 1 (-1).

Definition env_mail_down : Env :=
  MkEnv 1000 1000 half "s" (fun _ _ _ => false) "production" (fun id => id).
Definition env_mail_up : Env :=
  MkEnv 1000 1000 half "s" (fun _ _ _ => true) "production" (fun id => id).

(** The store stamps the row seven milliseconds after the controller read
    the clock. *)
Definition env_store_late : Env :=
  MkEnv 1000 1007 half "s" (fun _ _ _ => true) "production" (fun id => id).

Definition ann : User.t :=
  User.Row "Ann" "0123456789" "ann@x.org" "Pw1234#s"
           false (Some "550000") (Some 601000) 0 USER 1000.
Definition bob : User.t :=
  User.Row "Bob" "9876543210" "bob@x.org" "Qw5678#s"
           true None None 30 ADMIN 500.

Definition db_empty : Db := MkDb ∅ ∅ 1 1.
Definition db_two : Db := MkDb (<[1 := ann]> (<[2 := bob]> ∅)) ∅ 3 1.

Definition world_two : World := MkWorld db_two [].

Definition env_at_expiry : Env :=
  MkEnv 601000 601000 half "s" (fun _ _ _ => true) "production" (fun id => id).

Definition mangrove : submission :=
  Submission (Some "illegal-cutting") (Some "Trees felled near the creek")
             (Some (Location (21 # 1) (72 # 1) "Creek road")) (Some "base64").

Definition felled : Report.t :=
  Report.Row "illegal-cutting" "Trees felled near the creek"
             (21 # 1) (72 # 1) "Creek road" "base64" "PENDING" 1 1000 1000.

Definition db_report : Db := MkDb (users db_two) (<[1 := felled]> ∅) 3 2.
Definition world_report : World := MkWorld db_report [].

Definition nth_report (i : nat) : Z * Report.t :=
  (Z.of_nat i,
   Report.Row "pollution" "Oil on the water surface" (21 # 1) (72 # 1)
              "Jetty" "base64" "PENDING" 1 (100 * Z.of_nat i) (100 * Z.of_nat i)).

Definition db_fifteen : Db :=
  MkDb (users db_two) (list_to_map (nth_report <$> seq 1 15)) 3 16.
Definition world_fifteen : World := MkWorld db_fifteen [].

(** The all-or-nothing reading of a submission: after the request, a report
    that was not in the store before is there only together with the award
    to its owner. *)
Definition award_follows_report
    (env : Env) (user : caller) (req : submission) (w : World) : Prop :=
  let w' := (submitReport env user req w).2 in
  forall id,
    reports (db w) !! id = None -> is_Some (reports (db w') !! id) ->
    exists u u',
      users (db w) !! caller_id user = Some u
      /\ users (db w') !! caller_id user = Some u'
      /\ User.points u' = User.points u + pointsToAward.

(** ** Further notions *)

(** No two user rows share an email. *)
Definition unique_emails (m : gmap Z User.t) : Prop :=
  forall i j u v,
    m !! i = Some u -> m !! j = Some v -> User.email u = User.email v -> i = j.

(** The store is consistent: emails are unique, both id sequences are ahead
    of every row, and every report has its owner. *)
Definition consistent (d : Db) : Prop :=
  unique_emails (users d)
  /\ (forall id, user_seq d <= id -> users d !! id = None)
  /\ (forall id, report_seq d <= id -> reports d !! id = None)
  /\ (forall id r, reports d !! id = Some r -> is_Some (users d !! Report.userId r)).

(** The [data] objects the controllers pass to [prisma.user.update]. *)
Inductive user_write : (User.t -> User.t) -> Prop :=
| write_verified : user_write User.verified
| write_otp (code : string) (expiry : Z) : user_write (User.with_otp code expiry)
| write_points : user_write (User.increment_points pointsToAward).

(** What may happen to a user row: identity, credentials and role stay, and
    points do not go down. *)
Definition user_evolves (u u' : User.t) : Prop :=
  User.name u' = User.name u
  /\ User.mobile u' = User.mobile u
  /\ User.email u' = User.email u
  /\ User.password u' = User.password u
  /\ User.role u' = User.role u
  /\ User.createdAt u' = User.createdAt u
  /\ User.points u <= User.points u'.

Definition users_evolve (d d' : Db) : Prop :=
  forall id u, users d !! id = Some u ->
    exists u', users d' !! id = Some u' /\ user_evolves u u'.

(** The ten controllers as requests. *)
Inductive request : Type :=
| Signup (name mobile email password : string)
| Login (email : string) (password : json)
| VerifyOTP (email : string) (otp : json)
| ResendOTP (email : string)
| Submit (user : caller) (req : submission)
| ListOwn (user : caller) (q : listing)
| ListCommunity (q : listing)
| GetById (user : caller) (id : Z)
| Update (user : caller) (id : Z) (req : changes)
| Delete (user : caller) (id : Z).

Definition handle (toUpperCase : string -> string)
    (bcrypt_hash : string -> string -> string)
    (bcrypt_compare : string -> string -> bool) (jwt_sign : Z -> Z -> string)
    (env : Env) (rq : request) : World -> response * World :=
  match rq with
  | Signup name mobile email password =>
      signup bcrypt_hash env name mobile email password
  | Login email password => login bcrypt_compare jwt_sign env email password
  | VerifyOTP email otp => verifyOTP jwt_sign env email otp
  | ResendOTP email => resendOTP env email
  | Submit user req => submitReport env user req
  | ListOwn user q => getUserReports toUpperCase env user q
  | ListCommunity q => getCommunityReports toUpperCase env q
  | GetById user id => getReportById user id
  | Update user id req => updateReport toUpperCase env user id req
  | Delete user id => deleteReport user id
  end.

(** The requests that only read. *)
Definition reads_only (rq : request) : bool :=
  match rq with
  | Login _ _ | ListOwn _ _ | ListCommunity _ | GetById _ _ => true
  | _ => false
  end.

(** The answer of each controller's [catch] block. *)
Definition catch_response (rq : request) : response :=
  match rq with
  | Signup _ _ _ _ | Login _ _ | VerifyOTP _ _ | ResendOTP _ => internal_error
  | Submit _ _ => failure 500 "Internal server error while submitting report"
  | ListOwn _ _ => failure 500 "Internal server error while fetching reports"
  | ListCommunity _ =>
      failure 500 "Internal server error while fetching community reports"
  | GetById _ _ => failure 500 "Internal server error while fetching report"
  | Update _ _ _ => failure 500 "Internal server error while updating report"
  | Delete _ _ => failure 500 "Internal server error while deleting report"
  end.

(** Page [p] (from 1) of size [size] of the matching rows, in the order the
    store hands them back for this request. *)
Definition page_rows (env : Env) (wh : where_report) (m : gmap Z Report.t)
    (size p : positive) : list (Z * Report.t) :=
  take (Z.to_nat (Z.pos size))
       (drop (Z.to_nat ((Z.pos p - 1) * Z.pos size))
             (merge_sort (comes_before env) (selected wh m))).

(** What the body of a listing response says, read property by property:
    the reports in order (id, owner, category, description, status and the
    two dates of each), the page number, a number of pages that is the
    least one holding [total] reports at [limit] per page, the total, and
    the two flags. *)
Definition page_of (resp : response) (rows : list (Z * Report.t))
    (page limit total : Z) : Prop :=
  status resp = 200
  /\ jget "success" (body resp) = Some (JBool true)
  /\ (exists items : list json,
        jpath ["data"; "reports"] (body resp) = Some (JArr items)
        /\ length items = length rows
        /\ forall (i : nat) (row : Z * Report.t), rows !! i = Some row ->
             exists item : json,
               items !! i = Some item
               /\ jget "id" item = Some (JInt row.1)
               /\ jget "userId" item = Some (JInt (Report.userId row.2))
               /\ jget "category" item = Some (JStr (Report.category row.2))
               /\ jget "description" item = Some (JStr (Report.description row.2))
               /\ jget "status" item = Some (JStr (Report.status row.2))
               /\ jget "createdAt" item = Some (JDate (Report.createdAt row.2))
               /\ jget "updatedAt" item = Some (JDate (Report.updatedAt row.2)))
  /\ jpath ["data"; "pagination"; "currentPage"] (body resp) = Some (JInt page)
  /\ (exists totalPages : Z,
        jpath ["data"; "pagination"; "totalPages"] (body resp)
        = Some (JInt totalPages)
        /\ (totalPages - 1) * limit < total <= totalPages * limit)
  /\ jpath ["data"; "pagination"; "totalReports"] (body resp) = Some (JInt total)
  /\ (exists hasNextPage : bool,
        jpath ["data"; "pagination"; "hasNextPage"] (body resp)
        = Some (JBool hasNextPage)
        /\ (hasNextPage = true <->
            (page - 1) * limit + Z.of_nat (length rows) < total))
  /\ (exists hasPrevPage : bool,
        jpath ["data"; "pagination"; "hasPrevPage"] (body resp)
        = Some (JBool hasPrevPage)
        /\ (hasPrevPage = true <-> 1 < page)).

(** The ids of the reports a listing answered with, in the order of the
    response; none when the response carries no list. *)
Definition listed_ids (resp : response) : list Z :=
  match jpath ["data"; "reports"] (body resp) with
  | Some (JArr items) =>
      omap (fun item => match jget "id" item with
                        | Some (JInt id) => Some id
                        | _ => None
                        end) items
  | _ => []
  end.

(** The store reverses its treatment of ties from one query to the next. *)
Definition env_ties (i : nat) : Env :=
  MkEnv 1000 1000 half "s" (fun _ _ _ => true) "production"
        (fun id => if Nat.even i then id else - id).

Definition first_pages (i : nat) : count :=
  match i with
  | O => Count 1 eq_refl
  | _ => Count 2 eq_refl
  end.

(** No two matching reports were created in the same millisecond. *)
Definition distinct_times (rows : list (Z * Report.t)) : Prop :=
  forall a b, a ∈ rows -> b ∈ rows ->
    Report.createdAt a.2 = Report.createdAt b.2 -> a = b.

(** A computation keeps [I]: from [I] it ends in [I], returning or rejecting. *)
Definition keeps {A} (I : Db -> Prop) (m : prisma A) : Prop :=
  hoare I I m (fun _ d => I d).

(** A submission that passes the required-field check of submitReport. *)
Definition complete (req : submission) : bool :=
  truthy (s_category req) && truthy (s_description req)
  && negb (is_null (s_location req)) && truthy (s_photo req).

(** A run of submissions by one caller, one request after the other. *)
Fixpoint submit_all (user : caller) (reqs : list (Env * submission)) (w : World)
  : World :=
  match reqs with
  | [] => w
  | (env, req) :: rest => submit_all user rest (submitReport env user req w).2
  end.

(** Does a JSON value have a property named [k], at any depth? *)
Fixpoint has_key (k : string) (j : json) : bool :=
  match j with
  | JArr items => existsb (has_key k) items
  | JObj fields =>
      existsb (fun kv => String.eqb (fst kv) k || has_key k (snd kv)) fields
  | _ => false
  end.

(** A response that discloses no credential column of the user table. *)
Definition discreet (r : response) : Prop :=
  has_key "password" (body r) = false
  /\ has_key "otp" (body r) = false
  /\ has_key "otpExpiry" (body r) = false.

Definition half_filled : submission :=
  Submission (Some "pollution") (Some "") (Some (Location (21 # 1) (72 # 1) "Jetty"))
             (Some "base64").

Definition reword : changes :=
  Changes (Some "Stumps counted: fourteen") None (Some "approved").

(** * Properties *)

(** ** The store *)

Lemma available_world (w : World) : available w -> w = MkWorld (db w) [].
Proof. destruct w as [d o]. unfold available. simpl. intros ->. reflexivity. Qed.

(** A Prisma call either rejects and leaves the database alone, or runs. *)
Lemma query_run {A} (op : Db -> outcome A * Db) (w : World) :
  query op w = (Thrown, MkWorld (db w) (tail (outages w)))
  \/ query op w = ((op (db w)).1, MkWorld (op (db w)).2 (tail (outages w))).
Proof.
  unfold query. destruct w as [d [|[|] later]]; simpl; destruct (op d); auto.
Qed.

Lemma find_email_Some (e : string) (m : gmap Z User.t) (id : Z) (u : User.t) :
  find_email e m = Some (id, u) -> m !! id = Some u /\ User.email u = e.
Proof.
  unfold find_email. intros H.
  apply find_some in H as [Hin He]. split.
  - apply elem_of_map_to_list. apply list_elem_of_In. exact Hin.
  - unfold has_email in He. simpl in He. apply String.eqb_eq. exact He.
Qed.

Lemma user_findUnique_up (e : string) (d : Db) :
  user_findUnique e (MkWorld d []) = (Done (find_email e (users d)), MkWorld d []).
Proof. reflexivity. Qed.

Lemma user_update_up (id : Z) (f : User.t -> User.t) (d : Db) (u : User.t) :
  users d !! id = Some u ->
  user_update id f (MkWorld d []) =
  (Done (id, f u), MkWorld (set_users (<[id := f u]> (users d)) d) []).
Proof. intros H. unfold user_update, query. simpl. rewrite H. reflexivity. Qed.

Lemma user_create_up (env : Env) (data : Z -> User.t) (d : Db) :
  let u := data (store_now env) in
  find_email (User.email u) (users d) = None ->
  users d !! user_seq d = None ->
  user_create env data (MkWorld d []) =
  (Done (user_seq d, u),
   MkWorld (MkDb (<[user_seq d := u]> (users d)) (reports d)
                 (user_seq d + 1) (report_seq d)) []).
Proof.
  intros u H1 H2. unfold user_create, query. simpl. fold u.
  rewrite H1, H2. reflexivity.
Qed.

Lemma account_columns_sanitized (row : Z * User.t) :
  sanitized (select_user account_columns row).
Proof. destruct row as [id u]. repeat split. Qed.

Lemma gtb_false (a b : Z) : a <= b -> (a >? b) = false.
Proof. intros H. rewrite Z.gtb_ltb. apply Z.ltb_ge. exact H. Qed.

Lemma gtb_true (a b : Z) : a > b -> (a >? b) = true.
Proof. intros H. apply Z.gtb_lt. lia. Qed.


(** ** emailService: the one-time code *)

Lemma fl_small x : x < 2 ^ 53 -> fl x = x.
Proof. intros H. unfold fl. apply Z.ltb_lt in H. rewrite H. reflexivity. Qed.

(** Above [2 ^ 53] the result is a 53-bit mantissa, next to the exact one. *)
Lemma fl_big x :
  2 ^ 53 <= x ->
  exists s m, 1 <= s /\ s = Z.log2 x - 52 /\ fl x = m * 2 ^ s
    /\ x / 2 ^ s <= m <= x / 2 ^ s + 1
    /\ (2 * (x mod 2 ^ s) < 2 ^ s -> m = x / 2 ^ s).
Proof.
  intros H. unfold fl.
  replace (x <? 2 ^ 53)%Z with false by (symmetry; apply Z.ltb_ge; exact H).
  assert (Hlog : 53 <= Z.log2 x).
  { apply Z.log2_le_pow2; [| exact H]. pose proof (Z.pow_pos_nonneg 2 53). lia. }
  exists (Z.log2 x - 52). cbv zeta.
  set (u := 2 ^ (Z.log2 x - 52)).
  destruct (Z.ltb_spec (2 * (x mod u)) u) as [Hlt | Hge].
  - exists (x / u). repeat split; try lia.
  - destruct (Z.ltb_spec u (2 * (x mod u))).
    + exists (x / u + 1). repeat split; try lia.
    + destruct (Z.even (x / u)).
      * exists (x / u). repeat split; try lia.
      * exists (x / u + 1). repeat split; try lia.
Qed.

Lemma fl_le_grid x k t :
  0 <= x -> 0 <= t -> x <= k * 2 ^ t -> x < 2 ^ (t + 53) -> fl x <= k * 2 ^ t.
Proof.
  intros Hx Ht Hle Hlt.
  destruct (Z.lt_ge_cases x (2 ^ 53)) as [Hs | Hb].
  - rewrite fl_small by exact Hs. exact Hle.
  - destruct (fl_big x Hb) as (s & m & Hs1 & Hs & -> & Hm & Hdown).
    assert (Hx0 : 0 < x) by (pose proof (Z.pow_pos_nonneg 2 53); lia).
    assert (Hst : s <= t).
    { assert (Z.log2 x < t + 53) by (apply Z.log2_lt_pow2; assumption). lia. }
    assert (Hu : 0 < 2 ^ s) by (apply Z.pow_pos_nonneg; lia).
    assert (Ek : k * 2 ^ t = (k * 2 ^ (t - s)) * 2 ^ s).
    { rewrite <- Z.mul_assoc, <- Z.pow_add_r by lia. f_equal. f_equal. lia. }
    rewrite Ek in *. set (K := k * 2 ^ (t - s)) in *. set (u := 2 ^ s) in *.
    pose proof (Z.div_mod x u ltac:(lia)) as Hdm.
    pose proof (Z.mod_pos_bound x u Hu) as Hr.
    apply Z.mul_le_mono_nonneg_r; [lia |].
    destruct (Z.lt_ge_cases (x / u) K) as [Hq | Hq]; [lia |].
    assert (x / u = K) by nia.
    assert (x mod u = 0) by nia.
    rewrite Hdown; lia.
Qed.

Lemma fl_ge_grid x k t :
  0 <= k * 2 ^ t -> 0 <= t -> k * 2 ^ t <= x -> x < 2 ^ (t + 53) -> k * 2 ^ t <= fl x.
Proof.
  intros Hk Ht Hle Hlt.
  destruct (Z.lt_ge_cases x (2 ^ 53)) as [Hs | Hb].
  - rewrite fl_small by exact Hs. exact Hle.
  - destruct (fl_big x Hb) as (s & m & Hs1 & Hs & -> & Hm & Hdown).
    assert (Hx0 : 0 < x) by (pose proof (Z.pow_pos_nonneg 2 53); lia).
    assert (Hst : s <= t).
    { assert (Z.log2 x < t + 53) by (apply Z.log2_lt_pow2; assumption). lia. }
    assert (Hu : 0 < 2 ^ s) by (apply Z.pow_pos_nonneg; lia).
    assert (Ek : k * 2 ^ t = (k * 2 ^ (t - s)) * 2 ^ s).
    { rewrite <- Z.mul_assoc, <- Z.pow_add_r by lia. f_equal. f_equal. lia. }
    rewrite Ek in *. set (K := k * 2 ^ (t - s)) in *. set (u := 2 ^ s) in *.
    pose proof (Z.div_mod x u ltac:(lia)) as Hdm.
    pose proof (Z.mod_pos_bound x u Hu) as Hr.
    apply Z.mul_le_mono_nonneg_r; [lia |].
    assert (K <= x / u) by nia. lia.
Qed.

Lemma pow_split : 2 ^ 1074 = 9007199254740992 * 2 ^ 1021
  /\ 2 ^ 1041 = 1048576 * 2 ^ 1021
  /\ 2 ^ 1093 = 4722366482869645213696 * 2 ^ 1021
  /\ 2 ^ 1094 = 9444732965739290427392 * 2 ^ 1021
  /\ 0 < 2 ^ 1021.
Proof.
  split; [| split; [| split; [| split]]].
  - change 1074 with (53 + 1021). rewrite Z.pow_add_r by lia. reflexivity.
  - change 1041 with (20 + 1021). rewrite Z.pow_add_r by lia. reflexivity.
  - change 1093 with (72 + 1021). rewrite Z.pow_add_r by lia. reflexivity.
  - change 1094 with (73 + 1021). rewrite Z.pow_add_r by lia. reflexivity.
  - apply Z.pow_pos_nonneg; lia.
Qed.

(** A double below 1 is at most 1 - 2^-53. *)
Lemma units_below_one (d : double) :
  unit_double d -> 0 <= units d <= double_one - 2 ^ 1021.
Proof.
  intros ([Hm0 Hm] & He & Hlt). unfold units, double_one in *.
  set (k := exponent d + 1074) in *. assert (Hk : 0 <= k) by lia.
  assert (Hp : 0 < 2 ^ k) by (apply Z.pow_pos_nonneg; lia).
  destruct pow_split as (E1 & _ & _ & _ & HP).
  split; [nia |].
  destruct (Z.lt_ge_cases k 1021) as [Hlow | Hhigh].
  - assert (2 ^ k <= 2 ^ 1020) by (apply Z.pow_le_mono_r; lia).
    assert (E : 2 ^ 1021 = 2 * 2 ^ 1020).
    { change 1021 with (1 + 1020). rewrite Z.pow_add_r by lia. reflexivity. }
    change (2 ^ 53) with 9007199254740992 in Hm.
    rewrite E1, E. nia.
  - assert (E : 2 ^ k = 2 ^ (k - 1021) * 2 ^ 1021).
    { rewrite <- Z.pow_add_r by lia. f_equal. lia. }
    assert (0 < 2 ^ (k - 1021)) by (apply Z.pow_pos_nonneg; lia).
    rewrite E, E1 in *. set (P := 2 ^ 1021) in *. set (c := 2 ^ (k - 1021)) in *.
    assert (mantissa d * c < 9007199254740992) by nia.
    nia.
Qed.

Lemma fl_product (R : Z) :
  0 <= R <= double_one - 2 ^ 1021 ->
  0 <= fl (R * 900000) <= 900000 * double_one - 2 ^ 1041.
Proof.
  intros [H0 H1]. unfold double_one in *.
  destruct pow_split as (E1 & E2 & E3 & E4 & HP).
  split.
  - replace 0 with (0 * 2 ^ 0) by reflexivity.
    destruct (Z.lt_ge_cases (R * 900000) (2 ^ 53)) as [Hs | Hb].
    + rewrite fl_small by exact Hs. simpl. lia.
    + destruct (fl_big _ Hb) as (s & m & Hs1 & Hs & -> & Hm & _).
      assert (0 < 2 ^ s) by (apply Z.pow_pos_nonneg; lia).
      assert (0 <= R * 900000 / 2 ^ s) by (apply Z.div_pos; lia).
      simpl. nia.
  - set (Y := R * 900000).
    destruct (Z.le_gt_cases Y (900000 * 2 ^ 1074 - 2 ^ 1041)) as [Hle | Hgt].
    + replace (900000 * 2 ^ 1074 - 2 ^ 1041)
        with ((900000 * 8589934592 - 1) * 2 ^ 1041) in *
        by (rewrite E1, E2; lia).
      apply fl_le_grid; [unfold Y; lia | lia | exact Hle |].
      change (1041 + 53) with 1094. rewrite E4. rewrite E1 in H1. unfold Y. lia.
    + assert (Hb : 2 ^ 53 <= Y).
      { change (2 ^ 53) with 9007199254740992. rewrite E1, E2 in Hgt. lia. }
      destruct (fl_big Y Hb) as (s & m & _ & Hs & -> & _ & Hdown).
      assert (Hlog : Z.log2 Y = 1093).
      { apply Z.log2_unique; [lia |]. change (Z.succ 1093) with 1094.
        rewrite E3, E4. rewrite E1, E2 in Hgt. rewrite E1 in H1. unfold Y. lia. }
      rewrite Hlog in Hs. subst s. change (1093 - 52) with 1041 in *.
      set (k := 900000 * 8589934592 - 1).
      assert (Hq : Y / 2 ^ 1041 = k /\ Y mod 2 ^ 1041 = Y - k * 2 ^ 1041).
      { assert (Hd : Y = 2 ^ 1041 * k + (Y - k * 2 ^ 1041)) by lia.
        assert (Hr : 0 <= Y - k * 2 ^ 1041 < 2 ^ 1041).
        { unfold k, Y. rewrite E2. rewrite E1, E2 in Hgt. rewrite E1 in H1. lia. }
        split.
        - symmetry. eapply Z.div_unique_pos; eauto.
        - symmetry. eapply Z.mod_unique_pos; eauto. }
      destruct Hq as [Hq Hr]. rewrite Hdown.
      * rewrite Hq. unfold k. rewrite E1, E2. lia.
      * rewrite Hr. unfold k, Y. rewrite E2. rewrite E1 in H1. lia.
Qed.

Lemma otp_value_range (r : double) :
  unit_double r -> 100000 <= otp_value r <= 999999.
Proof.
  intros Hr. unfold otp_value.
  pose proof (fl_product _ (units_below_one r Hr)) as [Hp0 Hp1].
  set (p := fl (units r * 900000)) in *. unfold double_one in *.
  destruct pow_split as (E1 & E2 & E3 & E4 & HP).
  assert (Hone : 0 < 2 ^ 1074) by (rewrite E1; lia).
  assert (Hlo : 100000 * 2 ^ 1074 <= fl (100000 * 2 ^ 1074 + p)).
  { apply fl_ge_grid; [lia | lia | lia |].
    replace (2 ^ (1074 + 53)) with (2 ^ 33 * 2 ^ 1094)
      by (rewrite <- Z.pow_add_r by lia; reflexivity).
    change (2 ^ 33) with 8589934592. rewrite E4. rewrite E1 in *. rewrite E2 in Hp1. lia. }
  assert (Hhi : fl (100000 * 2 ^ 1074 + p) <= (1000000 * 8589934592 - 1) * 2 ^ 1041).
  { apply fl_le_grid; [lia | lia | rewrite E1, E2 in *; lia |].
    change (1041 + 53) with 1094. rewrite E4. rewrite E1 in *. rewrite E2 in Hp1. lia. }
  split.
  - apply Z.div_le_lower_bound; [exact Hone | lia].
  - assert (fl (100000 * 2 ^ 1074 + p) / 2 ^ 1074 < 1000000); [| lia].
    apply Z.div_lt_upper_bound; [exact Hone |].
    rewrite E1, E2 in *. lia.
Qed.

(** The two roundings can carry the sum past an integer that the exact
    value stays below: for Math.random() = 123183457807755 / 2 ^ 52 the
    exact value of 100000 + r * 900000 is below 124617 and the code is
    124617. *)
Lemma otp_value_rounds_up :
  unit_double (Double 123183457807755 (-52))
  /\ units (Double 123183457807755 (-52)) * 900000 + 100000 * double_one
     < 124617 * double_one
  /\ otp_value (Double 123183457807755 (-52)) = 124617.
Proof. vm_compute. repeat split; discriminate. Qed.

Lemma digit_char_is_digit (d : Z) : 0 <= d <= 9 -> is_digit (digit_char d) = true.
Proof.
  intros H.
  assert (C : d = 0 \/ d = 1 \/ d = 2 \/ d = 3 \/ d = 4 \/ d = 5
              \/ d = 6 \/ d = 7 \/ d = 8 \/ d = 9) by lia.
  repeat (destruct C as [-> | C]; [reflexivity |]). subst d. reflexivity.
Qed.

Lemma toString_six (v : Z) : 100000 <= v <= 999999 -> six_digits (toString v).
Proof.
  intros Hv. unfold toString.
  replace (v <? 0)%Z with false by (symmetry; apply Z.ltb_ge; lia).
  destruct (Z.to_nat v) as [|[|[|[|[|k]]]]] eqn:E; try lia.
  set (v1 := v / 10). set (v2 := v1 / 10). set (v3 := v2 / 10).
  set (v4 := v3 / 10). set (v5 := v4 / 10).
  assert (H1 : 10000 <= v1 <= 99999) by (unfold v1; Z.to_euclidean_division_equations; lia).
  assert (H2 : 1000 <= v2 <= 9999) by (unfold v2; Z.to_euclidean_division_equations; lia).
  assert (H3 : 100 <= v3 <= 999) by (unfold v3; Z.to_euclidean_division_equations; lia).
  assert (H4 : 10 <= v4 <= 99) by (unfold v4; Z.to_euclidean_division_equations; lia).
  assert (H5 : 1 <= v5 <= 9) by (unfold v5; Z.to_euclidean_division_equations; lia).
  assert (H6 : v5 / 10 = 0) by (Z.to_euclidean_division_equations; lia).
  cbn [digits]. fold v1. 
  replace (v1 =? 0)%Z with false by (symmetry; apply Z.eqb_neq; lia).
  fold v2. replace (v2 =? 0)%Z with false by (symmetry; apply Z.eqb_neq; lia).
  fold v3. replace (v3 =? 0)%Z with false by (symmetry; apply Z.eqb_neq; lia).
  fold v4. replace (v4 =? 0)%Z with false by (symmetry; apply Z.eqb_neq; lia).
  fold v5. replace (v5 =? 0)%Z with false by (symmetry; apply Z.eqb_neq; lia).
  rewrite H6. cbn [Z.eqb].
  unfold six_digits. split; [reflexivity |].
  cbn [list_ascii_of_string forallb].
  rewrite !digit_char_is_digit; [reflexivity | ..];
    Z.to_euclidean_division_equations; lia.
Qed.

(** ** Hoare rules for Prisma computations *)

Lemma hoare_ret {A} (I P : Db -> Prop) (a : A) (Q : A -> Db -> Prop) :
  (forall d, P d -> Q a d) -> hoare I P (ret a) Q.
Proof. intros H w Hw. simpl. auto. Qed.

Lemma hoare_bind {A B} (I P : Db -> Prop) (m : prisma A) (Q : A -> Db -> Prop)
    (k : A -> prisma B) (R : B -> Db -> Prop) :
  hoare I P m Q -> (forall a, hoare I (Q a) (k a) R) -> hoare I P (bind m k) R.
Proof.
  intros Hm Hk w Hw. unfold bind. specialize (Hm w Hw).
  destruct (m w) as [[a |] w']; [apply Hk; exact Hm | exact Hm].
Qed.

Lemma hoare_query {A} (I P : Db -> Prop) (op : Db -> outcome A * Db)
    (Q : A -> Db -> Prop) :
  (forall d, P d -> I d) ->
  (forall d, P d ->
     match op d with
     | (Done a, d') => Q a d'
     | (Thrown, d') => I d'
     end) ->
  hoare I P (query op) Q.
Proof.
  intros HI Hop w Hw.
  destruct (query_run op w) as [E | E]; rewrite E; simpl.
  - auto.
  - specialize (Hop _ Hw). destruct (op (db w)) as [[a |] d']; exact Hop.
Qed.

Lemma hoare_try_catch (I P : Db -> Prop) (m : prisma response) (h : response) :
  hoare I P m (fun _ d => I d) ->
  forall w, P (db w) -> I (db (try_catch m h w).2).
Proof.
  intros Hm w Hw. unfold try_catch. specialize (Hm w Hw).
  destruct (m w) as [[a |] w']; exact Hm.
Qed.

Lemma hoare_throw {A} (I P : Db -> Prop) (Q : A -> Db -> Prop) :
  (forall d, P d -> I d) -> hoare I P throw Q.
Proof. intros H w Hw. simpl. auto. Qed.

(** A branch that answers without touching the store. *)
Ltac answers := apply hoare_ret; tauto.

Lemma new_user_ok name mobile email password code expiry created :
  user_ok (new_user name mobile email password code expiry created).
Proof. split; [split |]; simpl; intros; discriminate. Qed.

Lemma verified_ok (u : User.t) : user_ok (User.verified u).
Proof. split; [split |]; simpl; intros; reflexivity. Qed.

Lemma with_otp_ok code expiry (u : User.t) :
  User.isEmailVerified u = false -> user_ok (User.with_otp code expiry u).
Proof. intros H. split; [split |]; simpl; intros; congruence. Qed.

Lemma users_ok_insert (d : Db) (id : Z) (u : User.t) :
  users_ok d -> user_ok u -> users_ok (set_users (<[id := u]> (users d)) d).
Proof. intros Hd Hu. unfold users_ok. simpl. apply map_Forall_insert_2; assumption. Qed.

Lemma hoare_user_findUnique (I : Db -> Prop) (e : string) :
  hoare I I (user_findUnique e)
        (fun a d => I d /\ forall id u, a = Some (id, u) -> users d !! id = Some u).
Proof.
  apply hoare_query; [auto |]. intros d Hd. split; [exact Hd |].
  intros id u H. apply (find_email_Some e). exact H.
Qed.

Lemma hoare_user_update (P : Db -> Prop) (id : Z) (f : User.t -> User.t) :
  (forall d, P d -> users_ok d) ->
  (forall d u, P d -> users d !! id = Some u -> user_ok (f u)) ->
  hoare users_ok P (user_update id f) (fun _ d => users_ok d).
Proof.
  intros HP Hf. apply hoare_query; [exact HP |]. intros d Hd.
  destruct (users d !! id) as [u |] eqn:E.
  - apply users_ok_insert; [apply HP; exact Hd | eapply Hf; eauto].
  - apply HP; exact Hd.
Qed.

Lemma hoare_user_create (env : Env) (data : Z -> User.t) :
  (forall created, user_ok (data created)) ->
  hoare users_ok users_ok (user_create env data) (fun _ d => users_ok d).
Proof.
  intros Hdata. pose proof (Hdata (store_now env)) as Hu.
  apply hoare_query; [auto |]. intros d Hd. cbv zeta.
  set (u := data (store_now env)) in *.
  destruct (find_email (User.email u) (users d)); [exact Hd |].
  destruct (users d !! user_seq d); [exact Hd |].
  unfold users_ok. simpl. apply map_Forall_insert_2; assumption.
Qed.
(** ** authController *)

Section AuthProperties.

Variable bcrypt_hash : string -> string -> string.
Variable bcrypt_compare : string -> string -> bool.
Variable jwt_sign : Z -> Z -> string.

(** What verifyOTP does once the user has been found. *)
Lemma verifyOTP_found env email code d id u :
  find_email email (users d) = Some (id, u) ->
  verifyOTP jwt_sign env email code (MkWorld d []) =
  try_catch
    (if User.isEmailVerified u then
       ret (failure 400 "Email is already verified")
     else if negb (truthy (User.otp u)) || is_null (User.otpExpiry u) then
       ret (failure 400 "No OTP found. Please request a new one.")
     else if date_gt (now env) (User.otpExpiry u) then
       ret (failure 400 "OTP has expired. Please request a new one.")
     else if negb (strict_eq (User.otp u) code) then
       ret (failure 400 "Invalid OTP")
     else
       await updated <- user_update id User.verified in
       ret (verified_response (select_user account_columns updated)
              (jwt_sign updated.1 (now env))))
    internal_error (MkWorld d []).
Proof.
  intros Hfound. unfold verifyOTP, try_catch, bind.
  rewrite user_findUnique_up, Hfound. reflexivity.
Qed.

Lemma verifyOTP_in_time env email d id u stored expiry :
  find_email email (users d) = Some (id, u) ->
  User.isEmailVerified u = false ->
  User.otp u = Some stored -> stored <> "" ->
  User.otpExpiry u = Some expiry ->
  now env <= expiry ->
  verifyOTP jwt_sign env email (JStr stored) (MkWorld d []) =
  (verified_response (select_user account_columns (id, User.verified u))
                     (jwt_sign id (now env)),
   MkWorld (set_users (<[id := User.verified u]> (users d)) d) []).
Proof.
  intros Hfound Hv Hotp Hne Hexp Hle.
  destruct (find_email_Some _ _ _ _ Hfound) as [Hrow _].
  rewrite (verifyOTP_found _ _ _ _ _ _ Hfound).
  unfold date_gt. rewrite Hv, Hotp, Hexp. simpl.
  apply String.eqb_neq in Hne. rewrite Hne. simpl.
  rewrite (gtb_false _ _ Hle), String.eqb_refl. simpl.
  unfold try_catch, bind. rewrite (user_update_up _ _ _ _ Hrow).
  reflexivity.
Qed.

Lemma verifyOTP_late env email code d id u stored expiry :
  find_email email (users d) = Some (id, u) ->
  User.isEmailVerified u = false ->
  User.otp u = Some stored -> stored <> "" ->
  User.otpExpiry u = Some expiry ->
  now env > expiry ->
  verifyOTP jwt_sign env email code (MkWorld d []) =
  (failure 400 "OTP has expired. Please request a new one.", MkWorld d []).
Proof.
  intros Hfound Hv Hotp Hne Hexp Hlate.
  rewrite (verifyOTP_found _ _ _ _ _ _ Hfound).
  unfold date_gt. rewrite Hv, Hotp, Hexp. simpl.
  apply String.eqb_neq in Hne. rewrite Hne. simpl.
  rewrite (gtb_true _ _ Hlate). reflexivity.
Qed.

(** The single [prisma.user.update] of verifyOTP either happens or does
    not, whatever the store does: no row is left half updated. *)
Lemma verifyOTP_all_or_nothing env email code d script id u :
  find_email email (users d) = Some (id, u) ->
  let d' := db (verifyOTP jwt_sign env email code (MkWorld d script)).2 in
  d' = d \/ d' = set_users (<[id := User.verified u]> (users d)) d.
Proof.
  intros Hfound.
  destruct (find_email_Some _ _ _ _ Hfound) as [Hrow _].
  unfold verifyOTP, try_catch, bind, user_findUnique.
  destruct (query_run (fun d0 => (Done (find_email email (users d0)), d0))
                      (MkWorld d script)) as [E | E];
    rewrite E; simpl; [left; reflexivity |].
  rewrite Hfound.
  destruct (User.isEmailVerified u); [left; reflexivity |].
  destruct (negb (truthy (User.otp u)) || is_null (User.otpExpiry u));
    [left; reflexivity |].
  destruct (date_gt (now env) (User.otpExpiry u)); [left; reflexivity |].
  destruct (negb (strict_eq (User.otp u) code)); [left; reflexivity |].
  unfold bind, user_update.
  match goal with |- context [query ?op ?w0] =>
    destruct (query_run op w0) as [E' | E']; rewrite E' end;
    simpl; [left; reflexivity |].
  rewrite Hrow. simpl. right. reflexivity.
Qed.

(** C1: VerifyOTP answers NotFound for an unknown email, AlreadyVerified
    for a verified user, NoOtpIssued when no OTP is stored, OtpExpired when
    the current time exceeds otpExpiry whatever code is supplied,
    OtpMismatch when the code differs; with the stored code in time it marks
    the user verified, clears otp and otpExpiry in one update of that row
    alone, signs a token and answers 200 with the token under data.token
    and, under data.user, the user's id, name, mobile, email,
    isEmailVerified = true and createdAt, and no password, otp or
    otpExpiry. *)
Theorem verifyOTP_outcomes (env : Env) (email : string) (w : World) :
  available w ->
  (find_email email (users (db w)) = None ->
   forall code,
     verifyOTP jwt_sign env email code w = (failure 404 "User not found", w))
  /\
  (forall id u, find_email email (users (db w)) = Some (id, u) ->
    (User.isEmailVerified u = true ->
     forall code,
       verifyOTP jwt_sign env email code w
       = (failure 400 "Email is already verified", w))
    /\
    (User.isEmailVerified u = false -> User.otp u = None ->
     forall code,
       verifyOTP jwt_sign env email code w
       = (failure 400 "No OTP found. Please request a new one.", w))
    /\
    (forall stored expiry,
       User.isEmailVerified u = false ->
       User.otp u = Some stored -> stored <> "" ->
       User.otpExpiry u = Some expiry ->
       (now env > expiry ->
        forall code,
          verifyOTP jwt_sign env email code w
          = (failure 400 "OTP has expired. Please request a new one.", w))
       /\
       (now env <= expiry ->
        forall code, code <> JStr stored ->
          verifyOTP jwt_sign env email code w = (failure 400 "Invalid OTP", w))
       /\
       (now env <= expiry ->
        let u' := User.verified u in
        let user := select_user account_columns (id, u') in
        verifyOTP jwt_sign env email (JStr stored) w
        = (verified_response user (jwt_sign id (now env)),
           MkWorld (set_users (<[id := u']> (users (db w))) (db w)) [])
        /\ User.isEmailVerified u' = true
        /\ User.otp u' = None /\ User.otpExpiry u' = None
        /\ sanitized user
        /\ (exists (resp : response) (w' : World) (returned : json),
              verifyOTP jwt_sign env email (JStr stored) w = (resp, w')
              /\ users (db w') !! id = Some u'
              /\ (forall other, other <> id ->
                    users (db w') !! other = users (db w) !! other)
              /\ reports (db w') = reports (db w)
              /\ status resp = 200
              /\ jget "success" (body resp) = Some (JBool true)
              /\ jpath ["data"; "token"] (body resp)
                 = Some (JStr (jwt_sign id (now env)))
              /\ jpath ["data"; "user"] (body resp) = Some returned
              /\ jkeys returned = account_columns
              /\ jget "id" returned = Some (JInt id)
              /\ jget "name" returned = Some (JStr (User.name u))
              /\ jget "mobile" returned = Some (JStr (User.mobile u))
              /\ jget "email" returned = Some (JStr (User.email u))
              /\ jget "isEmailVerified" returned = Some (JBool true)
              /\ jget "createdAt" returned = Some (JDate (User.createdAt u))
              /\ jget "password" returned = None
              /\ jget "otp" returned = None
              /\ jget "otpExpiry" returned = None)))
    /\
    (forall script code,
       let d' := db (verifyOTP jwt_sign env email code
                               (MkWorld (db w) script)).2 in
       d' = db w
       \/ d' = set_users (<[id := User.verified u]> (users (db w))) (db w))).
Proof.
  intros Hup. rewrite (available_world w Hup). simpl db.
  generalize (db w). intros d.
  split.
  - intros Hnone code. unfold verifyOTP, try_catch, bind.
    rewrite user_findUnique_up, Hnone. reflexivity.
  - intros id u Hfound.
    split; [| split; [| split]].
    + intros Hv code. rewrite (verifyOTP_found _ _ _ _ _ _ Hfound).
      rewrite Hv. reflexivity.
    + intros Hv Hotp code. rewrite (verifyOTP_found _ _ _ _ _ _ Hfound).
      rewrite Hv, Hotp. reflexivity.
    + intros stored expiry Hv Hotp Hne Hexp.
      split; [| split].
      * intros Hlate code. eapply verifyOTP_late; eauto.
      * intros Hintime code Hcode.
        rewrite (verifyOTP_found _ _ _ _ _ _ Hfound).
        unfold date_gt. rewrite Hv, Hotp, Hexp. simpl.
        apply String.eqb_neq in Hne. rewrite Hne. simpl.
        rewrite (gtb_false _ _ Hintime).
        destruct code as [| | | | t | | |]; try reflexivity.
        replace (stored =? t)%string with false
          by (symmetry; apply String.eqb_neq; congruence).
        reflexivity.
      * intros Hintime. cbv zeta.
        pose proof (verifyOTP_in_time env email d id u stored expiry
                      Hfound Hv Hotp Hne Hexp Hintime) as Hrun.
        split; [exact Hrun |].
        split; [reflexivity |]. split; [reflexivity |]. split; [reflexivity |].
        split; [repeat split |].
        eexists _, _, _. split; [exact Hrun |].
        split; [simpl; apply lookup_insert_eq |].
        split; [intros other Hother; simpl; apply lookup_insert_ne; congruence |].
        split; [reflexivity |].
        repeat split.
    + intros script code. apply verifyOTP_all_or_nothing. exact Hfound.
Qed.

(** C10: for an unverified user with a pending OTP, the stored code
    supplied at the very instant otpExpiry is still accepted; the answer
    is OtpExpired exactly when the current time is strictly greater than
    otpExpiry. *)
Theorem verifyOTP_expiry_boundary
    (env : Env) (email : string) (w : World) (id : Z) (u : User.t)
    (stored : string) (expiry : Z) :
  available w ->
  find_email email (users (db w)) = Some (id, u) ->
  User.isEmailVerified u = false ->
  User.otp u = Some stored -> stored <> "" ->
  User.otpExpiry u = Some expiry ->
  (now env = expiry ->
   verifyOTP jwt_sign env email (JStr stored) w
   = (verified_response (select_user account_columns (id, User.verified u))
                        (jwt_sign id (now env)),
      MkWorld (set_users (<[id := User.verified u]> (users (db w))) (db w)) []))
  /\
  (forall code,
     (verifyOTP jwt_sign env email code w).1
     = failure 400 "OTP has expired. Please request a new one."
     <-> now env > expiry).
Proof.
  intros Hup Hfound Hv Hotp Hne Hexp.
  rewrite (available_world w Hup). simpl db. split.
  - intros Hnow. eapply verifyOTP_in_time; eauto. lia.
  - intros code. split.
    + intros Hresp.
      destruct (Z_le_gt_dec (now env) expiry) as [Hle | Hgt]; [| exact Hgt].
      exfalso. revert Hresp.
      rewrite (verifyOTP_found _ _ _ _ _ _ Hfound).
      unfold date_gt. rewrite Hv, Hotp, Hexp. simpl.
      apply String.eqb_neq in Hne. rewrite Hne. simpl.
      rewrite (gtb_false _ _ Hle).
      change (match code with JStr t => (stored =? t)%string | _ => false end)
        with (strict_eq (Some stored) code).
      destruct (strict_eq (Some stored) code); cbn [negb].
      * destruct (find_email_Some _ _ _ _ Hfound) as [Hrow _].
        unfold try_catch, bind. rewrite (user_update_up _ _ _ _ Hrow).
        simpl. discriminate.
      * discriminate.
    + intros Hgt. erewrite verifyOTP_late; eauto.
Qed.

(** With a password that is a string, a login with an unknown email and a
    login with a known email and a wrong password give the same response,
    status 401 and the same body, and neither touches the store. *)
Lemma login_wrong_string_password
    (env1 env2 : Env) (email1 : string) (password1 : json)
    (email2 password2 : string) (w1 w2 : World) (id : Z) (u : User.t) :
  available w1 -> available w2 ->
  find_email email1 (users (db w1)) = None ->
  find_email email2 (users (db w2)) = Some (id, u) ->
  bcrypt_compare password2 (User.password u) = false ->
  (login bcrypt_compare jwt_sign env1 email1 password1 w1).1
  = (login bcrypt_compare jwt_sign env2 email2 (JStr password2) w2).1
  /\ login bcrypt_compare jwt_sign env1 email1 password1 w1
     = (failure 401 "Invalid email or password", w1)
  /\ login bcrypt_compare jwt_sign env2 email2 (JStr password2) w2
     = (failure 401 "Invalid email or password", w2).
Proof.
  intros Hup1 Hup2 Hnone Hfound Hwrong.
  rewrite (available_world w1 Hup1), (available_world w2 Hup2). simpl db.
  assert (E1 : login bcrypt_compare jwt_sign env1 email1 password1
                 (MkWorld (db w1) [])
               = (failure 401 "Invalid email or password", MkWorld (db w1) [])).
  { unfold login, try_catch, bind.
    rewrite user_findUnique_up, Hnone. reflexivity. }
  assert (E2 : login bcrypt_compare jwt_sign env2 email2 (JStr password2)
                 (MkWorld (db w2) [])
               = (failure 401 "Invalid email or password", MkWorld (db w2) [])).
  { unfold login, try_catch, bind.
    rewrite user_findUnique_up, Hfound. simpl. rewrite Hwrong. reflexivity. }
  rewrite E1, E2. auto.
Qed.

(** C5, as the code behaves: the two failures are not always the same.
    loginValidation only asks that the password is not empty, so it may be
    a JSON value that is not a string; bcrypt.compare then rejects, and a
    login with a known email is answered 500 'Internal server error' where
    the same login with an unknown email is answered 401 'Invalid email or
    password': the status tells whether the email has an account. *)
Theorem login_non_string_password_tells_accounts
    (env1 env2 : Env) (email1 email2 : string) (password : json)
    (w1 w2 : World) (id : Z) (u : User.t) :
  available w1 -> available w2 ->
  find_email email1 (users (db w1)) = None ->
  find_email email2 (users (db w2)) = Some (id, u) ->
  (forall s, password <> JStr s) ->
  login bcrypt_compare jwt_sign env1 email1 password w1
  = (failure 401 "Invalid email or password", w1)
  /\ login bcrypt_compare jwt_sign env2 email2 password w2
     = (failure 500 "Internal server error", w2)
  /\ status (login bcrypt_compare jwt_sign env1 email1 password w1).1 = 401
  /\ status (login bcrypt_compare jwt_sign env2 email2 password w2).1 = 500
  /\ (login bcrypt_compare jwt_sign env1 email1 password w1).1
     <> (login bcrypt_compare jwt_sign env2 email2 password w2).1.
Proof.
  intros Hup1 Hup2 Hnone Hfound Hpw.
  rewrite (available_world w1 Hup1), (available_world w2 Hup2). simpl db.
  assert (E1 : login bcrypt_compare jwt_sign env1 email1 password
                 (MkWorld (db w1) [])
               = (failure 401 "Invalid email or password", MkWorld (db w1) [])).
  { unfold login, try_catch, bind.
    rewrite user_findUnique_up, Hnone. reflexivity. }
  assert (E2 : login bcrypt_compare jwt_sign env2 email2 password
                 (MkWorld (db w2) [])
               = (failure 500 "Internal server error", MkWorld (db w2) [])).
  { unfold login, try_catch, bind.
    rewrite user_findUnique_up, Hfound.
    destruct password; try reflexivity. exfalso. eapply Hpw. reflexivity. }
  rewrite E1, E2. repeat split. discriminate.
Qed.

Lemma signup_created env name mobile email password d :
  find_email email (users d) = None ->
  users d !! user_seq d = None ->
  let code := generateOTP env in
  let u := new_user name mobile email (bcrypt_hash password (salt env))
                    code (now env + 10 * 60 * 1000) (store_now env) in
  signup bcrypt_hash env name mobile email password (MkWorld d [])
  = (registered_response (select_user account_columns (user_seq d, u)) code
                         (sendOTPEmail env email code name),
     MkWorld (MkDb (<[user_seq d := u]> (users d)) (reports d)
                   (user_seq d + 1) (report_seq d)) []).
Proof.
  intros Hnone Hfresh. cbv zeta.
  unfold signup, try_catch, bind.
  rewrite user_findUnique_up, Hnone.
  rewrite user_create_up; [reflexivity | exact Hnone | exact Hfresh].
Qed.

(** C3, amended: a signup with an email that is not yet registered creates
    an account with isEmailVerified = false, an OTP of exactly six numeric
    digits (a value between 100000 and 999999, in the double arithmetic of
    generateOTP) and otpExpiry exactly ten minutes after the controller's
    reading of the clock when it generated the OTP, taken before the row is
    created; createdAt is stamped by the store as the row is inserted.  The
    user object the response carries has the new id, the name, mobile and
    email, isEmailVerified = false and createdAt, and neither the password
    digest nor the OTP. *)
Theorem signup_fresh_account
    (env : Env) (name mobile email password : string) (w : World) :
  available w -> random_ok env ->
  find_email email (users (db w)) = None ->
  users (db w) !! user_seq (db w) = None ->
  exists (resp : response) (w' : World) (u : User.t) (user : json),
    signup bcrypt_hash env name mobile email password w = (resp, w')
    /\ status resp = 201
    /\ users (db w') = <[user_seq (db w) := u]> (users (db w))
    /\ users (db w) !! user_seq (db w) = None
    /\ User.name u = name /\ User.mobile u = mobile
    /\ User.email u = email
    /\ User.password u = bcrypt_hash password (salt env)
    /\ User.isEmailVerified u = false
    /\ (exists (code : string) (v : Z),
          User.otp u = Some code /\ six_digits code
          /\ code = toString v /\ 100000 <= v <= 999999)
    /\ User.otpExpiry u = Some (now env + 10 * 60 * 1000)
    /\ User.createdAt u = store_now env
    /\ jpath ["data"; "user"] (body resp) = Some user
    /\ jkeys user = account_columns
    /\ sanitized user
    /\ jget "id" user = Some (JInt (user_seq (db w)))
    /\ jget "name" user = Some (JStr name)
    /\ jget "mobile" user = Some (JStr mobile)
    /\ jget "email" user = Some (JStr email)
    /\ jget "isEmailVerified" user = Some (JBool false)
    /\ jget "createdAt" user = Some (JDate (store_now env)).
Proof.
  intros Hup Hr Hnone Hfresh.
  rewrite (available_world w Hup). simpl db.
  pose proof (otp_value_range _ Hr) as Hrange.
  eexists _, _, _, _. split.
  - apply signup_created; assumption.
  - split.
    { unfold registered_response.
      destruct (negb (sendOTPEmail _ _ _ _)); reflexivity. }
    split; [reflexivity |].
    split; [exact Hfresh |].
    split; [reflexivity |]. split; [reflexivity |].
    split; [reflexivity |]. split; [reflexivity |].
    split; [reflexivity |].
    split.
    { exists (generateOTP env), (otp_value (random env)).
      split; [reflexivity |].
      split; [apply toString_six; exact Hrange |].
      split; [reflexivity | exact Hrange]. }
    split; [reflexivity |].
    split; [reflexivity |].
    split.
    { unfold registered_response.
      destruct (negb (sendOTPEmail _ _ _ _)); reflexivity. }
    split; [reflexivity |].
    split; [apply account_columns_sanitized |].
    repeat split.
Qed.

Lemma signup_keeps_users_ok env name mobile email password w :
  users_ok (db w) ->
  users_ok (db (signup bcrypt_hash env name mobile email password w).2).
Proof.
  apply (hoare_try_catch users_ok users_ok).
  eapply hoare_bind; [apply hoare_user_findUnique |].
  intros [row |]; cbn beta iota zeta.
  - answers.
  - eapply hoare_bind.
    + intros w0 [H0 _]. revert w0 H0. apply hoare_user_create.
      intros created. apply new_user_ok.
    + intros created. apply hoare_ret. auto.
Qed.

Lemma login_keeps_users_ok env email password w :
  users_ok (db w) ->
  users_ok (db (login bcrypt_compare jwt_sign env email password w).2).
Proof.
  apply (hoare_try_catch users_ok users_ok).
  eapply hoare_bind; [apply hoare_user_findUnique |].
  intros [[id u] |]; cbn beta iota zeta.
  - eapply hoare_bind.
    + destruct password; first [apply hoare_throw; tauto
                               | apply (hoare_ret _ _ _ (fun _ d => users_ok d));
                                 tauto].
    + intros ok. destruct (negb ok); apply hoare_ret; auto.
  - answers.
Qed.

Lemma verifyOTP_keeps_users_ok env email code w :
  users_ok (db w) ->
  users_ok (db (verifyOTP jwt_sign env email code w).2).
Proof.
  apply (hoare_try_catch users_ok users_ok).
  eapply hoare_bind; [apply hoare_user_findUnique |].
  intros [[id u] |]; cbn beta iota zeta; [| answers].
  destruct (User.isEmailVerified u); [answers |].
  destruct (_ || _); [answers |].
  destruct (date_gt _ _); [answers |].
  destruct (negb _); [answers |].
  eapply hoare_bind.
  - apply hoare_user_update; [tauto |]. intros. apply verified_ok.
  - intros updated. apply hoare_ret. auto.
Qed.

Lemma resendOTP_keeps_users_ok env email w :
  users_ok (db w) ->
  users_ok (db (resendOTP env email w).2).
Proof.
  apply (hoare_try_catch users_ok users_ok).
  eapply hoare_bind; [apply hoare_user_findUnique |].
  intros [[id u] |]; cbn beta iota zeta; [| answers].
  destruct (User.isEmailVerified u) eqn:Hv; [answers |].
  eapply hoare_bind.
  - apply hoare_user_update; [tauto |].
    intros d u0 [_ Hrow] Hu0.
    specialize (Hrow id u eq_refl). rewrite Hrow in Hu0.
    injection Hu0 as <-. apply with_otp_ok. exact Hv.
  - intros updated. apply hoare_ret. auto.
Qed.

(** C8: each account operation (Signup, VerifyOTP, ResendOTP, Login)
    keeps the invariant of the user rows, whatever the request and
    whatever the store does: otp and otpExpiry are both set or both null,
    and a verified user has otp = null. *)
Theorem account_operations_keep_invariant (w : World) :
  users_ok (db w) ->
  (forall env name mobile email password,
     users_ok (db (signup bcrypt_hash env name mobile email password w).2))
  /\ (forall env email code,
        users_ok (db (verifyOTP jwt_sign env email code w).2))
  /\ (forall env email,
        users_ok (db (resendOTP env email w).2))
  /\ (forall env email password,
        users_ok (db (login bcrypt_compare jwt_sign env email password w).2)).
Proof.
  intros Hok. split; [| split; [| split]]; intros.
  - apply signup_keeps_users_ok; exact Hok.
  - apply verifyOTP_keeps_users_ok; exact Hok.
  - apply resendOTP_keeps_users_ok; exact Hok.
  - apply login_keeps_users_ok; exact Hok.
Qed.

End AuthProperties.

(** ** reportsController: the store when it is up *)

Lemma report_findUnique_up (id : Z) (d : Db) :
  report_findUnique id (MkWorld d []) =
  (Done ((fun r => with_user d (id, r)) <$> reports d !! id), MkWorld d []).
Proof. reflexivity. Qed.

Lemma report_update_up (id : Z) (p : Report.patch) (d : Db) (r : Report.t) :
  reports d !! id = Some r ->
  report_update id p (MkWorld d []) =
  (Done (with_user d (id, Report.apply p r)),
   MkWorld (set_reports (<[id := Report.apply p r]> (reports d)) d) []).
Proof. intros H. unfold report_update, query. simpl. rewrite H. reflexivity. Qed.

Lemma report_delete_up (id : Z) (d : Db) (r : Report.t) :
  reports d !! id = Some r ->
  report_delete id (MkWorld d []) =
  (Done tt, MkWorld (set_reports (delete id (reports d)) d) []).
Proof. intros H. unfold report_delete, query. simpl. rewrite H. reflexivity. Qed.

Lemma denied_true (user : caller) (r : Report.t) :
  Report.userId r <> caller_id user -> caller_role user <> ADMIN ->
  denied user r = true.
Proof.
  intros Ho Ha. unfold denied.
  apply Z.eqb_neq in Ho. rewrite Ho.
  destruct (caller_role user); [reflexivity | congruence].
Qed.

Lemma denied_false (user : caller) (r : Report.t) :
  Report.userId r = caller_id user \/ caller_role user = ADMIN ->
  denied user r = false.
Proof.
  intros [Ho | Ha]; unfold denied.
  - rewrite Ho, Z.eqb_refl. reflexivity.
  - rewrite Ha. simpl. apply andb_false_r.
Qed.

(** C7: on GetById, Update and Delete, a report id that names no report is
    answered NotFound; for an existing report a caller who is neither its
    owner nor ADMIN is answered Forbidden and nothing changes; the owner or
    an ADMIN passes the check and the operation is carried out. *)
Theorem ownership_gate
    (toUpperCase : string -> string) (env : Env) (user : caller) (id : Z)
    (req : changes) (w : World) :
  available w ->
  (reports (db w) !! id = None ->
     getReportById user id w = (failure 404 "Report not found", w)
     /\ updateReport toUpperCase env user id req w
        = (failure 404 "Report not found", w)
     /\ deleteReport user id w = (failure 404 "Report not found", w))
  /\
  (forall r, reports (db w) !! id = Some r ->
     (Report.userId r <> caller_id user -> caller_role user <> ADMIN ->
        getReportById user id w
        = (failure 403 "Access denied. You can only view your own reports.", w)
        /\ updateReport toUpperCase env user id req w
           = (failure 403 "Access denied. You can only update your own reports.", w)
        /\ deleteReport user id w
           = (failure 403 "Access denied. You can only delete your own reports.", w))
     /\
     (Report.userId r = caller_id user \/ caller_role user = ADMIN ->
        let r' := Report.apply (updateData toUpperCase env user req) r in
        getReportById user id w
        = (Response 200 (JObj [
             ("success", JBool true);
             ("data", JObj [("report",
                report_json owner_columns (with_user (db w) (id, r)))])]), w)
        /\ updateReport toUpperCase env user id req w
           = (Response 200 (JObj [
                ("success", JBool true);
                ("message", JStr "Report updated successfully");
                ("data", JObj [("report",
                   report_json owner_columns (with_user (db w) (id, r')))])]),
              MkWorld (set_reports (<[id := r']> (reports (db w))) (db w)) [])
        /\ deleteReport user id w
           = (Response 200 (JObj [
                ("success", JBool true);
                ("message", JStr "Report deleted successfully")]),
              MkWorld (set_reports (delete id (reports (db w))) (db w)) []))).
Proof.
  intros Hup. rewrite (available_world w Hup). simpl db.
  split.
  - intros Hnone.
    unfold getReportById, updateReport, deleteReport, try_catch, bind.
    rewrite !report_findUnique_up, Hnone. auto.
  - intros r Hrow. split.
    + intros Ho Ha. pose proof (denied_true user r Ho Ha) as Hd.
      unfold getReportById, updateReport, deleteReport, try_catch, bind.
      rewrite !report_findUnique_up, Hrow.
      change ((fun r0 => with_user (db w) (id, r0)) <$> Some r)
        with (Some (with_user (db w) (id, r))).
      cbn beta iota.
      change ((with_user (db w) (id, r)).1.2) with r.
      rewrite Hd. auto.
    + intros Hok. pose proof (denied_false user r Hok) as Hd.
      unfold getReportById, updateReport, deleteReport, try_catch, bind.
      rewrite !report_findUnique_up, Hrow.
      change ((fun r0 => with_user (db w) (id, r0)) <$> Some r)
        with (Some (with_user (db w) (id, r))).
      cbn beta iota.
      change ((with_user (db w) (id, r)).1.2) with r.
      rewrite Hd.
      rewrite (report_update_up _ _ _ _ Hrow), (report_delete_up _ _ _ Hrow).
      auto.
Qed.

(** ** Reading a run backwards *)

Lemma try_catch_inv (m : prisma response) (h resp : response) (w w' : World) :
  try_catch m h w = (resp, w') ->
  m w = (Done resp, w') \/ (m w = (Thrown, w') /\ resp = h).
Proof.
  unfold try_catch. destruct (m w) as [[r |] w0]; intros E;
    injection E as <- <-; auto.
Qed.

Lemma bind_inv {A B} (m : prisma A) (k : A -> prisma B) (w w'' : World) (b : B) :
  bind m k w = (Done b, w'') ->
  exists a w', m w = (Done a, w') /\ k a w' = (Done b, w'').
Proof.
  unfold bind. destruct (m w) as [[a |] w'] eqn:E; intros H.
  - exists a, w'. auto.
  - discriminate.
Qed.

Lemma query_inv {A} (op : Db -> outcome A * Db) (w w' : World) (a : A) :
  query op w = (Done a, w') ->
  op (db w) = (Done a, db w') /\ outages w' = tail (outages w).
Proof.
  destruct (query_run op w) as [E | E]; rewrite E.
  - discriminate.
  - destruct (op (db w)) as [r d]. simpl. intros H. injection H as -> <-. auto.
Qed.

(** ** submitReport *)

Lemma submitReport_run env user req category description loc photo :
  present (s_category req) = Some category ->
  present (s_description req) = Some description ->
  s_location req = Some loc ->
  present (s_photo req) = Some photo ->
  submitReport env user req =
  try_catch
    (await report <-
       report_create (Report.Row category description
                        (loc_latitude loc) (loc_longitude loc) (loc_address loc)
                        photo "PENDING" (caller_id user) (now env) (now env)) in
     await _awarded <-
       user_update (caller_id user) (User.increment_points pointsToAward) in
     ret (submitted_response report))
    (failure 500 "Internal server error while submitting report").
Proof.
  intros Hc Hd Hl Hp. unfold submitReport. rewrite Hc, Hd, Hl, Hp. reflexivity.
Qed.

Lemma submitted_status item : status (submitted_response item) = 201.
Proof. destruct item as [[id r] owner]. reflexivity. Qed.

(** C6: a successful Submit has stored one new report, PENDING and owned
    by the caller, and has raised the owner's points by exactly 10; the
    row of every other user is as it was. *)
Theorem submitReport_awards_owner
    (env : Env) (user : caller) (req : submission)
    (w w' : World) (resp : response) :
  submitReport env user req w = (resp, w') ->
  status resp = 201 ->
  exists (r : Report.t) (u u' : User.t),
    reports (db w) !! report_seq (db w) = None
    /\ reports (db w') = <[report_seq (db w) := r]> (reports (db w))
    /\ Report.status r = "PENDING"
    /\ Report.userId r = caller_id user
    /\ users (db w) !! caller_id user = Some u
    /\ users (db w') !! caller_id user = Some u'
    /\ User.points u' = User.points u + 10
    /\ (forall id, id <> caller_id user ->
          users (db w') !! id = users (db w) !! id).
Proof.
  intros Hrun Hst.
  destruct (present (s_category req)) as [category |] eqn:Hc;
    [| unfold submitReport in Hrun; rewrite Hc in Hrun;
       injection Hrun as <- _; discriminate].
  destruct (present (s_description req)) as [description |] eqn:Hd;
    [| unfold submitReport in Hrun; rewrite Hc, Hd in Hrun;
       injection Hrun as <- _; discriminate].
  destruct (s_location req) as [loc |] eqn:Hl;
    [| unfold submitReport in Hrun; rewrite Hc, Hd, Hl in Hrun;
       injection Hrun as <- _; discriminate].
  destruct (present (s_photo req)) as [photo |] eqn:Hp;
    [| unfold submitReport in Hrun; rewrite Hc, Hd, Hl, Hp in Hrun;
       injection Hrun as <- _; discriminate].
  rewrite (submitReport_run _ _ _ _ _ _ _ Hc Hd Hl Hp) in Hrun.
  apply try_catch_inv in Hrun as [Hrun | [_ ->]]; [| discriminate].
  apply bind_inv in Hrun as (report & w1 & Hcreate & Hrun).
  apply bind_inv in Hrun as (awarded & w2 & Hupdate & Hret).
  injection Hret as _ <-.
  apply query_inv in Hcreate as [Hcreate _].
  apply query_inv in Hupdate as [Hupdate _].
  cbv zeta in Hcreate. simpl Report.userId in Hcreate.
  destruct (users (db w) !! caller_id user) as [u |] eqn:Hu; [| discriminate].
  destruct (reports (db w) !! report_seq (db w)) eqn:Hfresh; [discriminate |].
  injection Hcreate as _ Hdb1.
  rewrite <- Hdb1 in Hupdate. simpl users in Hupdate. rewrite Hu in Hupdate.
  injection Hupdate as _ Hdb2.
  eexists _, u, (User.increment_points pointsToAward u).
  rewrite <- Hdb2. simpl.
  split; [reflexivity |].
  split; [reflexivity |].
  split; [reflexivity |].
  split; [reflexivity |].
  split; [reflexivity |].
  split; [apply lookup_insert_eq |].
  split; [reflexivity |].
  intros id Hid. apply lookup_insert_ne. congruence.
Qed.

(** C2, as the code has it: report creation and points award are two
    separate writes.  When the award is rejected after the report has been
    created, the request answers 500 and the new PENDING report stays in the
    store while no user row has changed; when both writes go through, the
    request answers 201 with the report stored and the points awarded. *)
Theorem submitReport_two_writes
    (env : Env) (user : caller) (req : submission) (d : Db) (later : list bool)
    (category description photo : string) (loc : location) (u : User.t) :
  present (s_category req) = Some category ->
  present (s_description req) = Some description ->
  s_location req = Some loc ->
  present (s_photo req) = Some photo ->
  users d !! caller_id user = Some u ->
  reports d !! report_seq d = None ->
  let r := Report.Row category description
             (loc_latitude loc) (loc_longitude loc) (loc_address loc)
             photo "PENDING" (caller_id user) (now env) (now env) in
  let created := MkDb (users d) (<[report_seq d := r]> (reports d))
                      (user_seq d) (report_seq d + 1) in
  submitReport env user req (MkWorld d (false :: true :: later))
  = (failure 500 "Internal server error while submitting report",
     MkWorld created later)
  /\
  submitReport env user req (MkWorld d (false :: false :: later))
  = (submitted_response (with_user d (report_seq d, r)),
     MkWorld (set_users (<[caller_id user := User.increment_points 10 u]> (users d))
                        created) later).
Proof.
  intros Hc Hd Hl Hp Hu Hfresh. cbv zeta.
  rewrite (submitReport_run _ _ _ _ _ _ _ Hc Hd Hl Hp).
  unfold try_catch, bind, report_create, user_update, query.
  simpl. rewrite Hu, Hfresh. simpl. rewrite Hu. split; reflexivity.
Qed.

(** ** The listings *)

#[local] Instance newer_first_trans : Transitive newer_first.
Proof. intros a b c. unfold newer_first. lia. Qed.

#[local] Instance newer_first_total : Total newer_first.
Proof. intros a b. unfold newer_first. lia. Qed.

#[local] Instance comes_before_trans (env : Env) : Transitive (comes_before env).
Proof. intros a b c. unfold comes_before. lia. Qed.

#[local] Instance comes_before_total (env : Env) : Total (comes_before env).
Proof. intros a b. unfold comes_before. lia. Qed.

(** Whatever the store does with ties, its order is newest first. *)
Lemma comes_before_newer (env : Env) (a b : Z * Report.t) :
  comes_before env a b -> newer_first a b.
Proof. unfold comes_before, newer_first. lia. Qed.

Lemma StronglySorted_weaken {A} (R S : relation A) (l : list A) :
  (forall a b, R a b -> S a b) -> StronglySorted R l -> StronglySorted S l.
Proof.
  intros HRS. induction 1 as [| a l Hl IH Ha]; constructor; [exact IH |].
  eapply Forall_impl; [exact Ha | auto].
Qed.

Lemma found_sorted (env : Env) (wh : where_report) (m : gmap Z Report.t) :
  StronglySorted newer_first (merge_sort (comes_before env) (selected wh m)).
Proof.
  apply (StronglySorted_weaken (comes_before env)); [apply comes_before_newer |].
  apply StronglySorted_merge_sort; apply _.
Qed.

Lemma selected_all (m : gmap Z Report.t) :
  selected (Where None None None) m = map_to_list m.
Proof.
  unfold selected. induction (map_to_list m) as [| row l IH]; [reflexivity |].
  simpl. f_equal. exact IH.
Qed.

Lemma page_sorted (env : Env) (wh : where_report) (m : gmap Z Report.t)
    (skip limit : nat) :
  StronglySorted newer_first
    (take limit (drop skip (merge_sort (comes_before env) (selected wh m)))).
Proof.
  pose proof (found_sorted env wh m) as Hs.
  rewrite <- (take_drop skip (merge_sort (comes_before env) (selected wh m))) in Hs.
  apply StronglySorted_app_1_r in Hs.
  rewrite <- (take_drop limit (drop skip _)) in Hs.
  apply StronglySorted_app_1_l in Hs. exact Hs.
Qed.

Lemma page_elem (env : Env) (wh : where_report) (m : gmap Z Report.t)
    (skip limit : nat) (row : Z * Report.t) :
  row ∈ take limit (drop skip (merge_sort (comes_before env) (selected wh m))) ->
  m !! row.1 = Some row.2 /\ matches wh row = true.
Proof.
  intros H. apply subseteq_take, subseteq_drop in H.
  rewrite merge_sort_Permutation in H.
  apply list_elem_of_In, filter_In in H as [Hin Hm]. split; [| exact Hm].
  apply list_elem_of_In, elem_of_map_to_list' in Hin. exact Hin.
Qed.

Lemma page_length (env : Env) (wh : where_report) (m : gmap Z Report.t)
    (skip limit : nat) :
  length (take limit (drop skip (merge_sort (comes_before env) (selected wh m))))
  = (limit `min` (length (selected wh m) - skip))%nat.
Proof.
  rewrite length_take, length_drop.
  rewrite (Permutation_length (merge_sort_Permutation (comes_before env) _)).
  reflexivity.
Qed.

Lemma getCommunityReports_up toUpperCase (env : Env) (q : listing) (d : Db) :
  let page := Z.pos (default 1%positive (count_value <$> q_page q)) in
  let limit := Z.pos (default 10%positive (count_value <$> q_limit q)) in
  let skip := (page - 1) * limit in
  let whereClause :=
    Where None (present (q_category q)) (status_filter toUpperCase (q_status q)) in
  getCommunityReports toUpperCase env q (MkWorld d []) =
  (page_response reporter_columns
     (with_user d <$> take (Z.to_nat limit) (drop (Z.to_nat skip)
        (merge_sort (comes_before env) (selected whereClause (reports d)))))
     page limit skip (Z.of_nat (length (selected whereClause (reports d)))),
   MkWorld d []).
Proof. reflexivity. Qed.

Lemma getUserReports_up toUpperCase (env : Env) (user : caller) (q : listing)
    (d : Db) :
  let page := Z.pos (default 1%positive (count_value <$> q_page q)) in
  let limit := Z.pos (default 10%positive (count_value <$> q_limit q)) in
  let skip := (page - 1) * limit in
  let whereClause :=
    Where (Some (caller_id user)) None (status_filter toUpperCase (q_status q)) in
  getUserReports toUpperCase env user q (MkWorld d []) =
  (page_response owner_columns
     (with_user d <$> take (Z.to_nat limit) (drop (Z.to_nat skip)
        (merge_sort (comes_before env) (selected whereClause (reports d)))))
     page limit skip (Z.of_nat (length (selected whereClause (reports d)))),
   MkWorld d []).
Proof. reflexivity. Qed.

Lemma matches_owner (i : Z) (s : option string) (row : Z * Report.t) :
  matches (Where (Some i) None s) row = true -> Report.userId row.2 = i.
Proof.
  unfold matches. simpl. intros H.
  apply andb_true_iff in H as [H _]. apply andb_true_iff in H as [H _].
  apply Z.eqb_eq. exact H.
Qed.

Lemma selected_elem (wh : where_report) (m : gmap Z Report.t) (row : Z * Report.t) :
  row ∈ selected wh m <-> m !! row.1 = Some row.2 /\ matches wh row = true.
Proof.
  unfold selected. rewrite list_elem_of_In, filter_In, <- list_elem_of_In.
  rewrite elem_of_map_to_list'. reflexivity.
Qed.

(** [Math.ceil(total / limit)] is the least number of pages of [limit] rows
    that hold [total] rows. *)
Lemma ceil_div_least (total limit : Z) :
  0 < limit -> 0 <= total ->
  (ceil_div total limit - 1) * limit < total <= ceil_div total limit * limit.
Proof.
  intros HL HT. unfold ceil_div.
  pose proof (Z.div_mod total limit ltac:(lia)) as Hdm.
  pose proof (Z.mod_pos_bound total limit HL) as Hm.
  destruct (Z.eqb_spec (total mod limit) 0); nia.
Qed.

(** What the body built by the two listings says. *)
Lemma page_response_reads (keys : list string) (d : Db)
    (rows : list (Z * Report.t)) (page limit total : Z) :
  0 < limit -> 0 <= total ->
  page_of (page_response keys (with_user d <$> rows) page limit
                         ((page - 1) * limit) total)
          rows page limit total.
Proof.
  intros HL HT. unfold page_of.
  split; [reflexivity |]. split; [reflexivity |].
  split.
  { exists (report_json keys <$> (with_user d <$> rows)).
    split; [reflexivity |]. split; [rewrite !length_fmap; reflexivity |].
    intros i [id r] Hi. eexists. split.
    - rewrite !list_lookup_fmap, Hi. reflexivity.
    - repeat split. }
  split; [reflexivity |].
  split.
  { exists (ceil_div total limit). split; [reflexivity |].
    apply ceil_div_least; assumption. }
  split; [reflexivity |].
  split.
  { eexists. split; [reflexivity |]. rewrite length_fmap. apply Z.ltb_lt. }
  eexists. split; [reflexivity |]. rewrite Z.gtb_ltb. apply Z.ltb_lt.
Qed.

(** The rows of a page come before page * limit, so the flag computed from
    the page's length says whether reports remain after the page. *)
Lemma more_after_page {A} (all : list A) (page limit : Z) :
  1 <= page -> 1 <= limit ->
  let rows := take (Z.to_nat limit) (drop (Z.to_nat ((page - 1) * limit)) all) in
  (page - 1) * limit + Z.of_nat (length rows) < Z.of_nat (length all)
  <-> page * limit < Z.of_nat (length all).
Proof.
  intros Hp HL. cbv zeta. rewrite length_take, length_drop.
  assert (Hsk : 0 <= (page - 1) * limit) by nia.
  replace (page * limit) with ((page - 1) * limit + limit) by lia.
  set (sk := (page - 1) * limit) in *. lia.
Qed.

(** C9: ListOwn and ListCommunity answer 200 with one page of the matching
    reports, newest first whatever the store does with equal creation
    times, and the pagination record read from the body: currentPage is
    the page asked for, totalPages is the least number of pages that hold
    the matching reports, totalReports is their number, hasNextPage says
    whether reports remain after this page, hasPrevPage whether the page
    is above 1.  Over a store of exactly 15 reports, page 2 with page size
    10 of the community listing has 5 reports, currentPage = 2,
    totalPages = 2, totalReports = 15, hasNextPage = false and
    hasPrevPage = true. *)
Theorem listings_paginate
    (toUpperCase : string -> string) (env : Env) (user : caller)
    (q : listing) (w : World) :
  available w ->
  let page := Z.pos (default 1%positive (count_value <$> q_page q)) in
  let limit := Z.pos (default 10%positive (count_value <$> q_limit q)) in
  let skip := (page - 1) * limit in
  let own :=
    Where (Some (caller_id user)) None (status_filter toUpperCase (q_status q)) in
  let community :=
    Where None (present (q_category q)) (status_filter toUpperCase (q_status q)) in
  (exists (all rows : list (Z * Report.t)),
     getUserReports toUpperCase env user q w
     = (page_response owner_columns (with_user (db w) <$> rows)
                      page limit skip (Z.of_nat (length all)), w)
     /\ all ≡ₚ selected own (reports (db w))
     /\ (forall row, row ∈ all <->
           reports (db w) !! row.1 = Some row.2 /\ matches own row = true)
     /\ (forall row, row ∈ all -> Report.userId row.2 = caller_id user)
     /\ StronglySorted newer_first all
     /\ rows = take (Z.to_nat limit) (drop (Z.to_nat skip) all)
     /\ StronglySorted newer_first rows
     /\ (length rows <= Z.to_nat limit)%nat
     /\ page_of (getUserReports toUpperCase env user q w).1
                rows page limit (Z.of_nat (length all))
     /\ (skip + Z.of_nat (length rows) < Z.of_nat (length all)
         <-> page * limit < Z.of_nat (length all)))
  /\
  (exists (all rows : list (Z * Report.t)),
     getCommunityReports toUpperCase env q w
     = (page_response reporter_columns (with_user (db w) <$> rows)
                      page limit skip (Z.of_nat (length all)), w)
     /\ all ≡ₚ selected community (reports (db w))
     /\ (forall row, row ∈ all <->
           reports (db w) !! row.1 = Some row.2 /\ matches community row = true)
     /\ StronglySorted newer_first all
     /\ rows = take (Z.to_nat limit) (drop (Z.to_nat skip) all)
     /\ StronglySorted newer_first rows
     /\ (length rows <= Z.to_nat limit)%nat
     /\ page_of (getCommunityReports toUpperCase env q w).1
                rows page limit (Z.of_nat (length all))
     /\ (skip + Z.of_nat (length rows) < Z.of_nat (length all)
         <-> page * limit < Z.of_nat (length all)))
  /\
  (forall (rows : list ((Z * Report.t) * option User.t)) (total : Z) (keys : list string),
     let resp := page_response keys rows page limit skip total in
     status resp = 200
     /\ jpath ["data"; "reports"] (body resp) = Some (JArr (report_json keys <$> rows))
     /\ jpath ["data"; "pagination"; "currentPage"] (body resp) = Some (JInt page)
     /\ jpath ["data"; "pagination"; "totalPages"] (body resp)
        = Some (JInt (ceil_div total limit))
     /\ (0 <= total ->
         (ceil_div total limit - 1) * limit < total <= ceil_div total limit * limit)
     /\ jpath ["data"; "pagination"; "totalReports"] (body resp) = Some (JInt total)
     /\ jpath ["data"; "pagination"; "hasNextPage"] (body resp)
        = Some (JBool (skip + Z.of_nat (length rows) <? total)%Z)
     /\ jpath ["data"; "pagination"; "hasPrevPage"] (body resp)
        = Some (JBool (page >? 1)%Z))
  /\
  (size (reports (db w)) = 15%nat ->
   exists (resp : response) (items : list json),
     getCommunityReports toUpperCase env
       (Listing (Some (Count 2 eq_refl)) (Some (Count 10 eq_refl)) None None) w
     = (resp, w)
     /\ status resp = 200
     /\ jpath ["data"; "reports"] (body resp) = Some (JArr items)
     /\ length items = 5%nat
     /\ jpath ["data"; "pagination"; "currentPage"] (body resp) = Some (JInt 2)
     /\ jpath ["data"; "pagination"; "totalPages"] (body resp) = Some (JInt 2)
     /\ jpath ["data"; "pagination"; "totalReports"] (body resp) = Some (JInt 15)
     /\ jpath ["data"; "pagination"; "hasNextPage"] (body resp) = Some (JBool false)
     /\ jpath ["data"; "pagination"; "hasPrevPage"] (body resp) = Some (JBool true)).
Proof.
  intros Hup. rewrite (available_world w Hup). simpl db. cbv zeta.
  generalize (db w). intros d.
  set (page := Z.pos (default 1%positive (count_value <$> q_page q))).
  set (limit := Z.pos (default 10%positive (count_value <$> q_limit q))).
  assert (Hp : 1 <= page) by (unfold page; lia).
  assert (HL : 1 <= limit) by (unfold limit; lia).
  split; [| split; [| split]].
  - eexists (merge_sort (comes_before env) _), _.
    rewrite (getUserReports_up toUpperCase env user q d). fold page limit.
    split.
    { rewrite (Permutation_length (merge_sort_Permutation (comes_before env) _)).
      reflexivity. }
    split; [apply merge_sort_Permutation |].
    split.
    { intros row. rewrite merge_sort_Permutation. apply selected_elem. }
    split.
    { intros row. rewrite merge_sort_Permutation, selected_elem.
      intros [_ Hm]. eapply matches_owner; exact Hm. }
    split; [apply found_sorted |].
    split; [reflexivity |].
    split; [apply page_sorted |].
    split; [rewrite page_length; lia |].
    split.
    { simpl fst.
      rewrite (Permutation_length (merge_sort_Permutation (comes_before env) _)).
      apply page_response_reads; lia. }
    apply more_after_page; assumption.
  - eexists (merge_sort (comes_before env) _), _.
    rewrite (getCommunityReports_up toUpperCase env q d). fold page limit.
    split.
    { rewrite (Permutation_length (merge_sort_Permutation (comes_before env) _)).
      reflexivity. }
    split; [apply merge_sort_Permutation |].
    split.
    { intros row. rewrite merge_sort_Permutation. apply selected_elem. }
    split; [apply found_sorted |].
    split; [reflexivity |].
    split; [apply page_sorted |].
    split; [rewrite page_length; lia |].
    split.
    { simpl fst.
      rewrite (Permutation_length (merge_sort_Permutation (comes_before env) _)).
      apply page_response_reads; lia. }
    apply more_after_page; assumption.
  - intros rows total keys.
    split; [reflexivity |]. split; [reflexivity |]. split; [reflexivity |].
    split; [reflexivity |].
    split; [intros HT; apply ceil_div_least; lia |].
    repeat split.
  - intros Hsize.
    assert (Hlen : length (selected (Where None None None) (reports d)) = 15%nat).
    { rewrite selected_all, length_map_to_list. exact Hsize. }
    assert (Hpage : length (take 10 (drop 10 (merge_sort (comes_before env)
                       (selected (Where None None None) (reports d))))) = 5%nat).
    { rewrite page_length, Hlen. reflexivity. }
    assert (Hrun :
      getCommunityReports toUpperCase env
        (Listing (Some (Count 2 eq_refl)) (Some (Count 10 eq_refl)) None None)
        (MkWorld d [])
      = (page_response reporter_columns
           (with_user d <$> take 10 (drop 10 (merge_sort (comes_before env)
              (selected (Where None None None) (reports d)))))
           2 10 10
           (Z.of_nat (length (selected (Where None None None) (reports d)))),
         MkWorld d [])).
      by reflexivity.
    eexists _, _. split; [exact Hrun |].
    split; [reflexivity |].
    split; [reflexivity |].
    split; [rewrite !length_fmap; exact Hpage |].
    unfold page_response, pagination_json.
    cbn [body jpath jget assoc String.eqb Ascii.eqb Bool.eqb].
    rewrite length_fmap, Hpage, Hlen. repeat split.
Qed.

(** ** The statements on sample requests *)

Lemma ann_found : find_email "ann@x.org" (users (db world_two)) = Some (1, ann).
Proof. vm_compute. reflexivity. Qed.

Lemma db_two_ok : users_ok db_two.
Proof.
  unfold users_ok, db_two. simpl.
  apply map_Forall_insert_2; [| apply map_Forall_insert_2; [| apply map_Forall_empty]].
  - split; [split |]; simpl; intros; discriminate.
  - split; [split |]; simpl; intros; reflexivity.
Qed.

Lemma verifyOTP_outcomes_witness :
  available world_two
  /\ find_email "ann@x.org" (users (db world_two)) = Some (1, ann)
  /\ verifyOTP demo_sign env_mail_up "ann@x.org" (JStr "550000") world_two
     = (verified_response (select_user account_columns (1, User.verified ann))
                          (demo_sign 1 1000),
        MkWorld (set_users (<[1 := User.verified ann]> (users db_two)) db_two) [])
  /\ verifyOTP demo_sign env_mail_up "ann@x.org" (JStr "000000") world_two
     = (failure 400 "Invalid OTP", world_two)
  /\ verifyOTP demo_sign env_mail_up "ann@x.org" (JInt 550000) world_two
     = (failure 400 "Invalid OTP", world_two).
Proof.
  split; [reflexivity |]. split; [exact ann_found |].
  destruct (verifyOTP_outcomes demo_sign env_mail_up "ann@x.org" world_two eq_refl)
    as [_ H].
  destruct (H 1 ann ann_found) as (_ & _ & H3 & _).
  destruct (H3 "550000" 601000 eq_refl eq_refl ltac:(discriminate) eq_refl)
    as (_ & Hbad & Hgood).
  split; [apply Hgood; simpl; lia |].
  split; apply Hbad; first [simpl; lia | discriminate].
Defined.

Lemma verifyOTP_expiry_boundary_witness :
  available world_two
  /\ now env_at_expiry = 601000
  /\ User.otpExpiry ann = Some 601000
  /\ verifyOTP demo_sign env_at_expiry "ann@x.org" (JStr "550000") world_two
     = (verified_response (select_user account_columns (1, User.verified ann))
                          (demo_sign 1 601000),
        MkWorld (set_users (<[1 := User.verified ann]> (users db_two)) db_two) []).
Proof.
  split; [reflexivity |]. split; [reflexivity |]. split; [reflexivity |].
  apply (verifyOTP_expiry_boundary demo_sign env_at_expiry "ann@x.org" world_two
           1 ann "550000" 601000 eq_refl ann_found eq_refl eq_refl
           ltac:(discriminate) eq_refl).
  reflexivity.
Defined.

Lemma login_non_string_password_tells_accounts_witness :
  available world_two
  /\ find_email "nobody@x.org" (users (db world_two)) = None
  /\ find_email "ann@x.org" (users (db world_two)) = Some (1, ann)
  /\ login demo_compare demo_sign env_mail_up "nobody@x.org" (JInt 12345) world_two
     = (failure 401 "Invalid email or password", world_two)
  /\ login demo_compare demo_sign env_mail_up "ann@x.org" (JInt 12345) world_two
     = (failure 500 "Internal server error", world_two).
Proof.
  assert (Hnone : find_email "nobody@x.org" (users (db world_two)) = None)
    by (vm_compute; reflexivity).
  split; [reflexivity |]. split; [exact Hnone |]. split; [exact ann_found |].
  destruct (login_non_string_password_tells_accounts demo_compare demo_sign
              env_mail_up env_mail_up "nobody@x.org" "ann@x.org" (JInt 12345)
              world_two world_two 1 ann eq_refl eq_refl Hnone ann_found
              ltac:(discriminate)) as (H401 & H500 & _).
  split; [exact H401 | exact H500].
Defined.

Lemma env_store_late_random : random_ok env_store_late.
Proof. vm_compute. repeat split; discriminate. Qed.

(** C3 fails on the code where creation is read as the row's createdAt:
    the store stamps the row after the controller has computed otpExpiry,
    and the two are then not ten minutes apart. *)
Lemma signup_expiry_counterexample :
  exists u : User.t,
    users (db world_two) !! 3 = None
    /\ users (db (signup demo_hash env_store_late "Cy" "0123456780" "cy@x.org"
                     "Pw1234" world_two).2) !! 3 = Some u
    /\ User.createdAt u = 1007
    /\ User.otpExpiry u = Some 601000
    /\ ~ expiry_from_creation u.
Proof.
  eexists. split; [vm_compute; reflexivity |].
  split; [vm_compute; reflexivity |].
  split; [reflexivity |]. split; [reflexivity |].
  unfold expiry_from_creation. simpl. discriminate.
Qed.

Lemma signup_fresh_account_witness :
  available world_two
  /\ random_ok env_store_late
  /\ find_email "cy@x.org" (users (db world_two)) = None
  /\ users (db world_two) !! user_seq (db world_two) = None
  /\ exists resp w' u,
       signup demo_hash env_store_late "Cy" "0123456780" "cy@x.org" "Pw1234"
              world_two
       = (resp, w')
       /\ users (db w') !! 3 = Some u
       /\ User.isEmailVerified u = false
       /\ User.otpExpiry u = Some 601000
       /\ User.createdAt u = 1007.
Proof.
  assert (Hnone : find_email "cy@x.org" (users (db world_two)) = None)
    by (vm_compute; reflexivity).
  assert (Hfresh : users (db world_two) !! user_seq (db world_two) = None)
    by (vm_compute; reflexivity).
  split; [reflexivity |]. split; [exact env_store_late_random |].
  split; [exact Hnone |]. split; [exact Hfresh |].
  destruct (signup_fresh_account demo_hash env_store_late "Cy" "0123456780"
              "cy@x.org" "Pw1234" world_two eq_refl env_store_late_random
              Hnone Hfresh)
    as (resp & w' & u & user & Hrun & _ & Husers & _ & _ & _ & _ & _ & Hv & _
        & Hexp & Hcreated & _).
  exists resp, w', u. split; [exact Hrun |].
  split; [rewrite Husers; apply lookup_insert_eq |].
  split; [exact Hv |]. split; [exact Hexp | exact Hcreated].
Defined.

Lemma account_operations_keep_invariant_witness :
  users_ok (db world_two)
  /\ users_ok (db (resendOTP env_mail_down "ann@x.org"
                     (MkWorld db_two [false; true])).2)
  /\ users_ok (db (verifyOTP demo_sign env_mail_up "ann@x.org" (JStr "550000")
                     world_two).2).
Proof.
  split; [exact db_two_ok |].
  split.
  - apply (account_operations_keep_invariant demo_hash demo_compare demo_sign
             (MkWorld db_two [false; true]) db_two_ok).
  - apply (account_operations_keep_invariant demo_hash demo_compare demo_sign
             world_two db_two_ok).
Defined.

(** C4, at a failing input: with NODE_ENV set to production and mail
    delivery failing, the signup answers 201 with emailSent = false and
    still carries the stored OTP as developmentOTP and in its message, and
    so does the resend; no setting of NODE_ENV changes either answer. *)
Theorem production_response_reveals_otp :
  let signed :=
    signup demo_hash env_mail_down "Cy" "0123456780" "cy@x.org" "Pw1234" world_two in
  let resent := resendOTP env_mail_down "ann@x.org" world_two in
  NODE_ENV env_mail_down = "production"
  /\ status signed.1 = 201
  /\ jpath ["data"; "emailSent"] (body signed.1) = Some (JBool false)
  /\ User.otp <$> users (db signed.2) !! 3 = Some (Some "550000")
  /\ jpath ["data"; "developmentOTP"] (body signed.1) = Some (JStr "550000")
  /\ jpath ["message"] (body signed.1)
     = Some (JStr "User registered successfully! For development, use OTP: 550000")
  /\ status resent.1 = 200
  /\ User.otp <$> users (db resent.2) !! 1 = Some (Some "550000")
  /\ jpath ["developmentOTP"] (body resent.1) = Some (JStr "550000")
  /\ (forall node_env : string,
        let env :=
          MkEnv 1000 1000 half "s" (fun _ _ _ => false) node_env (fun id => id) in
        signup demo_hash env "Cy" "0123456780" "cy@x.org" "Pw1234" world_two = signed
        /\ resendOTP env "ann@x.org" world_two = resent).
Proof.
  cbv zeta. repeat split; vm_compute; reflexivity.
Qed.

(** C2 fails on the code: the award is rejected after the report has been
    created, and the report stays without it. *)
Lemma award_follows_report_counterexample :
  ~ award_follows_report env_mail_up (Caller 1 USER) mangrove
      (MkWorld db_two [false; true]).
Proof.
  intros H. unfold award_follows_report in H.
  destruct (H 1) as (u & u' & Hu & Hu' & Hp).
  - vm_compute. reflexivity.
  - vm_compute. eexists. reflexivity.
  - vm_compute in Hu, Hu'.
    injection Hu as <-. injection Hu' as <-. vm_compute in Hp. discriminate.
Qed.

Lemma submitReport_two_writes_witness :
  present (s_category mangrove) = Some "illegal-cutting"
  /\ users db_two !! 1 = Some ann
  /\ reports db_two !! report_seq db_two = None
  /\ submitReport env_mail_up (Caller 1 USER) mangrove
       (MkWorld db_two [false; true])
     = (failure 500 "Internal server error while submitting report",
        MkWorld (MkDb (users db_two) (<[1 := felled]> (reports db_two)) 3 2) []).
Proof.
  assert (Hu : users db_two !! caller_id (Caller 1 USER) = Some ann)
    by (vm_compute; reflexivity).
  assert (Hfresh : reports db_two !! report_seq db_two = None)
    by (vm_compute; reflexivity).
  split; [reflexivity |]. split; [exact Hu |]. split; [exact Hfresh |].
  apply (submitReport_two_writes env_mail_up (Caller 1 USER) mangrove db_two []
           "illegal-cutting" "Trees felled near the creek" "base64"
           (Location (21 # 1) (72 # 1) "Creek road") ann
           eq_refl eq_refl eq_refl eq_refl Hu Hfresh).
Defined.

Lemma submitReport_awards_owner_witness :
  status (submitReport env_mail_up (Caller 1 USER) mangrove world_two).1 = 201
  /\ exists (r : Report.t) (u' : User.t),
       reports (db (submitReport env_mail_up (Caller 1 USER) mangrove world_two).2)
       = <[1 := r]> (reports db_two)
       /\ Report.status r = "PENDING"
       /\ users (db (submitReport env_mail_up (Caller 1 USER) mangrove world_two).2) !! 1
          = Some u'
       /\ User.points u' = 10
       /\ users (db (submitReport env_mail_up (Caller 1 USER) mangrove world_two).2) !! 2
          = Some bob.
Proof.
  assert (Hst : status (submitReport env_mail_up (Caller 1 USER) mangrove world_two).1
                = 201) by (vm_compute; reflexivity).
  split; [exact Hst |].
  destruct (submitReport_awards_owner env_mail_up (Caller 1 USER) mangrove
              world_two _ _ (surjective_pairing _) Hst)
    as (r & u & u' & _ & Hreports & Hpending & _ & Hu & Hu' & Hpoints & Hothers).
  exists r, u'.
  split; [exact Hreports |]. split; [exact Hpending |]. split; [exact Hu' |].
  split.
  - rewrite Hpoints.
    assert (E : users (db world_two) !! caller_id (Caller 1 USER) = Some ann)
      by (vm_compute; reflexivity).
    rewrite E in Hu. injection Hu as <-. reflexivity.
  - rewrite (Hothers 2 ltac:(discriminate)). vm_compute. reflexivity.
Defined.

Lemma ownership_gate_witness :
  available world_report
  /\ reports (db world_report) !! 1 = Some felled
  /\ getReportById (Caller 3 USER) 1 world_report
     = (failure 403 "Access denied. You can only view your own reports.",
        world_report)
  /\ deleteReport (Caller 2 ADMIN) 1 world_report
     = (Response 200 (JObj [
          ("success", JBool true);
          ("message", JStr "Report deleted successfully")]),
        MkWorld (set_reports (delete 1 (reports db_report)) db_report) [])
  /\ deleteReport (Caller 1 USER) 7 world_report
     = (failure 404 "Report not found", world_report).
Proof.
  assert (Hrow : reports (db world_report) !! 1 = Some felled)
    by (vm_compute; reflexivity).
  assert (Hnone : reports (db world_report) !! 7 = None)
    by (vm_compute; reflexivity).
  split; [reflexivity |]. split; [exact Hrow |].
  split; [| split].
  - destruct (ownership_gate demo_upper env_mail_up (Caller 3 USER) 1 (Changes None None None)
                world_report eq_refl) as [_ H].
    destruct (H felled Hrow) as [Hdeny _].
    apply Hdeny; discriminate.
  - destruct (ownership_gate demo_upper env_mail_up (Caller 2 ADMIN) 1 (Changes None None None)
                world_report eq_refl) as [_ H].
    destruct (H felled Hrow) as [_ Hpass].
    apply Hpass. right. reflexivity.
  - destruct (ownership_gate demo_upper env_mail_up (Caller 1 USER) 7 (Changes None None None)
                world_report eq_refl) as [H _].
    apply H. exact Hnone.
Defined.

Lemma listings_paginate_witness :
  available world_fifteen
  /\ size (reports (db world_fifteen)) = 15%nat
  /\ exists (resp : response) (items : list json),
       getCommunityReports demo_upper env_mail_up
         (Listing (Some (Count 2 eq_refl)) (Some (Count 10 eq_refl)) None None)
         world_fifteen
       = (resp, world_fifteen)
       /\ jpath ["data"; "reports"] (body resp) = Some (JArr items)
       /\ length items = 5%nat
       /\ jpath ["data"; "pagination"; "totalPages"] (body resp) = Some (JInt 2)
       /\ jpath ["data"; "pagination"; "hasNextPage"] (body resp) = Some (JBool false)
       /\ jpath ["data"; "pagination"; "hasPrevPage"] (body resp) = Some (JBool true).
Proof.
  assert (Hsize : size (reports (db world_fifteen)) = 15%nat)
    by (vm_compute; reflexivity).
  split; [reflexivity |]. split; [exact Hsize |].
  destruct (listings_paginate demo_upper env_mail_up (Caller 1 USER)
              (Listing (Some (Count 2 eq_refl)) (Some (Count 10 eq_refl)) None None)
              world_fifteen eq_refl) as (_ & _ & _ & H).
  destruct (H Hsize)
    as (resp & items & Hrun & _ & Hitems & Hlen & _ & Hpages & _ & Hnext & Hprev).
  exists resp, items. auto 10.
Defined.

(** * Further properties of the controllers *)

(** ** Looking a user up by email *)

Lemma find_email_None (e : string) (m : gmap Z User.t) :
  find_email e m = None <->
  (forall id u, m !! id = Some u -> User.email u <> e).
Proof.
  unfold find_email. split.
  - intros H id u Hrow He.
    apply elem_of_map_to_list, list_elem_of_In in Hrow.
    pose proof (find_none _ _ H _ Hrow) as Hf.
    unfold has_email in Hf. simpl in Hf.
    apply String.eqb_neq in Hf. contradiction.
  - intros H. destruct (List.find _ _) as [[id u] |] eqn:E; [| reflexivity].
    apply find_email_Some in E as [Hrow He]. exfalso. eapply H; eauto.
Qed.

(** The row that carries an email is the one that is found, as soon as no
    other row carries it. *)
Lemma find_email_the (e : string) (m : gmap Z User.t) (id : Z) (u : User.t) :
  m !! id = Some u -> User.email u = e ->
  (forall j v, j <> id -> m !! j = Some v -> User.email v <> e) ->
  find_email e m = Some (id, u).
Proof.
  intros Hrow He Hothers.
  destruct (find_email e m) as [[j v] |] eqn:E.
  - apply find_email_Some in E as [Hj Hv].
    destruct (decide (j = id)) as [-> | Hne].
    + rewrite Hrow in Hj. injection Hj as <-. reflexivity.
    + exfalso. eapply Hothers; eauto.
  - exfalso. eapply find_email_None; eauto.
Qed.


Lemma find_email_insert (e : string) (m : gmap Z User.t) (id : Z) (u : User.t) :
  User.email u = e ->
  (forall j v, j <> id -> m !! j = Some v -> User.email v <> e) ->
  find_email e (<[id := u]> m) = Some (id, u).
Proof.
  intros He Hothers. apply find_email_the; [apply lookup_insert_eq | exact He |].
  intros j v Hne Hj. rewrite lookup_insert_ne in Hj by congruence. eauto.
Qed.

(** ** Computations that keep an invariant *)

Lemma keeps_ret {A} (I : Db -> Prop) (a : A) : keeps I (ret a).
Proof. apply hoare_ret. auto. Qed.

Lemma keeps_bind {A B} (I : Db -> Prop) (m : prisma A) (k : A -> prisma B) :
  keeps I m -> (forall a, keeps I (k a)) -> keeps I (bind m k).
Proof. intros Hm Hk. eapply hoare_bind; [exact Hm | exact Hk]. Qed.

Lemma keeps_try_catch (I : Db -> Prop) (m : prisma response) (h : response) :
  keeps I m -> forall w, I (db w) -> I (db (try_catch m h w).2).
Proof. intros Hm. apply hoare_try_catch. exact Hm. Qed.

Lemma keeps_reading {A} (I : Db -> Prop) (f : Db -> A) :
  keeps I (query (fun d => (Done (f d), d))).
Proof. apply hoare_query; auto. Qed.

Lemma keeps_user_findUnique (I : Db -> Prop) (e : string) :
  keeps I (user_findUnique e).
Proof. apply keeps_reading. Qed.

Lemma keeps_report_findUnique (I : Db -> Prop) (id : Z) :
  keeps I (report_findUnique id).
Proof. apply keeps_reading. Qed.

Lemma keeps_report_findMany (I : Db -> Prop) (env : Env) (wh : where_report)
    (skip limit : nat) :
  keeps I (report_findMany env wh skip limit).
Proof. apply keeps_reading. Qed.

Lemma keeps_compare (I : Db -> Prop) (bcrypt_compare : string -> string -> bool)
    (password : json) (digest : string) :
  keeps I (compare bcrypt_compare password digest).
Proof.
  destruct password; first [apply hoare_throw; auto | apply keeps_ret].
Qed.

Lemma keeps_report_count (I : Db -> Prop) (wh : where_report) :
  keeps I (report_count wh).
Proof. apply keeps_reading. Qed.

(** One step through the body of a controller. *)
Ltac keeps_reads :=
  first [ apply keeps_user_findUnique | apply keeps_report_findUnique
        | apply keeps_report_findMany | apply keeps_report_count
        | apply keeps_compare ].

Ltac keeps_walk prim :=
  repeat match goal with
         | |- keeps _ (ret _) => apply keeps_ret
         | |- keeps _ (bind _ _) =>
             apply keeps_bind; [first [keeps_reads | prim] | intros ?]
         | |- keeps _ (match ?x with _ => _ end) => destruct x
         | |- keeps _ _ => progress cbn beta iota zeta
         end.

Section Preservation.

Variable I : Db -> Prop.

Hypothesis I_user_create : forall d u,
  I d -> find_email (User.email u) (users d) = None ->
  users d !! user_seq d = None ->
  I (MkDb (<[user_seq d := u]> (users d)) (reports d)
          (user_seq d + 1) (report_seq d)).

Hypothesis I_user_update : forall d id u f,
  user_write f -> I d -> users d !! id = Some u ->
  I (set_users (<[id := f u]> (users d)) d).

Hypothesis I_report_create : forall d r u,
  I d -> users d !! Report.userId r = Some u ->
  reports d !! report_seq d = None ->
  I (MkDb (users d) (<[report_seq d := r]> (reports d))
          (user_seq d) (report_seq d + 1)).

Hypothesis I_report_update : forall d id r p,
  I d -> reports d !! id = Some r ->
  I (set_reports (<[id := Report.apply p r]> (reports d)) d).

Hypothesis I_report_delete : forall d id r,
  I d -> reports d !! id = Some r ->
  I (set_reports (delete id (reports d)) d).

Lemma keeps_user_create (env : Env) (data : Z -> User.t) :
  keeps I (user_create env data).
Proof.
  apply hoare_query; [auto |]. intros d Hd. cbv zeta.
  set (u := data (store_now env)).
  destruct (find_email (User.email u) (users d)) eqn:E1; [exact Hd |].
  destruct (users d !! user_seq d) eqn:E2; [exact Hd |].
  apply I_user_create; assumption.
Qed.

Lemma keeps_user_update (id : Z) (f : User.t -> User.t) :
  user_write f -> keeps I (user_update id f).
Proof.
  intros Hf. apply hoare_query; [auto |]. intros d Hd.
  destruct (users d !! id) eqn:E; [| exact Hd].
  apply I_user_update; assumption.
Qed.

Lemma keeps_report_create (r : Report.t) : keeps I (report_create r).
Proof.
  apply hoare_query; [auto |]. intros d Hd. cbv zeta.
  destruct (users d !! Report.userId r) eqn:E1; [| exact Hd].
  destruct (reports d !! report_seq d) eqn:E2; [exact Hd |].
  eapply I_report_create; eassumption.
Qed.

Lemma keeps_report_update (id : Z) (p : Report.patch) :
  keeps I (report_update id p).
Proof.
  apply hoare_query; [auto |]. intros d Hd.
  destruct (reports d !! id) eqn:E; [| exact Hd].
  apply I_report_update; assumption.
Qed.

Lemma keeps_report_delete (id : Z) : keeps I (report_delete id).
Proof.
  apply hoare_query; [auto |]. intros d Hd.
  destruct (reports d !! id) eqn:E; [| exact Hd].
  eapply I_report_delete; eassumption.
Qed.

Ltac keeps_writes :=
  first [ apply keeps_user_create
        | apply keeps_user_update; constructor
        | apply keeps_report_create
        | apply keeps_report_update
        | apply keeps_report_delete ].

(** Every controller keeps an invariant that the five writes keep. *)
Lemma handle_keeps toUpperCase bcrypt_hash bcrypt_compare jwt_sign env rq w :
  I (db w) -> I (db (handle toUpperCase bcrypt_hash bcrypt_compare jwt_sign env rq w).2).
Proof.
  destruct rq; simpl handle; apply keeps_try_catch; keeps_walk keeps_writes.
Qed.

End Preservation.

(** ** Invariants of the whole store *)

Lemma user_write_email (f : User.t -> User.t) (u : User.t) :
  user_write f -> User.email (f u) = User.email u.
Proof. intros []; reflexivity. Qed.

Lemma user_write_evolves (f : User.t -> User.t) (u : User.t) :
  user_write f -> user_evolves u (f u).
Proof.
  intros []; repeat split; simpl; try reflexivity; unfold pointsToAward; lia.
Qed.

Lemma user_evolves_trans (a b c : User.t) :
  user_evolves a b -> user_evolves b c -> user_evolves a c.
Proof.
  unfold user_evolves. intros (?&?&?&?&?&?&?) (?&?&?&?&?&?&?).
  repeat split; try congruence. lia.
Qed.

Lemma consistent_user_create d u :
  consistent d -> find_email (User.email u) (users d) = None ->
  users d !! user_seq d = None ->
  consistent (MkDb (<[user_seq d := u]> (users d)) (reports d)
                   (user_seq d + 1) (report_seq d)).
Proof.
  intros (Hu & Hs & Hr & Ho) Hnone Hfresh.
  pose proof (proj1 (find_email_None _ _) Hnone) as Hnew.
  split; [| split; [| split]]; simpl.
  - intros i j a b Hi Hj He.
    destruct (decide (i = user_seq d)) as [-> | Hni];
      destruct (decide (j = user_seq d)) as [-> | Hnj]; [reflexivity | | |].
    + rewrite lookup_insert_eq in Hi. injection Hi as <-.
      rewrite lookup_insert_ne in Hj by congruence.
      exfalso. eapply Hnew; eauto.
    + rewrite lookup_insert_eq in Hj. injection Hj as <-.
      rewrite lookup_insert_ne in Hi by congruence.
      exfalso. eapply Hnew; eauto.
    + rewrite lookup_insert_ne in Hi, Hj by congruence. eapply Hu; eauto.
  - intros id Hid. rewrite lookup_insert_ne by lia. apply Hs. lia.
  - exact Hr.
  - intros id r Hrow. destruct (Ho id r Hrow) as [v Hv].
    destruct (decide (Report.userId r = user_seq d)) as [E | E].
    + rewrite E, lookup_insert_eq. eauto.
    + rewrite lookup_insert_ne by congruence. eauto.
Qed.

Lemma consistent_user_update d id u f :
  user_write f -> consistent d -> users d !! id = Some u ->
  consistent (set_users (<[id := f u]> (users d)) d).
Proof.
  intros Hf (Hu & Hs & Hr & Ho) Hrow.
  pose proof (user_write_email f u Hf) as He.
  split; [| split; [| split]]; simpl.
  - intros i j a b Hi Hj Hab.
    destruct (decide (i = id)) as [-> | Hni];
      destruct (decide (j = id)) as [-> | Hnj]; [reflexivity | | |].
    + rewrite lookup_insert_eq in Hi. injection Hi as <-.
      rewrite lookup_insert_ne in Hj by congruence.
      eapply Hu; eauto. congruence.
    + rewrite lookup_insert_eq in Hj. injection Hj as <-.
      rewrite lookup_insert_ne in Hi by congruence.
      eapply Hu; eauto. congruence.
    + rewrite lookup_insert_ne in Hi, Hj by congruence. eapply Hu; eauto.
  - intros id0 Hid. destruct (decide (id0 = id)) as [-> | Hne].
    + rewrite (Hs id Hid) in Hrow. discriminate.
    + rewrite lookup_insert_ne by congruence. apply Hs. exact Hid.
  - exact Hr.
  - intros id0 r Hr0. destruct (Ho id0 r Hr0) as [v Hv].
    destruct (decide (Report.userId r = id)) as [E | E].
    + rewrite E, lookup_insert_eq. eauto.
    + rewrite lookup_insert_ne by congruence. eauto.
Qed.

Lemma consistent_report_create d r u :
  consistent d -> users d !! Report.userId r = Some u ->
  reports d !! report_seq d = None ->
  consistent (MkDb (users d) (<[report_seq d := r]> (reports d))
                   (user_seq d) (report_seq d + 1)).
Proof.
  intros (Hu & Hs & Hr & Ho) Howner Hfresh.
  split; [| split; [| split]]; simpl; [exact Hu | exact Hs | |].
  - intros id Hid. rewrite lookup_insert_ne by lia. apply Hr. lia.
  - intros id r0 Hrow. destruct (decide (id = report_seq d)) as [-> | Hne].
    + rewrite lookup_insert_eq in Hrow. injection Hrow as <-. eauto.
    + rewrite lookup_insert_ne in Hrow by congruence. eauto.
Qed.

Lemma consistent_report_update d id r p :
  consistent d -> reports d !! id = Some r ->
  consistent (set_reports (<[id := Report.apply p r]> (reports d)) d).
Proof.
  intros (Hu & Hs & Hr & Ho) Hrow.
  split; [| split; [| split]]; simpl; [exact Hu | exact Hs | |].
  - intros id0 Hid. destruct (decide (id0 = id)) as [-> | Hne].
    + rewrite (Hr id Hid) in Hrow. discriminate.
    + rewrite lookup_insert_ne by congruence. apply Hr. exact Hid.
  - intros id0 r0 Hr0. destruct (decide (id0 = id)) as [-> | Hne].
    + rewrite lookup_insert_eq in Hr0. injection Hr0 as <-. simpl. eauto.
    + rewrite lookup_insert_ne in Hr0 by congruence. eauto.
Qed.

Lemma consistent_report_delete d id r :
  consistent d -> reports d !! id = Some r ->
  consistent (set_reports (delete id (reports d)) d).
Proof.
  intros (Hu & Hs & Hr & Ho) Hrow.
  split; [| split; [| split]]; simpl; [exact Hu | exact Hs | |].
  - intros id0 Hid. destruct (decide (id0 = id)) as [-> | Hne].
    + apply lookup_delete_eq.
    + rewrite lookup_delete_ne by congruence. apply Hr. exact Hid.
  - intros id0 r0 Hr0. destruct (decide (id0 = id)) as [-> | Hne].
    + rewrite lookup_delete_eq in Hr0. discriminate.
    + rewrite lookup_delete_ne in Hr0 by congruence. eauto.
Qed.

(** X1: every controller, on every request and whatever the store does,
    keeps the store consistent: user emails stay unique, the two id
    sequences stay ahead of every row, and every report keeps an owner that
    exists. *)
Theorem controllers_keep_store_consistent
    toUpperCase bcrypt_hash bcrypt_compare jwt_sign
    (env : Env) (rq : request) (w : World) :
  consistent (db w) ->
  consistent (db (handle toUpperCase bcrypt_hash bcrypt_compare jwt_sign env rq w).2).
Proof.
  apply (handle_keeps consistent).
  - exact consistent_user_create.
  - intros d id u f Hf Hd Hrow. apply consistent_user_update; assumption.
  - exact consistent_report_create.
  - exact consistent_report_update.
  - exact consistent_report_delete.
Qed.

(** X2: no controller ever removes a user row, changes its name, mobile,
    email, password digest, role or creation time, or lowers its points,
    whatever the request and whatever the store does. *)
Theorem controllers_never_degrade_users
    toUpperCase bcrypt_hash bcrypt_compare jwt_sign
    (env : Env) (rq : request) (w : World) :
  users_evolve (db w)
    (db (handle toUpperCase bcrypt_hash bcrypt_compare jwt_sign env rq w).2).
Proof.
  apply (handle_keeps (users_evolve (db w))).
  - intros d u Hd _ Hfresh id u0 H0.
    destruct (Hd id u0 H0) as (u' & Hu' & Hev). exists u'. split; [| exact Hev].
    simpl. rewrite lookup_insert_ne; [exact Hu' | congruence].
  - intros d id u f Hf Hd Hrow id0 u0 H0.
    destruct (Hd id0 u0 H0) as (u' & Hu' & Hev). simpl.
    destruct (decide (id0 = id)) as [-> | Hne].
    + exists (f u). rewrite lookup_insert_eq. split; [reflexivity |].
      rewrite Hrow in Hu'. injection Hu' as <-.
      eapply user_evolves_trans; [exact Hev | apply user_write_evolves; exact Hf].
    + exists u'. rewrite lookup_insert_ne by congruence. auto.
  - intros d r u Hd _ _. exact Hd.
  - intros d id r p Hd _. exact Hd.
  - intros d id r Hd _. exact Hd.
  - intros id u H. exists u. split; [exact H |].
    repeat split; reflexivity.
Qed.

(** X3: login, the two listings and getReportById only read: whatever the
    store does, the database after the request is the database before it. *)
Theorem reading_controllers_leave_db
    toUpperCase bcrypt_hash bcrypt_compare jwt_sign
    (env : Env) (rq : request) (w : World) :
  reads_only rq = true ->
  db (handle toUpperCase bcrypt_hash bcrypt_compare jwt_sign env rq w).2 = db w.
Proof.
  intros Hro.
  destruct rq; try discriminate; simpl handle;
    (apply (keeps_try_catch (fun d => d = db w)); [| reflexivity]);
    keeps_walk fail.
Qed.

(** X4: when the store rejects the first Prisma call of a request, the
    controller answers with the 500 response of its catch block, which
    carries only [success: false] and a fixed message, and the database is
    untouched. *)
Theorem store_outage_answers_500
    toUpperCase bcrypt_hash bcrypt_compare jwt_sign (env : Env) (rq : request)
    (d : Db) (later : list bool) :
  (forall user req, rq = Submit user req -> complete req = true) ->
  handle toUpperCase bcrypt_hash bcrypt_compare jwt_sign env rq
         (MkWorld d (true :: later))
  = (catch_response rq, MkWorld d later)
  /\ status (catch_response rq) = 500
  /\ jkeys (body (catch_response rq)) = ["success"; "message"].
Proof.
  intros Hsub. split; [| destruct rq; split; reflexivity].
  destruct rq; try reflexivity.
  specialize (Hsub user req eq_refl). unfold complete in Hsub.
  apply andb_true_iff in Hsub as [Hsub Hp].
  apply andb_true_iff in Hsub as [Hsub Hl].
  apply andb_true_iff in Hsub as [Hc Hd].
  simpl handle. unfold submitReport, present. rewrite Hc, Hd, Hp.
  destruct (s_category req), (s_description req), (s_location req), (s_photo req);
    try discriminate.
  reflexivity.
Qed.

(** ** Account flows *)

Lemma generateOTP_nonempty (env : Env) : random_ok env -> generateOTP env <> "".
Proof.
  intros Hr E.
  destruct (toString_six _ (otp_value_range _ Hr)) as [Hlen _].
  unfold generateOTP in E. rewrite E in Hlen. discriminate.
Qed.

Lemma others_insert (e : string) (m : gmap Z User.t) (id : Z) (x : User.t) :
  (forall j v, j <> id -> m !! j = Some v -> User.email v <> e) ->
  forall j v, j <> id -> <[id := x]> m !! j = Some v -> User.email v <> e.
Proof.
  intros H j v Hne Hj. rewrite lookup_insert_ne in Hj by congruence. eauto.
Qed.

Lemma others_of_none (e : string) (m : gmap Z User.t) (id : Z) :
  find_email e m = None ->
  forall j v, j <> id -> m !! j = Some v -> User.email v <> e.
Proof. intros H j v _ Hj. eapply find_email_None; eauto. Qed.


Section AccountFlows.

Variable bcrypt_hash : string -> string -> string.
Variable bcrypt_compare : string -> string -> bool.
Variable jwt_sign : Z -> Z -> string.

Lemma signup_duplicate env name mobile email password d row :
  find_email email (users d) = Some row ->
  signup bcrypt_hash env name mobile email password (MkWorld d [])
  = (failure 400 "User with this email already exists", MkWorld d []).
Proof.
  intros Hfound. unfold signup, try_catch, bind.
  rewrite user_findUnique_up, Hfound. reflexivity.
Qed.

(** X5: after a signup has created an account, a second signup with the
    same email, whatever the other fields, is answered 400 'User with this
    email already exists' and changes nothing: the first account keeps its
    password digest and its OTP. *)
Theorem signup_twice_rejected
    (env env2 : Env) (name mobile email password name2 mobile2 password2 : string)
    (w : World) :
  available w ->
  find_email email (users (db w)) = None ->
  users (db w) !! user_seq (db w) = None ->
  let w1 := (signup bcrypt_hash env name mobile email password w).2 in
  signup bcrypt_hash env2 name2 mobile2 email password2 w1
  = (failure 400 "User with this email already exists", w1).
Proof.
  intros Hup Hnone Hfresh. rewrite (available_world w Hup). simpl db. cbv zeta.
  rewrite (signup_created bcrypt_hash env name mobile email password (db w)
             Hnone Hfresh).
  simpl snd. eapply signup_duplicate. simpl users.
  apply find_email_insert; [reflexivity |].
  apply others_of_none. exact Hnone.
Qed.

(** X6: the code generated at signup verifies the account when it is
    supplied within ten minutes; afterwards the user is verified with otp and
    otpExpiry cleared, and any further verification, with any code at any
    time, is answered 'Email is already verified' and changes nothing. *)
Theorem signup_then_verify
    (env env2 : Env) (name mobile email password : string) (w : World) :
  available w -> random_ok env ->
  find_email email (users (db w)) = None ->
  users (db w) !! user_seq (db w) = None ->
  now env2 <= now env + 10 * 60 * 1000 ->
  let w1 := (signup bcrypt_hash env name mobile email password w).2 in
  exists (resp : response) (w2 : World) (u' : User.t),
    verifyOTP jwt_sign env2 email (JStr (generateOTP env)) w1 = (resp, w2)
    /\ status resp = 200
    /\ jpath ["data"; "token"] (body resp)
       = Some (JStr (jwt_sign (user_seq (db w)) (now env2)))
    /\ users (db w2) !! user_seq (db w) = Some u'
    /\ User.isEmailVerified u' = true
    /\ User.otp u' = None /\ User.otpExpiry u' = None
    /\ (forall env3 code,
          verifyOTP jwt_sign env3 email code w2
          = (failure 400 "Email is already verified", w2)).
Proof.
  intros Hup Hr Hnone Hfresh Htime.
  rewrite (available_world w Hup). simpl db. cbv zeta.
  rewrite (signup_created bcrypt_hash env name mobile email password (db w)
             Hnone Hfresh).
  simpl snd.
  set (id := user_seq (db w)).
  set (u := new_user name mobile email (bcrypt_hash password (salt env))
                     (generateOTP env) (now env + 10 * 60 * 1000) (store_now env)).
  set (d1 := MkDb (<[id := u]> (users (db w))) (reports (db w))
                  (id + 1) (report_seq (db w))).
  assert (Hfound : find_email email (users d1) = Some (id, u)).
  { apply find_email_insert; [reflexivity |]. apply others_of_none. exact Hnone. }
  eexists _, _, (User.verified u). split.
  - apply (verifyOTP_in_time jwt_sign env2 email d1 id u
             (generateOTP env) (now env + 10 * 60 * 1000) Hfound);
      [reflexivity | reflexivity | apply generateOTP_nonempty; exact Hr
      | reflexivity | exact Htime].
  - split; [reflexivity |]. split; [reflexivity |].
    split; [apply lookup_insert_eq |].
    split; [reflexivity |]. split; [reflexivity |]. split; [reflexivity |].
    intros env3 code.
    rewrite (verifyOTP_found jwt_sign env3 email code _ id (User.verified u)).
    + reflexivity.
    + simpl users. apply find_email_insert; [reflexivity |].
      apply others_insert. apply others_of_none. exact Hnone.
Qed.



(** X8: resendOTP refuses an unknown email with 404 'User not found' and a
    verified user with 400 'Email is already verified'; in both cases no
    code is generated into the store. *)
Theorem resendOTP_refusals (env : Env) (email : string) (w : World) :
  available w ->
  (find_email email (users (db w)) = None ->
     resendOTP env email w = (failure 404 "User not found", w))
  /\
  (forall id u, find_email email (users (db w)) = Some (id, u) ->
     User.isEmailVerified u = true ->
     resendOTP env email w = (failure 400 "Email is already verified", w)).
Proof.
  intros Hup. rewrite (available_world w Hup). simpl db. split.
  - intros Hnone. unfold resendOTP, try_catch, bind.
    rewrite user_findUnique_up, Hnone. reflexivity.
  - intros id u Hfound Hv. unfold resendOTP, try_catch, bind.
    rewrite user_findUnique_up, Hfound, Hv. reflexivity.
Qed.

(** X9: login does not ask for a verified email: right after signup, with
    the account still unverified, the same email and password log in (when
    bcrypt accepts the password against the digest it made), and the answer
    is 200 with a token for the new user id and the user object without
    password or OTP; the store is untouched. *)
Theorem login_after_signup
    (env env2 : Env) (name mobile email password : string) (w : World) :
  available w ->
  find_email email (users (db w)) = None ->
  users (db w) !! user_seq (db w) = None ->
  bcrypt_compare password (bcrypt_hash password (salt env)) = true ->
  let w1 := (signup bcrypt_hash env name mobile email password w).2 in
  exists (resp : response) (user : json),
    login bcrypt_compare jwt_sign env2 email (JStr password) w1 = (resp, w1)
    /\ status resp = 200
    /\ jpath ["data"; "token"] (body resp)
       = Some (JStr (jwt_sign (user_seq (db w)) (now env2)))
    /\ jpath ["data"; "user"] (body resp) = Some user
    /\ jget "isEmailVerified" user = Some (JBool false)
    /\ jget "email" user = Some (JStr email)
    /\ sanitized user.
Proof.
  intros Hup Hnone Hfresh Hpw. rewrite (available_world w Hup). simpl db. cbv zeta.
  rewrite (signup_created bcrypt_hash env name mobile email password (db w)
             Hnone Hfresh).
  simpl snd.
  set (u := new_user name mobile email (bcrypt_hash password (salt env))
                     (generateOTP env) (now env + 10 * 60 * 1000) (store_now env)).
  assert (Hfound : find_email email (<[user_seq (db w) := u]> (users (db w)))
                   = Some (user_seq (db w), u)).
  { apply find_email_insert; [reflexivity |]. apply others_of_none. exact Hnone. }
  eexists _, _. split.
  - unfold login, try_catch, bind. rewrite user_findUnique_up. cbn [users].
    rewrite Hfound. cbn [compare User.password u new_user]. unfold ret at 1.
    rewrite Hpw. reflexivity.
  - repeat split.
Qed.

End AccountFlows.

(** ** Report flows *)

Lemma complete_present (req : submission) :
  complete req = true ->
  exists category description loc photo,
    present (s_category req) = Some category
    /\ present (s_description req) = Some description
    /\ s_location req = Some loc
    /\ present (s_photo req) = Some photo.
Proof.
  unfold complete, present. intros H.
  apply andb_true_iff in H as [H Hp]. apply andb_true_iff in H as [H Hl].
  apply andb_true_iff in H as [Hc Hd]. rewrite Hc, Hd, Hp.
  destruct (s_category req), (s_description req), (s_location req), (s_photo req);
    try discriminate.
  eauto 10.
Qed.

(** X10: a submission in which category, description or photo is absent or
    an empty string, or location is absent, is answered 400 'Missing required
    fields' before any Prisma call: no report is created and no points are
    awarded, and this holds even while the store is down. *)
Theorem submitReport_missing_fields
    (env : Env) (user : caller) (req : submission) (w : World) :
  complete req = false ->
  submitReport env user req w
  = (failure 400 "Missing required fields: category, description, location, and photo are required", w).
Proof.
  unfold complete, submitReport, present. intros H.
  destruct (s_category req) as [c |], (s_description req) as [d |],
           (s_location req) as [l |], (s_photo req) as [p |];
    simpl in H |- *; destruct w as [dw o];
    repeat match goal with
           | |- context [negb (?s =? "")%string] => destruct (s =? "")%string
           end; simpl in H |- *; try reflexivity; discriminate.
Qed.

Lemma report_create_up (r : Report.t) (d : Db) (u : User.t) :
  users d !! Report.userId r = Some u ->
  reports d !! report_seq d = None ->
  report_create r (MkWorld d []) =
  (Done (with_user d (report_seq d, r)),
   MkWorld (MkDb (users d) (<[report_seq d := r]> (reports d))
                 (user_seq d) (report_seq d + 1)) []).
Proof. intros H1 H2. unfold report_create, query. simpl. rewrite H1, H2. reflexivity. Qed.

Lemma submitReport_up env user req d category description loc photo u :
  present (s_category req) = Some category ->
  present (s_description req) = Some description ->
  s_location req = Some loc ->
  present (s_photo req) = Some photo ->
  users d !! caller_id user = Some u ->
  reports d !! report_seq d = None ->
  let r := Report.Row category description
             (loc_latitude loc) (loc_longitude loc) (loc_address loc)
             photo "PENDING" (caller_id user) (now env) (now env) in
  submitReport env user req (MkWorld d [])
  = (submitted_response (with_user d (report_seq d, r)),
     MkWorld (MkDb (<[caller_id user := User.increment_points pointsToAward u]> (users d))
                   (<[report_seq d := r]> (reports d))
                   (user_seq d) (report_seq d + 1)) []).
Proof.
  intros Hc Hd Hl Hp Hu Hfresh. cbv zeta.
  rewrite (submitReport_run _ _ _ _ _ _ _ Hc Hd Hl Hp).
  unfold try_catch, bind.
  rewrite (report_create_up _ _ u); [| exact Hu | exact Hfresh].
  rewrite (user_update_up _ _ _ u); [reflexivity | exact Hu].
Qed.

Lemma getReportById_up (user : caller) (id : Z) (d : Db) :
  getReportById user id (MkWorld d []) =
  (match reports d !! id with
   | None => failure 404 "Report not found"
   | Some r =>
       if denied user r then
         failure 403 "Access denied. You can only view your own reports."
       else
         Response 200 (JObj [
           ("success", JBool true);
           ("data", JObj [("report",
              report_json owner_columns (with_user d (id, r)))])])
   end, MkWorld d []).
Proof.
  unfold getReportById, try_catch, bind. rewrite report_findUnique_up.
  destruct (reports d !! id) as [r |]; [| reflexivity].
  change ((fun r0 => with_user d (id, r0)) <$> Some r)
    with (Some (with_user d (id, r))).
  cbn beta iota. change ((with_user d (id, r)).1.2) with r.
  destruct (denied user r); reflexivity.
Qed.

Lemma missing_report_404 toUpperCase env (user : caller) (id : Z) (req : changes)
    (d : Db) :
  reports d !! id = None ->
  getReportById user id (MkWorld d []) = (failure 404 "Report not found", MkWorld d [])
  /\ updateReport toUpperCase env user id req (MkWorld d [])
     = (failure 404 "Report not found", MkWorld d [])
  /\ deleteReport user id (MkWorld d [])
     = (failure 404 "Report not found", MkWorld d []).
Proof.
  intros Hnone.
  unfold getReportById, updateReport, deleteReport, try_catch, bind.
  rewrite !report_findUnique_up, Hnone. auto.
Qed.

(** X11: whenever updateReport answers 200, the caller was the owner or an
    ADMIN and exactly that report row was rewritten: owner, creation time,
    location and photo are kept, updatedAt is the current time, description
    and category are replaced only by non-empty values of the request, and
    status changes only for an ADMIN caller, to the upper-cased value of the
    request; no user row and no other report is touched. *)
Theorem updateReport_effect
    (toUpperCase : string -> string) (env : Env) (user : caller) (id : Z)
    (req : changes) (w w' : World) (resp : response) :
  updateReport toUpperCase env user id req w = (resp, w') ->
  status resp = 200 ->
  exists r r' : Report.t,
    reports (db w) !! id = Some r
    /\ (Report.userId r = caller_id user \/ caller_role user = ADMIN)
    /\ reports (db w') = <[id := r']> (reports (db w))
    /\ users (db w') = users (db w)
    /\ Report.userId r' = Report.userId r
    /\ Report.createdAt r' = Report.createdAt r
    /\ Report.latitude r' = Report.latitude r
    /\ Report.longitude r' = Report.longitude r
    /\ Report.address r' = Report.address r
    /\ Report.photo r' = Report.photo r
    /\ Report.updatedAt r' = now env
    /\ Report.description r'
       = default (Report.description r) (present (c_description req))
    /\ Report.category r'
       = default (Report.category r) (present (c_category req))
    /\ (caller_role user <> ADMIN -> Report.status r' = Report.status r)
    /\ (caller_role user = ADMIN ->
        Report.status r'
        = default (Report.status r) (toUpperCase <$> present (c_status req))).
Proof.
  intros Hrun Hst. unfold updateReport in Hrun.
  apply try_catch_inv in Hrun as [Hrun | [_ ->]]; [| discriminate].
  apply bind_inv in Hrun as (found & w1 & Hfind & Hrun).
  apply query_inv in Hfind as [Hfind _].
  injection Hfind as Hfound Hdb1.
  destruct (reports (db w) !! id) as [r |] eqn:Hrow;
    simpl in Hfound; subst found;
    [| injection Hrun as <- _; discriminate].
  cbn beta iota in Hrun. change ((with_user (db w) (id, r)).1.2) with r in Hrun.
  destruct (denied user r) eqn:Hden; [injection Hrun as <- _; discriminate |].
  apply bind_inv in Hrun as (updated & w2 & Hupd & Hret).
  injection Hret as _ <-.
  apply query_inv in Hupd as [Hupd _].
  rewrite <- Hdb1, Hrow in Hupd. injection Hupd as _ Hdb2.
  exists r, (Report.apply (updateData toUpperCase env user req) r).
  rewrite <- Hdb2. simpl.
  split; [reflexivity |].
  split.
  { unfold denied in Hden. apply andb_false_iff in Hden as [H | H].
    - left. apply negb_false_iff, Z.eqb_eq in H. exact H.
    - right. apply negb_false_iff in H. destruct (caller_role user);
        [discriminate | reflexivity]. }
  repeat (split; [reflexivity |]).
  split.
  - intros Hrole. destruct (caller_role user); [| congruence].
    rewrite andb_false_r. reflexivity.
  - intros ->. simpl. rewrite andb_true_r. unfold present.
    destruct (truthy (c_status req)); reflexivity.
Qed.

(** X12: once its owner or an ADMIN has deleted a report, GetById, Update
    and Delete on that id are answered 404 for every caller; every other
    report is still there and the user rows, with the points awarded at
    submission, are as they were. *)
Theorem delete_then_gone
    (toUpperCase : string -> string) (env : Env) (user : caller) (id : Z)
    (w : World) (r : Report.t) :
  available w ->
  reports (db w) !! id = Some r ->
  Report.userId r = caller_id user \/ caller_role user = ADMIN ->
  let w1 := (deleteReport user id w).2 in
  (forall (anyone : caller) (req : changes),
     getReportById anyone id w1 = (failure 404 "Report not found", w1)
     /\ updateReport toUpperCase env anyone id req w1
        = (failure 404 "Report not found", w1)
     /\ deleteReport anyone id w1 = (failure 404 "Report not found", w1))
  /\ users (db w1) = users (db w)
  /\ (forall j, j <> id -> reports (db w1) !! j = reports (db w) !! j).
Proof.
  intros Hup Hrow Hok. rewrite (available_world w Hup). simpl db. cbv zeta.
  assert (E : deleteReport user id (MkWorld (db w) [])
              = (Response 200 (JObj [
                   ("success", JBool true);
                   ("message", JStr "Report deleted successfully")]),
                 MkWorld (set_reports (delete id (reports (db w))) (db w)) [])).
  { unfold deleteReport, try_catch, bind.
    rewrite report_findUnique_up, Hrow.
    change ((fun r0 => with_user (db w) (id, r0)) <$> Some r)
      with (Some (with_user (db w) (id, r))).
    cbn beta iota. change ((with_user (db w) (id, r)).1.2) with r.
    rewrite (denied_false user r Hok), (report_delete_up _ _ _ Hrow).
    reflexivity. }
  rewrite E. simpl snd. split; [| split].
  - intros anyone req. apply missing_report_404. simpl. apply lookup_delete_eq.
  - reflexivity.
  - intros j Hj. simpl. apply lookup_delete_ne. congruence.
Qed.

(** X13: a report that has just been submitted can be read back by its
    owner under the id the submission returned, with the submitted category,
    description, location and photo, status PENDING and the submission time;
    a different caller who is not ADMIN is answered 403 for it. *)
Theorem submit_then_get
    (env : Env) (user : caller) (req : submission) (w : World) (u : User.t) :
  available w ->
  complete req = true ->
  users (db w) !! caller_id user = Some u ->
  reports (db w) !! report_seq (db w) = None ->
  let id := report_seq (db w) in
  let w1 := (submitReport env user req w).2 in
  exists (r : Report.t) (loc : location),
    jpath ["data"; "report"; "id"] (body (submitReport env user req w).1)
    = Some (JInt id)
    /\ getReportById user id w1
       = (Response 200 (JObj [
            ("success", JBool true);
            ("data", JObj [("report",
               report_json owner_columns (with_user (db w1) (id, r)))])]), w1)
    /\ present (s_category req) = Some (Report.category r)
    /\ present (s_description req) = Some (Report.description r)
    /\ present (s_photo req) = Some (Report.photo r)
    /\ s_location req = Some loc
    /\ Report.latitude r = loc_latitude loc
    /\ Report.longitude r = loc_longitude loc
    /\ Report.address r = loc_address loc
    /\ Report.status r = "PENDING"
    /\ Report.userId r = caller_id user
    /\ Report.createdAt r = now env
    /\ (forall other : caller,
          caller_id other <> caller_id user -> caller_role other <> ADMIN ->
          getReportById other id w1
          = (failure 403 "Access denied. You can only view your own reports.", w1)).
Proof.
  intros Hup Hcomplete Hu Hfresh. rewrite (available_world w Hup). simpl db.
  destruct (complete_present req Hcomplete)
    as (category & description & loc & photo & Hc & Hd & Hl & Hp).
  cbv zeta.
  rewrite (submitReport_up env user req (db w) _ _ _ _ u Hc Hd Hl Hp Hu Hfresh).
  simpl fst. simpl snd.
  eexists _, loc. split; [reflexivity |].
  split.
  { rewrite getReportById_up. simpl reports. rewrite lookup_insert_eq.
    unfold denied. simpl Report.userId. rewrite Z.eqb_refl. reflexivity. }
  repeat (split; [first [reflexivity | assumption] |]).
  intros other Hid Hrole.
  rewrite getReportById_up. simpl reports. rewrite lookup_insert_eq.
  rewrite denied_true; [reflexivity | simpl; congruence | exact Hrole].
Qed.

(** ** The listings, further *)

Lemma reporter_withheld (item : (Z * Report.t) * option User.t) :
  exists reporter,
    jget "user" (report_json reporter_columns item) = Some reporter
    /\ jget "email" reporter = None
    /\ jget "mobile" reporter = None
    /\ jget "points" reporter = None
    /\ sanitized reporter.
Proof.
  destruct item as [[id r] [u |]]; eexists; (split; [reflexivity |]);
    repeat split.
Qed.

(** X14: in the public community listing, the reporter attached to each
    report carries at most id and name: no email, mobile number, points,
    password digest or OTP state of any user leaves through it. *)
Theorem community_listing_withholds_contact
    (toUpperCase : string -> string) (env : Env) (q : listing) (w : World) :
  available w ->
  exists (resp : response) (items : list json),
    getCommunityReports toUpperCase env q w = (resp, w)
    /\ jpath ["data"; "reports"] (body resp) = Some (JArr items)
    /\ (forall item, item ∈ items ->
          exists reporter,
            jget "user" item = Some reporter
            /\ jget "email" reporter = None
            /\ jget "mobile" reporter = None
            /\ jget "points" reporter = None
            /\ sanitized reporter).
Proof.
  intros Hup. rewrite (available_world w Hup). simpl db.
  eexists _, _. split; [apply getCommunityReports_up |].
  split; [reflexivity |].
  intros item Hitem.
  apply list_elem_of_fmap in Hitem as (row & -> & _).
  apply reporter_withheld.
Qed.

Lemma next_flag (p L T shown : Z) :
  1 <= p -> 1 <= L -> 0 <= T ->
  shown = Z.min L (Z.max 0 (T - (p - 1) * L)) ->
  ((p - 1) * L + shown <? T)%Z = (p <? ceil_div T L)%Z.
Proof.
  intros Hp HL HT ->. unfold ceil_div.
  pose proof (Z.div_mod T L ltac:(lia)) as Hdm.
  pose proof (Z.mod_pos_bound T L ltac:(lia)) as Hm.
  set (q := T / L) in *. set (m := T mod L) in *.
  destruct (Z.eqb_spec m 0) as [Hz | Hz];
    destruct (Z.ltb_spec ((p - 1) * L + Z.min L (Z.max 0 (T - (p - 1) * L))) T);
    match goal with
    | |- _ = (?a <? ?b)%Z => destruct (Z.ltb_spec a b)
    end; try reflexivity; exfalso; nia.
Qed.

Lemma shown_rows (env : Env) (wh : where_report) (m : gmap Z Report.t)
    (p L : positive) :
  Z.of_nat (length (page_rows env wh m L p))
  = Z.min (Z.pos L)
          (Z.max 0 (Z.of_nat (length (selected wh m)) - (Z.pos p - 1) * Z.pos L)).
Proof.
  unfold page_rows. rewrite page_length.
  assert (Hsk : 0 <= (Z.pos p - 1) * Z.pos L) by (apply Z.mul_nonneg_nonneg; lia).
  set (sk := (Z.pos p - 1) * Z.pos L) in *. lia.
Qed.

Lemma page_flags (keys : list string) (env : Env) (d : Db) (wh : where_report)
    (p L : positive) :
  let total := Z.of_nat (length (selected wh (reports d))) in
  let resp :=
    page_response keys (with_user d <$> page_rows env wh (reports d) L p)
      (Z.pos p) (Z.pos L) ((Z.pos p - 1) * Z.pos L) total in
  exists totalPages : Z,
    (totalPages - 1) * Z.pos L < total <= totalPages * Z.pos L
    /\ jpath ["data"; "pagination"; "currentPage"] (body resp) = Some (JInt (Z.pos p))
    /\ jpath ["data"; "pagination"; "totalPages"] (body resp) = Some (JInt totalPages)
    /\ jpath ["data"; "pagination"; "hasNextPage"] (body resp)
       = Some (JBool (Z.pos p <? totalPages)%Z)
    /\ jpath ["data"; "pagination"; "hasPrevPage"] (body resp)
       = Some (JBool (1 <? Z.pos p)%Z)
    /\ (totalPages < Z.pos p ->
        jpath ["data"; "reports"] (body resp) = Some (JArr [])).
Proof.
  cbv zeta. exists (ceil_div (Z.of_nat (length (selected wh (reports d)))) (Z.pos L)).
  split; [apply ceil_div_least; lia |].
  split; [reflexivity |]. split; [reflexivity |].
  split; [| split].
  - unfold page_response, pagination_json.
    cbn [body jpath jget assoc String.eqb Ascii.eqb Bool.eqb].
    rewrite length_fmap.
    rewrite (next_flag (Z.pos p) (Z.pos L)
               (Z.of_nat (length (selected wh (reports d)))) _
               ltac:(lia) ltac:(lia) ltac:(lia) (shown_rows env wh (reports d) p L)).
    reflexivity.
  - unfold page_response, pagination_json.
    cbn [body jpath jget assoc String.eqb Ascii.eqb Bool.eqb].
    rewrite Z.gtb_ltb. reflexivity.
  - intros Hpast.
    assert (Hnone : page_rows env wh (reports d) L p = []).
    { apply length_zero_iff_nil. apply Nat2Z.inj. rewrite shown_rows.
      revert Hpast. unfold ceil_div.
      pose proof (Z.div_mod (Z.of_nat (length (selected wh (reports d)))) (Z.pos L)
                    ltac:(lia)) as Hdm.
      pose proof (Z.mod_pos_bound (Z.of_nat (length (selected wh (reports d))))
                    (Z.pos L) ltac:(lia)) as Hm.
      destruct (Z.eqb_spec (Z.of_nat (length (selected wh (reports d))) mod Z.pos L) 0);
        intros Hpast; simpl Z.of_nat; nia. }
    unfold page_response. cbn [body jpath jget assoc String.eqb Ascii.eqb Bool.eqb].
    rewrite Hnone. reflexivity.
Qed.

(** X15: in both listings, for a page and a page size from 1 to 32767, the
    flags agree with the page numbers: totalPages is the least number of
    pages that hold the matching reports, hasNextPage holds exactly when
    currentPage is below totalPages, hasPrevPage exactly when currentPage is
    above 1, and a page past the last one is answered 200 with an empty list
    of reports. *)
Theorem pagination_flags_agree
    (toUpperCase : string -> string) (env : Env) (user : caller) (p L : count)
    (category wanted : option string) (w : World) :
  available w ->
  let q := Listing (Some p) (Some L) category wanted in
  let page := Z.pos (count_value p) in
  let limit := Z.pos (count_value L) in
  (exists (resp : response) (totalPages totalReports : Z),
     getUserReports toUpperCase env user q w = (resp, w)
     /\ status resp = 200
     /\ jpath ["data"; "pagination"; "totalReports"] (body resp)
        = Some (JInt totalReports)
     /\ (totalPages - 1) * limit < totalReports <= totalPages * limit
     /\ jpath ["data"; "pagination"; "currentPage"] (body resp) = Some (JInt page)
     /\ jpath ["data"; "pagination"; "totalPages"] (body resp) = Some (JInt totalPages)
     /\ jpath ["data"; "pagination"; "hasNextPage"] (body resp)
        = Some (JBool (page <? totalPages)%Z)
     /\ jpath ["data"; "pagination"; "hasPrevPage"] (body resp)
        = Some (JBool (1 <? page)%Z)
     /\ (totalPages < page ->
         jpath ["data"; "reports"] (body resp) = Some (JArr [])))
  /\
  (exists (resp : response) (totalPages totalReports : Z),
     getCommunityReports toUpperCase env q w = (resp, w)
     /\ status resp = 200
     /\ jpath ["data"; "pagination"; "totalReports"] (body resp)
        = Some (JInt totalReports)
     /\ (totalPages - 1) * limit < totalReports <= totalPages * limit
     /\ jpath ["data"; "pagination"; "currentPage"] (body resp) = Some (JInt page)
     /\ jpath ["data"; "pagination"; "totalPages"] (body resp) = Some (JInt totalPages)
     /\ jpath ["data"; "pagination"; "hasNextPage"] (body resp)
        = Some (JBool (page <? totalPages)%Z)
     /\ jpath ["data"; "pagination"; "hasPrevPage"] (body resp)
        = Some (JBool (1 <? page)%Z)
     /\ (totalPages < page ->
         jpath ["data"; "reports"] (body resp) = Some (JArr []))).
Proof.
  intros Hup. rewrite (available_world w Hup). simpl db. cbv zeta. split.
  - destruct (page_flags owner_columns env (db w)
                (Where (Some (caller_id user)) None (status_filter toUpperCase wanted))
                (count_value p) (count_value L)) as (tp & Hflags).
    eexists _, tp, _. split; [apply getUserReports_up |].
    split; [reflexivity |]. split; [reflexivity |]. exact Hflags.
  - destruct (page_flags reporter_columns env (db w)
                (Where None (present category) (status_filter toUpperCase wanted))
                (count_value p) (count_value L)) as (tp & Hflags).
    eexists _, tp, _. split; [apply getCommunityReports_up |].
    split; [reflexivity |]. split; [reflexivity |]. exact Hflags.
Qed.

Lemma pages_concat {A} (l : list A) (L k : nat) :
  concat ((fun i => take L (drop (i * L) l)) <$> seq 0 k) = take (k * L) l.
Proof.
  induction k as [| k IH]; [reflexivity |].
  rewrite seq_S, fmap_app, concat_app, IH. simpl.
  rewrite app_nil_r, take_take_drop. f_equal. lia.
Qed.

(** The ids read back from a listing response are those of its rows. *)
Lemma listed_ids_page (keys : list string) (d : Db) (rows : list (Z * Report.t))
    (page limit skip total : Z) :
  listed_ids (page_response keys (with_user d <$> rows) page limit skip total)
  = rows.*1.
Proof.
  unfold listed_ids, page_response.
  cbn [body jpath jget assoc String.eqb Ascii.eqb Bool.eqb].
  induction rows as [| [id r] rows IH]; [reflexivity |].
  cbn [fmap list_fmap omap list_omap]. cbn [fmap list_fmap omap list_omap] in IH.
  simpl. f_equal. exact IH.
Qed.

Lemma selected_ids_NoDup (wh : where_report) (m : gmap Z Report.t) :
  NoDup (selected wh m).*1.
Proof.
  unfold selected. pose proof (NoDup_fst_map_to_list m) as Hnd.
  induction (map_to_list m) as [| row l IH]; [constructor |].
  cbn [fmap list_fmap] in Hnd. apply NoDup_cons in Hnd as [Hrow Hl].
  simpl. destruct (matches wh row); [| apply IH; exact Hl].
  cbn [fmap list_fmap]. apply NoDup_cons. split; [| apply IH; exact Hl].
  intros Hin. apply Hrow.
  apply list_elem_of_fmap in Hin as (row' & E & Hin).
  apply list_elem_of_fmap. exists row'. split; [exact E |].
  apply list_elem_of_In in Hin. apply filter_In in Hin as [Hin _].
  apply list_elem_of_In. exact Hin.
Qed.

Lemma distinct_by_times (rows : list (Z * Report.t)) :
  NoDup ((fun row => Report.createdAt row.2) <$> rows) -> distinct_times rows.
Proof.
  induction rows as [| row rows IH]; intros Hnd a b Ha Hb E.
  - apply elem_of_nil in Ha. contradiction.
  - cbn [fmap list_fmap] in Hnd. apply NoDup_cons in Hnd as [Hfresh Hnd].
    apply elem_of_cons in Ha, Hb.
    destruct Ha as [-> | Ha], Hb as [-> | Hb].
    + reflexivity.
    + exfalso. apply Hfresh. rewrite E.
      apply (list_elem_of_fmap_2 (fun row => Report.createdAt row.2)). exact Hb.
    + exfalso. apply Hfresh. rewrite <- E.
      apply (list_elem_of_fmap_2 (fun row => Report.createdAt row.2)). exact Ha.
    + apply IH; assumption.
Qed.

(** When no two matching reports share a creation time, every query finds
    them in one and the same order, however the store treats ties. *)
Lemma found_order_fixed (env : Env) (wh : where_report) (m : gmap Z Report.t) :
  distinct_times (selected wh m) ->
  merge_sort (comes_before env) (selected wh m)
  = merge_sort newer_first (selected wh m).
Proof.
  intros Hdistinct.
  apply (StronglySorted_unique_strong newer_first).
  - intros a b Ha Hb Hab Hba.
    rewrite merge_sort_Permutation in Ha, Hb.
    apply Hdistinct; [exact Ha | exact Hb |]. unfold newer_first in *. lia.
  - apply found_sorted.
  - apply StronglySorted_merge_sort; apply _.
  - rewrite !merge_sort_Permutation. reflexivity.
Qed.

(** X16: walking the community listing page by page with a fixed page size
    and filter neither skips nor repeats a report, as long as no two
    matching reports were created in the same millisecond: the ids read from
    the responses to pages 1 to k, put one after the other, are the first
    k times pageSize ids of one newest-first ordering of the matching
    reports, in which no id occurs twice; this holds however the store
    orders equal creation times in each of the k queries. *)
Theorem pages_tile_the_listing
    (toUpperCase : string -> string) (envs : nat -> Env) (pages : nat -> count)
    (L : count) (category wanted : option string) (w : World) (k : nat) :
  available w ->
  let wh := Where None (present category) (status_filter toUpperCase wanted) in
  distinct_times (selected wh (reports (db w))) ->
  (forall i, (i < k)%nat -> count_value (pages i) = Pos.of_nat (S i)) ->
  exists ordered : list (Z * Report.t),
    ordered ≡ₚ selected wh (reports (db w))
    /\ StronglySorted newer_first ordered
    /\ NoDup ordered.*1
    /\ concat ((fun i =>
                  listed_ids
                    (getCommunityReports toUpperCase (envs i)
                       (Listing (Some (pages i)) (Some L) category wanted) w).1)
                 <$> seq 0 k)
       = take (k * Pos.to_nat (count_value L)) ordered.*1.
Proof.
  intros Hup. rewrite (available_world w Hup). simpl db. cbv zeta.
  intros Hdistinct Hpages.
  set (wh := Where None (present category) (status_filter toUpperCase wanted)) in *.
  exists (merge_sort newer_first (selected wh (reports (db w)))).
  split; [apply merge_sort_Permutation |].
  split; [apply StronglySorted_merge_sort; apply _ |].
  split.
  { rewrite merge_sort_Permutation. apply selected_ids_NoDup. }
  rewrite <- pages_concat. f_equal.
  apply list_fmap_ext. intros j i Hi.
  apply lookup_seq in Hi as [Hi Hlt]. simpl in Hi. subst j.
  rewrite (getCommunityReports_up toUpperCase (envs i) _ (db w)).
  cbn [q_page q_limit q_category q_status fmap option_fmap option_map default].
  fold wh. simpl fst. rewrite listed_ids_page.
  rewrite (found_order_fixed _ _ _ Hdistinct), Hpages by exact Hlt.
  rewrite fmap_take, fmap_drop.
  assert (E : Z.pos (Pos.of_nat (S i)) - 1 = Z.of_nat i)
    by (rewrite <- Pos.of_nat_succ, Zpos_P_of_succ_nat; lia).
  rewrite E, Z2Nat.inj_mul, Nat2Z.id by lia. reflexivity.
Qed.

Lemma updateReport_stores toUpperCase env user id req d r :
  reports d !! id = Some r ->
  denied user r = false ->
  (updateReport toUpperCase env user id req (MkWorld d [])).2
  = MkWorld (set_reports
               (<[id := Report.apply (updateData toUpperCase env user req) r]>
                  (reports d)) d) [].
Proof.
  intros Hrow Hden. unfold updateReport, try_catch, bind.
  rewrite report_findUnique_up, Hrow.
  change ((fun r0 => with_user d (id, r0)) <$> Some r)
    with (Some (with_user d (id, r))).
  cbn beta iota. change ((with_user d (id, r)).1.2) with r. rewrite Hden.
  rewrite (report_update_up _ _ _ _ Hrow). reflexivity.
Qed.

(** What a listing filtered by a status lists and counts. *)
Lemma status_listing (keys : list string) (env : Env) (d : Db) (wh : where_report)
    (wanted : string) (id : Z) (r : Report.t) :
  w_status wh = Some wanted ->
  reports d !! id = Some r ->
  matches wh (id, r) = true ->
  let rows := take 10 (drop 0 (merge_sort (comes_before env)
                                 (selected wh (reports d)))) in
  let total := Z.of_nat (length (selected wh (reports d))) in
  let resp := page_response keys (with_user d <$> rows) 1 10 0 total in
  jpath ["data"; "pagination"; "totalReports"] (body resp) = Some (JInt total)
  /\ 1 <= total
  /\ (total <= 10 -> id ∈ listed_ids resp)
  /\ (forall i, i ∈ listed_ids resp ->
        exists ri, reports d !! i = Some ri /\ Report.status ri = wanted).
Proof.
  intros Hwanted Hrow Hmatch. cbv zeta.
  assert (Hin : (id, r) ∈ selected wh (reports d))
    by (apply selected_elem; split; assumption).
  split; [reflexivity |].
  split.
  { destruct (selected wh (reports d)); [| simpl; lia].
    apply elem_of_nil in Hin. contradiction. }
  rewrite listed_ids_page. split.
  - intros Hfew. rewrite drop_0, take_ge.
    + apply (list_elem_of_fmap_2 fst (merge_sort _ _) (id, r)).
      rewrite merge_sort_Permutation. exact Hin.
    + rewrite (Permutation_length (merge_sort_Permutation (comes_before env) _)).
      lia.
  - intros i Hi. apply list_elem_of_fmap in Hi as ([i' ri] & -> & Hrows).
    apply page_elem in Hrows as [Hlook Hm]. exists ri. split; [exact Hlook |].
    unfold matches in Hm. rewrite Hwanted in Hm.
    apply andb_true_iff in Hm as [_ Hs]. apply String.eqb_eq. exact Hs.
Qed.

(** X17: the status an ADMIN sets is the status the listings filter by,
    whatever the engine's toUpperCase does to it: after an ADMIN has set a
    report's status to a non-empty s with updateReport, the report's stored
    status is s.toUpperCase(), and the community listing and its owner's
    own listing, asked for status s in the same spelling, count that
    report, list only reports with that stored status, and show the report
    on the first page when at most ten reports match. *)
Theorem updated_status_is_listed
    (toUpperCase : string -> string) (env env2 env3 : Env) (admin : caller)
    (id : Z) (req : changes) (s : string) (w : World) (r : Report.t)
    (role : Role) :
  available w ->
  reports (db w) !! id = Some r ->
  caller_role admin = ADMIN ->
  c_status req = Some s -> s <> "" ->
  let w1 := (updateReport toUpperCase env admin id req w).2 in
  let q := Listing None None None (Some s) in
  let owner := Caller (Report.userId r) role in
  exists r' : Report.t,
    reports (db w1) !! id = Some r'
    /\ Report.status r' = toUpperCase s
    /\ (exists (resp : response) (total : Z),
          getCommunityReports toUpperCase env2 q w1 = (resp, w1)
          /\ jpath ["data"; "pagination"; "totalReports"] (body resp)
             = Some (JInt total)
          /\ 1 <= total
          /\ (total <= 10 -> id ∈ listed_ids resp)
          /\ (forall i, i ∈ listed_ids resp ->
                exists ri, reports (db w1) !! i = Some ri
                           /\ Report.status ri = toUpperCase s))
    /\ (exists (resp : response) (total : Z),
          getUserReports toUpperCase env3 owner q w1 = (resp, w1)
          /\ jpath ["data"; "pagination"; "totalReports"] (body resp)
             = Some (JInt total)
          /\ 1 <= total
          /\ (total <= 10 -> id ∈ listed_ids resp)
          /\ (forall i, i ∈ listed_ids resp ->
                exists ri, reports (db w1) !! i = Some ri
                           /\ Report.status ri = toUpperCase s
                           /\ Report.userId ri = Report.userId r)).
Proof.
  intros Hup Hrow Hadmin Hreq Hne. rewrite (available_world w Hup). simpl db.
  cbv zeta.
  rewrite (updateReport_stores toUpperCase env admin id req (db w) r Hrow
             (denied_false admin r (or_intror Hadmin))).
  assert (Htruthy : truthy (Some s) = true).
  { unfold truthy. apply negb_true_iff, String.eqb_neq. exact Hne. }
  assert (Hstatus : Report.status (Report.apply (updateData toUpperCase env admin req) r)
                    = toUpperCase s).
  { unfold updateData. rewrite Hreq, Hadmin, Htruthy. reflexivity. }
  assert (Howner : Report.userId (Report.apply (updateData toUpperCase env admin req) r)
                   = Report.userId r) by reflexivity.
  remember (Report.apply (updateData toUpperCase env admin req) r) as r' eqn:Er'.
  clear Er'.
  set (d1 := set_reports (<[id := r']> (reports (db w))) (db w)).
  assert (Hrow' : reports d1 !! id = Some r') by apply lookup_insert_eq.
  assert (Hfilter : status_filter toUpperCase (Some s) = Some (toUpperCase s)).
  { unfold status_filter, present. rewrite Htruthy. reflexivity. }
  exists r'. split; [exact Hrow' |]. split; [exact Hstatus |]. split.
  - rewrite (getCommunityReports_up toUpperCase env2 _ d1).
    cbn [q_page q_limit q_category q_status fmap option_fmap option_map default
         present truthy].
    rewrite Hfilter. change ((1 - 1) * 10) with 0.
    eexists _, _. split; [reflexivity |].
    apply (status_listing reporter_columns env2 d1
             (Where None None (Some (toUpperCase s))) (toUpperCase s) id r'
             eq_refl Hrow').
    unfold matches. cbn [w_userId w_category w_status fst snd andb].
    rewrite Hstatus. apply String.eqb_refl.
  - rewrite (getUserReports_up toUpperCase env3 _ _ d1).
    cbn [q_page q_limit q_category q_status fmap option_fmap option_map default
         caller_id].
    rewrite Hfilter. change ((1 - 1) * 10) with 0.
    assert (Hmatch : matches (Where (Some (Report.userId r)) None
                                    (Some (toUpperCase s))) (id, r') = true).
    { unfold matches. cbn [w_userId w_category w_status fst snd].
      rewrite Howner, Z.eqb_refl, Hstatus. apply String.eqb_refl. }
    destruct (status_listing owner_columns env3 d1
                (Where (Some (Report.userId r)) None (Some (toUpperCase s)))
                (toUpperCase s) id r' eq_refl Hrow' Hmatch)
      as (Htotal & Hone & Hfirst & Hall).
    eexists _, _. split; [reflexivity |].
    split; [exact Htotal |]. split; [exact Hone |]. split; [exact Hfirst |].
    intros i Hi. destruct (Hall i Hi) as (ri & Hri & Hsi).
    exists ri. split; [exact Hri |]. split; [exact Hsi |].
    rewrite listed_ids_page in Hi.
    apply list_elem_of_fmap in Hi as ([i' ri'] & -> & Hrows).
    apply page_elem in Hrows as [Hlook Hm]. simpl in Hlook, Hri.
    rewrite Hri in Hlook. injection Hlook as <-.
    apply (matches_owner _ _ _ Hm).
Qed.

(** X18: when the validation chain has reported errors, the submit route
    stops at handleValidationErrors: the answer is 400 'Validation failed'
    listing every error in order as field and message, submitReport is not
    run, so no report is created, no points are awarded and no Prisma call
    is made; with no error the route is submitReport itself. *)
Theorem validation_errors_stop_submission
    (errors : list validation_error) (env : Env) (user : caller)
    (req : submission) (w : World) :
  (errors <> [] ->
   exists items,
     post_report errors env user req w
     = (Response 400 (JObj [
          ("success", JBool false);
          ("message", JStr "Validation failed");
          ("errors", JArr items)]), w)
     /\ length items = length errors
     /\ (forall i e, errors !! i = Some e ->
           items !! i = Some (JObj [("field", JStr (path e));
                                    ("message", JStr (msg e))])))
  /\ (errors = [] ->
      post_report errors env user req w = submitReport env user req w).
Proof.
  split.
  - intros Hne. exists (error_json <$> errors).
    split; [destruct errors; [contradiction | reflexivity] |].
    split; [apply length_fmap |].
    intros i e Hi. rewrite list_lookup_fmap, Hi. reflexivity.
  - intros ->. reflexivity.
Qed.

(** ** Submissions add up *)

Lemma submitReport_step env user req d u :
  consistent d -> complete req = true ->
  users d !! caller_id user = Some u ->
  exists d',
    (submitReport env user req (MkWorld d [])).2 = MkWorld d' []
    /\ consistent d'
    /\ users d' = <[caller_id user := User.increment_points pointsToAward u]> (users d)
    /\ size (reports d') = S (size (reports d)).
Proof.
  intros Hcons Hcomplete Hu.
  destruct (complete_present req Hcomplete)
    as (category & description & loc & photo & Hc & Hd & Hl & Hp).
  assert (Hfresh : reports d !! report_seq d = None).
  { destruct Hcons as (_ & _ & Hr & _). apply Hr. lia. }
  rewrite (submitReport_up env user req d _ _ _ _ u Hc Hd Hl Hp Hu Hfresh).
  eexists. split; [reflexivity |]. split; [| split].
  - match goal with
    | |- consistent (MkDb _ (<[?j := ?r]> _) _ _) =>
        pose proof (consistent_report_create d r u Hcons Hu Hfresh) as Hmid;
        apply (consistent_user_update
                 (MkDb (users d) (<[j := r]> (reports d))
                       (user_seq d) (report_seq d + 1))
                 (caller_id user) u (User.increment_points pointsToAward)
                 write_points Hmid Hu)
    end.
  - reflexivity.
  - simpl. apply map_size_insert_None. exact Hfresh.
Qed.

(** X19: points add up over submissions: after n complete submissions by
    one caller, made one after the other against a consistent store that is
    up, the caller has exactly 10 n points more, the store holds exactly n
    reports more, and every other user row is unchanged. *)
Theorem repeated_submissions_add_up
    (user : caller) (reqs : list (Env * submission)) (w : World) (u : User.t) :
  available w ->
  consistent (db w) ->
  users (db w) !! caller_id user = Some u ->
  Forall (fun er => complete er.2 = true) reqs ->
  let w' := submit_all user reqs w in
  exists u',
    users (db w') !! caller_id user = Some u'
    /\ User.points u' = User.points u + 10 * Z.of_nat (length reqs)
    /\ size (reports (db w')) = (size (reports (db w)) + length reqs)%nat
    /\ (forall id, id <> caller_id user ->
          users (db w') !! id = users (db w) !! id).
Proof.
  intros Hup. rewrite (available_world w Hup). simpl db. cbv zeta.
  generalize (db w). clear w Hup. intros d Hcons Hu Hall.
  revert d u Hcons Hu.
  induction Hall as [| [env req] rest Hreq _ IH]; intros d u Hcons Hu.
  - exists u. simpl. repeat split; [exact Hu | lia | lia].
  - simpl submit_all.
    destruct (submitReport_step env user req d u Hcons Hreq Hu)
      as (d' & -> & Hcons' & Husers & Hsize).
    assert (Hu' : users d' !! caller_id user
                  = Some (User.increment_points pointsToAward u)).
    { rewrite Husers. apply lookup_insert_eq. }
    destruct (IH d' _ Hcons' Hu') as (u' & Hrow & Hpoints & Hcount & Hothers).
    exists u'. split; [exact Hrow |]. split; [| split].
    + rewrite Hpoints. simpl User.points. unfold pointsToAward.
      simpl length. lia.
    + rewrite Hcount, Hsize. simpl length. lia.
    + intros id Hid. rewrite (Hothers id Hid), Husers.
      apply lookup_insert_ne. congruence.
Qed.

(** ** What the responses disclose *)

Lemma returns_try_catch (P : response -> Prop) (m : prisma response) (h : response) :
  hoare (fun _ => True) (fun _ => True) m (fun r _ => P r) ->
  P h -> forall w, P (try_catch m h w).1.
Proof.
  intros Hm Hh w. unfold try_catch. specialize (Hm w I).
  destruct (m w) as [[r |] w']; simpl; auto.
Qed.

Lemma returns_bind {A} (P : response -> Prop) (m : prisma A)
    (k : A -> prisma response) :
  (forall a, hoare (fun _ => True) (fun _ => True) (k a) (fun r _ => P r)) ->
  hoare (fun _ => True) (fun _ => True) (bind m k) (fun r _ => P r).
Proof.
  intros Hk w _. unfold bind.
  destruct (m w) as [[a |] w']; [apply Hk |]; exact I.
Qed.

Lemma returns_ret (P : response -> Prop) (r : response) :
  P r -> hoare (fun _ => True) (fun _ => True) (ret r) (fun r _ => P r).
Proof. intros H w _. exact H. Qed.

Lemma discreet_failure (code : Z) (message : string) : discreet (failure code message).
Proof. repeat split. Qed.

Lemma discreet_account (row : Z * User.t) (k : string) :
  has_key k (select_user account_columns row)
  = existsb (String.eqb k) account_columns.
Proof.
  destruct row as [id u]. simpl.
  rewrite !(String.eqb_sym k). rewrite !orb_false_r. reflexivity.
Qed.

Lemma has_key_fmap {A} (k : string) (f : A -> json) (l : list A) :
  (forall a, has_key k (f a) = false) -> existsb (has_key k) (f <$> l) = false.
Proof.
  intros H. induction l as [| a l IH]; [reflexivity |].
  change (existsb (has_key k) (f a :: (f <$> l)) = false).
  cbn [existsb]. rewrite H, IH. reflexivity.
Qed.

Lemma discreet_report (keys : list string) (item : (Z * Report.t) * option User.t) :
  keys = owner_columns \/ keys = reporter_columns ->
  has_key "password" (report_json keys item) = false
  /\ has_key "otp" (report_json keys item) = false
  /\ has_key "otpExpiry" (report_json keys item) = false.
Proof.
  intros [-> | ->]; destruct item as [[id r] [u |]]; repeat split.
Qed.

Lemma discreet_page (keys : list string) rows page limit skip total :
  keys = owner_columns \/ keys = reporter_columns ->
  discreet (page_response keys rows page limit skip total).
Proof.
  intros Hk. unfold discreet, page_response, pagination_json.
  cbn [body has_key existsb fst snd String.eqb Ascii.eqb Bool.eqb orb].
  rewrite !has_key_fmap; [repeat split | ..];
    intros item; apply (discreet_report keys item Hk).
Qed.

Ltac returns_walk :=
  repeat match goal with
         | |- hoare _ _ (ret _) _ => apply returns_ret
         | |- hoare _ _ (bind _ _) _ => apply returns_bind; intros ?
         | |- hoare _ _ (match ?x with _ => _ end) _ => destruct x
         | |- hoare _ _ _ _ => progress cbn beta iota zeta
         end.

(** X20: no response of any controller, to any request and whatever the
    store does, has a property named password, otp or otpExpiry at any depth:
    the password digest and the OTP columns never leave under their own
    names. *)
Theorem responses_are_discreet
    toUpperCase bcrypt_hash bcrypt_compare jwt_sign
    (env : Env) (rq : request) (w : World) :
  discreet (handle toUpperCase bcrypt_hash bcrypt_compare jwt_sign env rq w).1.
Proof.
  destruct rq; simpl handle;
    (apply (returns_try_catch discreet); [| apply discreet_failure]);
    returns_walk;
    try apply discreet_failure;
    try (apply discreet_page; auto).
  - unfold discreet, registered_response.
    destruct (negb _);
      cbn [body has_key existsb fst snd String.eqb Ascii.eqb Bool.eqb orb];
      rewrite !discreet_account; repeat split.
  - repeat split.
  - unfold discreet, verified_response.
    cbn [body has_key existsb fst snd String.eqb Ascii.eqb Bool.eqb orb].
    rewrite !discreet_account. repeat split.
  - unfold discreet, resent_response. destruct (negb _); repeat split.
  - unfold discreet, submitted_response.
    match goal with |- context [let '(_, _) := ?x in _] =>
      destruct x as [[id r] [u0 |]] end; repeat split.
  - unfold discreet. simpl.
    match goal with |- context [report_json _ ?x] =>
      destruct (discreet_report owner_columns x (or_introl eq_refl))
        as (H1 & H2 & H3) end.
    rewrite H1, H2, H3. repeat split.
  - unfold discreet. simpl.
    match goal with |- context [report_json _ ?x] =>
      destruct (discreet_report owner_columns x (or_introl eq_refl))
        as (H1 & H2 & H3) end.
    rewrite H1, H2, H3. repeat split.
  - repeat split.
Qed.

(** ** The further statements on sample requests *)

Ltac concrete_lookups :=
  repeat match goal with
         | H : <[_ := _]> _ !! _ = Some _ |- _ =>
             apply lookup_insert_Some in H as [[<- <-] | [? H]]
         | H : ∅ !! _ = Some _ |- _ => rewrite lookup_empty in H; discriminate
         end.

Lemma db_two_consistent : consistent db_two.
Proof.
  unfold consistent, db_two. simpl. split; [| split; [| split]].
  - intros i j u v Hi Hj He. concrete_lookups; first [reflexivity | discriminate].
  - intros id Hid. rewrite !lookup_insert_ne by lia. apply lookup_empty.
  - intros id _. apply lookup_empty.
  - intros id r H. rewrite lookup_empty in H. discriminate.
Qed.

Lemma db_report_consistent : consistent db_report.
Proof.
  unfold consistent, db_report, db_two. simpl. split; [| split; [| split]].
  - intros i j u v Hi Hj He. concrete_lookups; first [reflexivity | discriminate].
  - intros id Hid. rewrite !lookup_insert_ne by lia. apply lookup_empty.
  - intros id Hid. rewrite lookup_insert_ne by lia. apply lookup_empty.
  - intros id r H. concrete_lookups. simpl. eexists. apply lookup_insert_eq.
Qed.

Lemma cy_unknown : find_email "cy@x.org" (users (db world_two)) = None.
Proof. vm_compute. reflexivity. Qed.

Lemma three_fresh : users (db world_two) !! user_seq (db world_two) = None.
Proof. vm_compute. reflexivity. Qed.

Lemma env_mail_up_random : random_ok env_mail_up.
Proof. vm_compute. repeat split; discriminate. Qed.

Lemma controllers_keep_store_consistent_witness :
  consistent (db world_report)
  /\ consistent (db (handle demo_upper demo_hash demo_compare demo_sign env_mail_up
                       (Delete (Caller 2 ADMIN) 1) world_report).2)
  /\ consistent (db (handle demo_upper demo_hash demo_compare demo_sign env_mail_up
                       (Signup "Cy" "0123456780" "cy@x.org" "Pw1234")
                       (MkWorld db_report [false])).2).
Proof.
  split; [exact db_report_consistent |]. split.
  - apply (controllers_keep_store_consistent demo_upper demo_hash demo_compare demo_sign
             env_mail_up (Delete (Caller 2 ADMIN) 1) world_report
             db_report_consistent).
  - apply (controllers_keep_store_consistent demo_upper demo_hash demo_compare demo_sign
             env_mail_up (Signup "Cy" "0123456780" "cy@x.org" "Pw1234")
             (MkWorld db_report [false]) db_report_consistent).
Defined.

Lemma reading_controllers_leave_db_witness :
  reads_only (Login "ann@x.org" (JStr "Pw1234")) = true
  /\ db (handle demo_upper demo_hash demo_compare demo_sign env_mail_up
           (Login "ann@x.org" (JStr "Pw1234")) (MkWorld db_two [false; true])).2
     = db_two.
Proof.
  split; [reflexivity |].
  apply (reading_controllers_leave_db demo_upper demo_hash demo_compare demo_sign env_mail_up
           (Login "ann@x.org" (JStr "Pw1234")) (MkWorld db_two [false; true]) eq_refl).
Defined.

Lemma store_outage_answers_500_witness :
  complete mangrove = true
  /\ handle demo_upper demo_hash demo_compare demo_sign env_mail_up
       (Submit (Caller 1 USER) mangrove) (MkWorld db_two [true])
     = (failure 500 "Internal server error while submitting report",
        MkWorld db_two []).
Proof.
  split; [reflexivity |].
  apply (store_outage_answers_500 demo_upper demo_hash demo_compare demo_sign env_mail_up
           (Submit (Caller 1 USER) mangrove) db_two []).
  intros user req E. injection E as _ <-. reflexivity.
Defined.

Lemma signup_twice_rejected_witness :
  available world_two
  /\ find_email "cy@x.org" (users (db world_two)) = None
  /\ users (db world_two) !! user_seq (db world_two) = None
  /\ signup demo_hash env_mail_down "Mallory" "0000000000" "cy@x.org" "Other9x"
       (signup demo_hash env_mail_up "Cy" "0123456780" "cy@x.org" "Pw1234"
               world_two).2
     = (failure 400 "User with this email already exists",
        (signup demo_hash env_mail_up "Cy" "0123456780" "cy@x.org" "Pw1234"
                world_two).2).
Proof.
  split; [reflexivity |]. split; [exact cy_unknown |]. split; [exact three_fresh |].
  apply (signup_twice_rejected demo_hash env_mail_up env_mail_down
           "Cy" "0123456780" "cy@x.org" "Pw1234" "Mallory" "0000000000" "Other9x"
           world_two eq_refl cy_unknown three_fresh).
Defined.

Lemma signup_then_verify_witness :
  available world_two /\ random_ok env_mail_up
  /\ now env_at_expiry <= now env_mail_up + 10 * 60 * 1000
  /\ exists resp w2,
       verifyOTP demo_sign env_at_expiry "cy@x.org" (JStr (generateOTP env_mail_up))
         (signup demo_hash env_mail_up "Cy" "0123456780" "cy@x.org" "Pw1234"
                 world_two).2
       = (resp, w2)
       /\ status resp = 200.
Proof.
  assert (Ht : now env_at_expiry <= now env_mail_up + 10 * 60 * 1000)
    by (vm_compute; discriminate).
  split; [reflexivity |]. split; [exact env_mail_up_random |]. split; [exact Ht |].
  destruct (signup_then_verify demo_hash demo_sign env_mail_up env_at_expiry
              "Cy" "0123456780" "cy@x.org" "Pw1234" world_two
              eq_refl env_mail_up_random cy_unknown three_fresh Ht)
    as (resp & w2 & u' & Hrun & Hst & _).
  exists resp, w2. split; [exact Hrun | exact Hst].
Defined.


Lemma resendOTP_refusals_witness :
  available world_two
  /\ resendOTP env_mail_up "nobody@x.org" world_two
     = (failure 404 "User not found", world_two)
  /\ resendOTP env_mail_up "bob@x.org" world_two
     = (failure 400 "Email is already verified", world_two).
Proof.
  split; [reflexivity |]. split.
  - apply (resendOTP_refusals env_mail_up "nobody@x.org" world_two eq_refl).
    vm_compute. reflexivity.
  - apply (proj2 (resendOTP_refusals env_mail_up "bob@x.org" world_two eq_refl)
             2 bob); [vm_compute; reflexivity | reflexivity].
Defined.

Lemma login_after_signup_witness :
  available world_two
  /\ demo_compare "Pw1234" (demo_hash "Pw1234" (salt env_mail_up)) = true
  /\ exists resp,
       login demo_compare demo_sign env_at_expiry "cy@x.org" (JStr "Pw1234")
         (signup demo_hash env_mail_up "Cy" "0123456780" "cy@x.org" "Pw1234"
                 world_two).2
       = (resp, (signup demo_hash env_mail_up "Cy" "0123456780" "cy@x.org" "Pw1234"
                        world_two).2)
       /\ status resp = 200.
Proof.
  split; [reflexivity |]. split; [reflexivity |].
  destruct (login_after_signup demo_hash demo_compare demo_sign
              env_mail_up env_at_expiry "Cy" "0123456780" "cy@x.org" "Pw1234"
              world_two eq_refl cy_unknown three_fresh eq_refl)
    as (resp & user & Hrun & Hst & _).
  exists resp. split; [exact Hrun | exact Hst].
Defined.

Lemma submitReport_missing_fields_witness :
  complete half_filled = false
  /\ submitReport env_mail_up (Caller 1 USER) half_filled (MkWorld db_two [true])
     = (failure 400 "Missing required fields: category, description, location, and photo are required",
        MkWorld db_two [true]).
Proof.
  split; [reflexivity |].
  apply (submitReport_missing_fields env_mail_up (Caller 1 USER) half_filled
           (MkWorld db_two [true]) eq_refl).
Defined.

Lemma updateReport_effect_witness :
  status (updateReport demo_upper env_at_expiry (Caller 1 USER) 1 reword
            world_report).1 = 200
  /\ exists r',
       reports (db (updateReport demo_upper env_at_expiry (Caller 1 USER) 1 reword
                      world_report).2) !! 1 = Some r'
       /\ Report.status r' = "PENDING"
       /\ Report.description r' = "Stumps counted: fourteen"
       /\ Report.updatedAt r' = 601000.
Proof.
  assert (Hst : status (updateReport demo_upper env_at_expiry (Caller 1 USER) 1
                          reword world_report).1 = 200) by (vm_compute; reflexivity).
  split; [exact Hst |].
  destruct (updateReport_effect demo_upper env_at_expiry (Caller 1 USER) 1 reword
              world_report _ _ (surjective_pairing _) Hst)
    as (r & r' & Hrow & _ & Hreports & _ & _ & _ & _ & _ & _ & _ & Hupd & Hdesc
        & _ & Hstatus & _).
  assert (E : reports (db world_report) !! 1 = Some felled)
    by (vm_compute; reflexivity).
  rewrite E in Hrow. injection Hrow as <-.
  exists r'. split; [rewrite Hreports; apply lookup_insert_eq |].
  split; [rewrite Hstatus; [reflexivity | discriminate] |].
  split; [rewrite Hdesc; reflexivity | exact Hupd].
Defined.

Lemma delete_then_gone_witness :
  available world_report
  /\ reports (db world_report) !! 1 = Some felled
  /\ getReportById (Caller 1 USER) 1 (deleteReport (Caller 2 ADMIN) 1 world_report).2
     = (failure 404 "Report not found",
        (deleteReport (Caller 2 ADMIN) 1 world_report).2)
  /\ users (db (deleteReport (Caller 2 ADMIN) 1 world_report).2)
     = users (db world_report).
Proof.
  assert (Hrow : reports (db world_report) !! 1 = Some felled)
    by (vm_compute; reflexivity).
  split; [reflexivity |]. split; [exact Hrow |].
  destruct (delete_then_gone demo_upper env_mail_up (Caller 2 ADMIN) 1 world_report felled
              eq_refl Hrow (or_intror eq_refl)) as (Hgone & Husers & _).
  split; [apply (Hgone (Caller 1 USER) (Changes None None None)) | exact Husers].
Defined.

Lemma submit_then_get_witness :
  available world_two
  /\ complete mangrove = true
  /\ users (db world_two) !! 1 = Some ann
  /\ getReportById (Caller 2 USER) 1
       (submitReport env_mail_up (Caller 1 USER) mangrove world_two).2
     = (failure 403 "Access denied. You can only view your own reports.",
        (submitReport env_mail_up (Caller 1 USER) mangrove world_two).2).
Proof.
  assert (Hu : users (db world_two) !! caller_id (Caller 1 USER) = Some ann)
    by (vm_compute; reflexivity).
  assert (Hfresh : reports (db world_two) !! report_seq (db world_two) = None)
    by (vm_compute; reflexivity).
  split; [reflexivity |]. split; [reflexivity |]. split; [exact Hu |].
  destruct (submit_then_get env_mail_up (Caller 1 USER) mangrove world_two ann
              eq_refl eq_refl Hu Hfresh)
    as (r & loc & _ & _ & _ & _ & _ & _ & _ & _ & _ & _ & _ & _ & Hother).
  apply (Hother (Caller 2 USER)); discriminate.
Defined.

Lemma community_listing_withholds_contact_witness :
  available world_report
  /\ exists resp items,
       getCommunityReports demo_upper env_mail_up (Listing None None None None)
         world_report
       = (resp, world_report)
       /\ jpath ["data"; "reports"] (body resp) = Some (JArr items)
       /\ length items = 1%nat
       /\ (forall item, item ∈ items ->
             exists reporter,
               jget "user" item = Some reporter /\ jget "email" reporter = None).
Proof.
  split; [reflexivity |].
  destruct (community_listing_withholds_contact demo_upper env_mail_up (Listing None None None None)
              world_report eq_refl) as (resp & items & Hrun & Hitems & Hall).
  exists resp, items. split; [exact Hrun |]. split; [exact Hitems |].
  split.
  - assert (E : getCommunityReports demo_upper env_mail_up (Listing None None None None)
         world_report
                = ((getCommunityReports demo_upper env_mail_up (Listing None None None None)
         world_report).1,
                   world_report)) by (vm_compute; reflexivity).
    rewrite E in Hrun. injection Hrun as <-.
    vm_compute in Hitems. injection Hitems as <-. reflexivity.
  - intros item Hitem. destruct (Hall item Hitem) as (reporter & H1 & H2 & _).
    exists reporter. auto.
Defined.

Lemma pagination_flags_agree_witness :
  available world_fifteen
  /\ exists resp,
       getCommunityReports demo_upper env_mail_up
         (Listing (Some (Count 2 eq_refl)) (Some (Count 10 eq_refl)) None None)
         world_fifteen
       = (resp, world_fifteen)
       /\ jpath ["data"; "pagination"; "totalPages"] (body resp) = Some (JInt 2)
       /\ jpath ["data"; "pagination"; "hasNextPage"] (body resp) = Some (JBool false).
Proof.
  split; [reflexivity |].
  destruct (pagination_flags_agree demo_upper env_mail_up (Caller 1 USER)
              (Count 2 eq_refl) (Count 10 eq_refl) None None world_fifteen eq_refl)
    as (_ & resp & totalPages & totalReports & Hrun & _ & _ & _ & _ & Htotal
        & Hnext & _).
  exists resp. split; [exact Hrun |].
  assert (E : getCommunityReports demo_upper env_mail_up
                (Listing (Some (Count 2 eq_refl)) (Some (Count 10 eq_refl)) None None)
                world_fifteen
              = ((getCommunityReports demo_upper env_mail_up
                    (Listing (Some (Count 2 eq_refl)) (Some (Count 10 eq_refl))
                             None None)
                    world_fifteen).1, world_fifteen)) by (vm_compute; reflexivity).
  rewrite E in Hrun. injection Hrun as <-.
  assert (Ht : totalPages = 2).
  { vm_compute in Htotal. injection Htotal as <-. reflexivity. }
  subst totalPages. split; [exact Htotal | exact Hnext].
Defined.

Lemma fifteen_distinct_times :
  distinct_times
    (selected (Where None (present None) (status_filter demo_upper None))
              (reports (db world_fifteen))).
Proof.
  apply distinct_by_times. apply (bool_decide_unpack _). vm_compute. exact I.
Qed.

Lemma first_pages_numbered (i : nat) :
  (i < 2)%nat -> count_value (first_pages i) = Pos.of_nat (S i).
Proof. destruct i as [| [| i]]; intros Hi; [reflexivity | reflexivity | lia]. Qed.

Lemma pages_tile_the_listing_witness :
  available world_fifteen
  /\ distinct_times
       (selected (Where None (present None) (status_filter demo_upper None))
                 (reports (db world_fifteen)))
  /\ exists ordered : list (Z * Report.t),
       NoDup ordered.*1
       /\ concat ((fun i =>
                     listed_ids
                       (getCommunityReports demo_upper (env_ties i)
                          (Listing (Some (first_pages i)) (Some (Count 10 eq_refl))
                                   None None) world_fifteen).1)
                    <$> seq 0 2)
          = take 20 ordered.*1.
Proof.
  split; [reflexivity |]. split; [exact fifteen_distinct_times |].
  destruct (pages_tile_the_listing demo_upper env_ties first_pages
              (Count 10 eq_refl) None None world_fifteen 2 eq_refl
              fifteen_distinct_times first_pages_numbered)
    as (ordered & _ & _ & Hnodup & Hpages).
  exists ordered. split; [exact Hnodup | exact Hpages].
Defined.

Lemma updated_status_is_listed_witness :
  available world_report
  /\ reports (db world_report) !! 1 = Some felled
  /\ exists r' : Report.t,
       reports (db (updateReport demo_upper env_mail_up (Caller 2 ADMIN) 1 reword
                      world_report).2) !! 1 = Some r'
       /\ Report.status r' = "APPROVED"
       /\ 1 ∈ listed_ids
               (getCommunityReports demo_upper env_at_expiry
                  (Listing None None None (Some "approved"))
                  (updateReport demo_upper env_mail_up (Caller 2 ADMIN) 1 reword
                     world_report).2).1.
Proof.
  assert (Hrow : reports (db world_report) !! 1 = Some felled)
    by (vm_compute; reflexivity).
  split; [reflexivity |]. split; [exact Hrow |].
  destruct (updated_status_is_listed demo_upper env_mail_up env_at_expiry
              env_at_expiry (Caller 2 ADMIN) 1 reword "approved" world_report
              felled USER eq_refl Hrow eq_refl eq_refl ltac:(discriminate))
    as (r' & Hrow' & Hstatus & (resp & total & Hrun & Htotal & _ & Hfirst & _) & _).
  exists r'. split; [exact Hrow' |]. split; [exact Hstatus |].
  rewrite Hrun. simpl fst. apply Hfirst.
  apply (f_equal fst) in Hrun. simpl fst in Hrun. rewrite <- Hrun in Htotal.
  vm_compute in Htotal. injection Htotal as <-. lia.
Defined.

Lemma repeated_submissions_add_up_witness :
  available world_two
  /\ consistent (db world_two)
  /\ users (db world_two) !! 1 = Some ann
  /\ exists u',
       users (db (submit_all (Caller 1 USER)
                    [(env_mail_up, mangrove); (env_at_expiry, mangrove)]
                    world_two)) !! 1 = Some u'
       /\ User.points u' = 20.
Proof.
  assert (Hu : users (db world_two) !! caller_id (Caller 1 USER) = Some ann)
    by (vm_compute; reflexivity).
  split; [reflexivity |]. split; [exact db_two_consistent |]. split; [exact Hu |].
  destruct (repeated_submissions_add_up (Caller 1 USER)
              [(env_mail_up, mangrove); (env_at_expiry, mangrove)] world_two ann
              eq_refl db_two_consistent Hu
              ltac:(repeat constructor))
    as (u' & Hrow & Hpoints & _).
  exists u'. split; [exact Hrow | exact Hpoints].
Defined.
